(** * Cloudflare DDNS: the update procedure of [cloudflare_ddns.py]

    A shallow embedding of the class [CloudflareDDNS] (methods
    [load_config], [setup_wizard], [get_public_ip], [cf_api_request],
    [update_dns]) and of the script's [__main__] block, followed by the
    properties of the reconciliation procedure and of the configuration
    store.

    Conventions.
    - A Python [str] is a Rocq [string] holding its UTF-8 bytes.
    - Values decoded from JSON are terms of [json]; the dynamic operations
      the script applies to them ([.get], subscripts, [len], truth value)
      return a [result], with the exception Python raises.
    - The network is a function [net] from an HTTP call to its reply; the
      calls issued and the log records emitted are threaded through a state
      and error monad [M]. *)

From Stdlib Require Import String Ascii List ZArith NArith Bool Lia.
From Stdlib Require Import DecimalString Floats.PrimFloat.
Import ListNotations.

Open Scope string_scope.
Open Scope Z_scope.

(** ** Python values *)

Module Py.

#[local] Set Warnings "-register-all".

(** What [json.loads] and [response.json()] produce.  A dict is kept as an
    association list whose first binding of a key is the one that counts. *)
Inductive json : Type :=
| JNull
| JBool (b : bool)
| JInt (n : Z)
| JFloat (f : float)
| JStr (s : string)
| JArr (items : list json)
| JObj (fields : list (string * json)).

(** Exceptions the script can meet.  [KeyboardInterrupt] is the only one that
    is not a subclass of [Exception]; [RequestException] stands for the
    whole [requests.exceptions] hierarchy and carries [str(e)] together with
    what [e.response.json()] gives, [None] when there is no response or its
    body does not decode. *)
Inductive exn : Type :=
| KeyboardInterrupt
| RequestException (msg : string) (response_json : option json)
| ValueError (msg : string)
| KeyError (key : string)
| IndexError
| TypeError
| AttributeError
| OtherException (msg : string).

Inductive result (A : Type) : Type :=
| Returns (a : A)
| Raises (e : exn).
Arguments Returns {A} a.
Arguments Raises {A} e.

(** [except Exception] *)
Definition is_Exception (e : exn) : bool :=
  match e with
  | KeyboardInterrupt => false
  | _ => true
  end.

(** [except requests.exceptions.RequestException] *)
Definition is_RequestException (e : exn) : bool :=
  match e with
  | RequestException _ _ => true
  | _ => false
  end.

(** Truth value of a string, as in [if ip:]. *)
Definition str_truthy (s : string) : bool :=
  match s with
  | EmptyString => false
  | String _ _ => true
  end.

(** Truth value of a decoded value, as in [if not records:]. *)
Definition truthy (v : json) : bool :=
  match v with
  | JNull => false
  | JBool b => b
  | JInt n => negb (n =? 0)
  | JFloat f => negb (is_zero f)
  | JStr s => str_truthy s
  | JArr items => match items with [] => false | _ :: _ => true end
  | JObj fields => match fields with [] => false | _ :: _ => true end
  end.

(** Lookup in a dict. *)
Fixpoint lookup (key : string) (fields : list (string * json)) : option json :=
  match fields with
  | [] => None
  | (k, v) :: rest => if String.eqb k key then Some v else lookup key rest
  end.

(** [d.get(key, default)]; only a dict has the method. *)
Definition get (d : json) (key : string) (default : json) : result json :=
  match d with
  | JObj fields =>
      Returns (match lookup key fields with Some v => v | None => default end)
  | _ => Raises AttributeError
  end.

(** [d[key]] for a string key. *)
Definition getitem (d : json) (key : string) : result json :=
  match d with
  | JObj fields =>
      match lookup key fields with
      | Some v => Returns v
      | None => Raises (KeyError key)
      end
  | _ => Raises TypeError
  end.

(** A byte that continues a UTF-8 sequence. *)
Definition is_continuation (c : ascii) : bool :=
  let b := N_of_ascii c in ((128 <=? b) && (b <? 192))%N.

Fixpoint continuation_prefix (s : string) : string :=
  match s with
  | String c rest =>
      if is_continuation c then String c (continuation_prefix rest)
      else EmptyString
  | EmptyString => EmptyString
  end.

(** Number of characters of a string. *)
Fixpoint str_len (s : string) : nat :=
  match s with
  | EmptyString => O
  | String c rest =>
      if is_continuation c then str_len rest else S (str_len rest)
  end.

(** [x[0]] *)
Definition getitem0 (x : json) : result json :=
  match x with
  | JArr (v :: _) => Returns v
  | JArr [] => Raises IndexError
  | JStr (String c rest) => Returns (JStr (String c (continuation_prefix rest)))
  | JStr EmptyString => Raises IndexError
  | JObj _ => Raises (KeyError "0")
  | _ => Raises TypeError
  end.

(** [len(x)] *)
Definition len (x : json) : result nat :=
  match x with
  | JArr items => Returns (List.length items)
  | JObj fields => Returns (List.length fields)
  | JStr s => Returns (str_len s)
  | _ => Raises TypeError
  end.

(** The characters of a string, as a [for] over it visits them. *)
Fixpoint chars (s : string) : list string :=
  match s with
  | EmptyString => []
  | String c rest =>
      match chars rest with
      | String c' h :: t =>
          if is_continuation c' then String c (String c' h) :: t
          else String c EmptyString :: String c' h :: t
      | cs => String c EmptyString :: cs
      end
  end.

(** What [for x in v] visits. *)
Definition iter (v : json) : result (list json) :=
  match v with
  | JArr items => Returns items
  | JObj fields => Returns (map (fun kv => JStr (fst kv)) fields)
  | JStr s => Returns (map JStr (chars s))
  | _ => Raises TypeError
  end.

(** [sep.join(l)]: every item has to be a string. *)
Fixpoint strings (l : list json) : result (list string) :=
  match l with
  | [] => Returns []
  | JStr s :: rest =>
      match strings rest with
      | Returns ss => Returns (s :: ss)
      | Raises e => Raises e
      end
  | _ :: _ => Raises TypeError
  end.

Definition join (sep : string) (l : list json) : result string :=
  match strings l with
  | Returns ss => Returns (String.concat sep ss)
  | Raises e => Raises e
  end.

(** [str(n)] for an integer. *)
Definition str_of_Z (n : Z) : string := NilZero.string_of_int (Z.to_int n).

(** [x == s] for a string [s]: only an equal string is equal to it. *)
Definition eq_str (x : json) (s : string) : bool :=
  match x with
  | JStr t => String.eqb t s
  | _ => false
  end.

(** *** [str.strip()]

    The characters Python counts as white space, in UTF-8: U+0009..U+000D,
    U+001C..U+0020, U+0085, U+00A0, U+1680, U+2000..U+200A, U+2028, U+2029,
    U+202F, U+205F, U+3000. *)
Definition is_space1 (b : N) : bool :=
  (((9 <=? b) && (b <=? 13)) || ((28 <=? b) && (b <=? 32)))%N.

Definition is_space_E2_80 (b : N) : bool :=
  (((128 <=? b) && (b <=? 138)) || (b =? 168) || (b =? 169) || (b =? 175))%N.

(** Number of bytes of the white-space character the bytes start with,
    [0] when they start with none. *)
Definition leading_space (l : list N) : nat :=
  match l with
  | b0 :: l1 =>
      if is_space1 b0 then 1%nat
      else match l1 with
      | b1 :: l2 =>
          if ((b0 =? 194) && ((b1 =? 133) || (b1 =? 160)))%N then 2%nat
          else match l2 with
          | b2 :: _ =>
              if ((b0 =? 225) && (b1 =? 154) && (b2 =? 128))%N then 3%nat
              else if ((b0 =? 226) && (b1 =? 128))%N && is_space_E2_80 b2 then 3%nat
              else if ((b0 =? 226) && (b1 =? 129) && (b2 =? 159))%N then 3%nat
              else if ((b0 =? 227) && (b1 =? 128) && (b2 =? 128))%N then 3%nat
              else 0%nat
          | [] => 0%nat
          end
      | [] => 0%nat
      end
  | [] => 0%nat
  end.

(** The same on the reversed bytes, for the end of the string. *)
Definition trailing_space (r : list N) : nat :=
  match r with
  | b0 :: _ =>
      if is_space1 b0 then 1%nat
      else match firstn 3 r with
      | [b2; b1; b] =>
          if leading_space [b; b1; b2] =? 3 then 3
          else if leading_space [b1; b2] =? 2 then 2 else 0
      | [b1; b] => if leading_space [b; b1] =? 2 then 2 else 0
      | _ => 0
      end%nat
  | [] => 0%nat
  end.

Fixpoint drop_spaces (space : list N -> nat) (fuel : nat) (l : list N) : list N :=
  match fuel with
  | O => l
  | S fuel' =>
      match space l with
      | O => l
      | S n => drop_spaces space fuel' (skipn (S n) l)
      end
  end.

Definition strip (s : string) : string :=
  let bytes := map N_of_ascii (list_ascii_of_string s) in
  let l := drop_spaces leading_space (List.length bytes) bytes in
  let r := drop_spaces trailing_space (List.length l) (rev l) in
  string_of_list_ascii (map ascii_of_N (rev r)).

End Py.
Import Py.

(** ** The HTTP client and the logger *)

(** One call of [requests.get], [requests.post] or [requests.put]. *)
Record http_call : Type := {
  verb : string;
  url : string;
  headers : list (string * string);
  json_data : option json;
  timeout : option Z
}.

(** A [requests.Response]: its status code, and what its methods give:
    [http_error] is the text of the [HTTPError] that [raise_for_status()]
    raises on an error status, [json_result] is what [json()] returns, or
    the text of the decoding error. *)
Record Response : Type := {
  status_code : Z;
  http_error : string;
  text : string;
  json_result : string + json
}.

(** [raise_for_status()] returns: it raises for the statuses 400 to 599
    and for no other, so also not for a 1xx or 3xx status. *)
Definition ok (r : Response) : bool :=
  negb ((400 <=? status_code r) && (status_code r <? 600)).

Inductive reply : Type :=
| Fails (e : exn)
| Responds (r : Response).

Inductive level : Type := DEBUG | INFO | WARNING | ERROR.

(** What a run leaves behind: the calls sent, oldest first, and the records
    the logger's handlers received. *)
Record state : Type := {
  calls : list http_call;
  logs : list (level * string)
}.

Definition M (A : Type) : Type := state -> result A * state.

Definition ret {A} (a : A) : M A := fun s => (Returns a, s).

Definition raise {A} (e : exn) : M A := fun s => (Raises e, s).

Definition bind {A B} (m : M A) (k : A -> M B) : M B :=
  fun s =>
    match m s with
    | (Returns a, s') => k a s'
    | (Raises e, s') => (Raises e, s')
    end.

(** [try: body  except <caught> as e: handler] *)
Definition try_except {A} (body : M A) (caught : exn -> bool) (handler : exn -> M A) : M A :=
  fun s =>
    match body s with
    | (Raises e, s') => if caught e then handler e s' else (Raises e, s')
    | (Returns a, s') => (Returns a, s')
    end.

Definition lift {A} (r : result A) : M A := fun s => (r, s).

Declare Scope monad_scope.
Delimit Scope monad_scope with monad.
Notation "x <- m ;; k" := (bind m (fun x => k))
  (at level 61, m at next level, right associativity) : monad_scope.
Notation "m ;; k" := (bind m (fun _ => k))
  (at level 61, right associativity) : monad_scope.
Open Scope monad_scope.

(** The logger is set to level INFO in [setup_logging]: the three methods
    below reach the handlers, [logger.debug] does not. *)
Definition log (lvl : level) (msg : string) : M unit :=
  fun s => (Returns tt, {| calls := calls s; logs := logs s ++ [(lvl, msg)] |}).

(** ** Configuration and object *)

Record Config : Type := {
  API_TOKEN : string;
  ZONE_ID : string;
  RECORD_NAME : string;
  RECORD_TYPE : string;
  TTL : Z;
  LOG_FILE : string
}.

Record CloudflareDDNS : Type := {
  config : Config;
  success_symbol : string;
  refresh_symbol : string;
  error_symbol : string;
  warning_symbol : string
}.

(** The symbols [setup_logging] picks, by [sys.platform.startswith('win')]. *)
Definition setup_logging (cfg : Config) (win : bool) : CloudflareDDNS :=
  if win then
    {| config := cfg; success_symbol := "[成功]"; refresh_symbol := "=>";
       error_symbol := "[错误]"; warning_symbol := "[警告]" |}
  else
    {| config := cfg; success_symbol := "✅"; refresh_symbol := "🔄";
       error_symbol := "❌"; warning_symbol := "⚠️" |}.

(** The table [services] of [get_public_ip]; [None] is the [KeyError]. *)
Definition services (record_type : string) : option (list string) :=
  if String.eqb record_type "A" then
    Some ["https://api.ipify.org";
          "https://ipv4.icanhazip.com";
          "https://checkip.amazonaws.com"]
  else if String.eqb record_type "AAAA" then
    Some ["https://api6.ipify.org";
          "https://ipv6.icanhazip.com";
          "https://v6.ident.me"]
  else None.

Section Script.

(** [str(v)] for a value that is neither a string, [None], a bool nor an
    int: Python's rendering of floats, lists and dicts is left open. *)
Variable py_repr : json -> string.

(** The network: the reply to each call. *)
Variable net : http_call -> reply.

(** [f"{v}"] *)
Definition py_str (v : json) : string :=
  match v with
  | JStr s => s
  | JNull => "None"
  | JBool true => "True"
  | JBool false => "False"
  | JInt n => str_of_Z n
  | _ => py_repr v
  end.

Definition request (c : http_call) : M Response :=
  fun s =>
    let s' := {| calls := calls s ++ [c]; logs := logs s |} in
    match net c with
    | Fails e => (Raises e, s')
    | Responds r => (Returns r, s')
    end.

(** [response.raise_for_status()]; the [HTTPError] carries the response. *)
Definition raise_for_status (r : Response) : M unit :=
  if ok r then ret tt
  else raise (RequestException (http_error r)
                (match json_result r with inr v => Some v | inl _ => None end)).

(** [response.json()]; the decoding error of [requests] is a
    [RequestException] that carries no response. *)
Definition response_json (r : Response) : M json :=
  match json_result r with
  | inr v => ret v
  | inl msg => raise (RequestException msg None)
  end.

(** The call [requests.get(service, timeout=10)]. *)
Definition ip_call (service : string) : http_call :=
  {| verb := "GET"; url := service; headers := []; json_data := None;
     timeout := Some 10 |}.

(** The loop of [get_public_ip] over the services left; [Some ip] is the
    [return ip], and the end of the list is the final [return None]. *)
Fixpoint try_services (l : list string) : M (option string) :=
  match l with
  | [] =>
      log ERROR "所有IP服务均失败，无法获取公网IP地址" ;;
      ret None
  | service :: rest =>
      found <- try_except
                 (response <- request (ip_call service) ;;
                  raise_for_status response ;;
                  let ip := strip (text response) in
                  if str_truthy ip then
                    log INFO ("获取到公网IP: " ++ ip) ;;
                    ret (Some ip)
                  else ret None)
                 is_Exception
                 (fun _ => ret None) ;;
      match found with
      | Some ip => ret (Some ip)
      | None => try_services rest
      end
  end.

Definition get_public_ip (self : CloudflareDDNS) : M (option string) :=
  match services (RECORD_TYPE (config self)) with
  | Some l => try_services l
  | None => raise (KeyError (RECORD_TYPE (config self)))
  end.

(** [[err["message"] for err in l]] *)
Fixpoint messages (l : list json) : result (list json) :=
  match l with
  | [] => Returns []
  | err :: rest =>
      match getitem err "message" with
      | Returns m =>
          match messages rest with
          | Returns ms => Returns (m :: ms)
          | Raises e => Raises e
          end
      | Raises e => Raises e
      end
  end.

(** The inner [try] of [cf_api_request]: [Some errors] when the block runs
    to the assignment of [error_msg], [None] when ["errors"] is not in the
    body or anything raises (the bare [except: pass]). *)
Definition response_errors (response_json : option json) : option string :=
  match response_json with
  | Some (JObj fields) =>
      match lookup "errors" fields with
      | Some errs =>
          match iter errs with
          | Returns items =>
              match messages items with
              | Returns ms =>
                  match join ", " ms with
                  | Returns errors => Some errors
                  | Raises _ => None
                  end
              | Raises _ => None
              end
          | Raises _ => None
          end
      | None => None
      end
  | _ => None
  end.

Definition api_url (self : CloudflareDDNS) (endpoint : string) : string :=
  "https://api.cloudflare.com/client/v4/zones/" ++ ZONE_ID (config self)
  ++ "/" ++ endpoint.

Definition api_headers (self : CloudflareDDNS) : list (string * string) :=
  [("Authorization", "Bearer " ++ API_TOKEN (config self));
   ("Content-Type", "application/json")].

Definition cf_api_request (self : CloudflareDDNS) (method endpoint : string)
    (data : option json) : M json :=
  let url := api_url self endpoint in
  let headers := api_headers self in
  try_except
    (response <-
       (if String.eqb method "GET" then
          request {| verb := "GET"; url := url; headers := headers;
                     json_data := None; timeout := None |}
        else if String.eqb method "POST" then
          request {| verb := "POST"; url := url; headers := headers;
                     json_data := data; timeout := None |}
        else if String.eqb method "PUT" then
          request {| verb := "PUT"; url := url; headers := headers;
                     json_data := data; timeout := None |}
        else raise (ValueError ("不支持的HTTP方法: " ++ method))) ;;
     raise_for_status response ;;
     response_json response)
    is_RequestException
    (fun e =>
       match e with
       | RequestException msg response_json =>
           let error_msg :=
             match response_errors response_json with
             | Some errors => msg ++ " | " ++ errors
             | None => msg
             end in
           log ERROR ("API请求失败: " ++ error_msg) ;;
           ret (JObj [("success", JBool false);
                      ("errors", JArr [JObj [("message", JStr error_msg)]])])
       | _ => raise e
       end).

(** The dict sent by both write paths. *)
Definition record_data (self : CloudflareDDNS) (current_ip : string) : json :=
  JObj [("type", JStr (RECORD_TYPE (config self)));
        ("name", JStr (RECORD_NAME (config self)));
        ("content", JStr current_ip);
        ("ttl", JInt (TTL (config self)));
        ("proxied", JBool false)].

(** [d.get("errors", [{}])[0].get("message", "未知错误")] *)
Definition first_error (d : json) : M json :=
  errors <- lift (get d "errors" (JArr [JObj []])) ;;
  e0 <- lift (getitem0 errors) ;;
  lift (get e0 "message" (JStr "未知错误")).

Definition update_dns (self : CloudflareDDNS) : M bool :=
  let cfg := config self in
  log INFO ("===== DDNS 更新开始 (" ++ RECORD_NAME cfg ++ ") =====") ;;
  current_ip <- get_public_ip self ;;
  match current_ip with
  | None | Some EmptyString =>
      log ERROR "===== DDNS 更新失败 =====" ;;
      ret false
  | Some current_ip =>
      let query := "dns_records?name=" ++ RECORD_NAME cfg
                   ++ "&type=" ++ RECORD_TYPE cfg in
      result <- cf_api_request self "GET" query None ;;
      success <- lift (get result "success" JNull) ;;
      if negb (truthy success) then
        error <- first_error result ;;
        log ERROR ("Cloudflare API错误: " ++ py_str error) ;;
        log ERROR "===== DDNS 更新失败 =====" ;;
        ret false
      else
        records <- lift (get result "result" (JArr [])) ;;
        if negb (truthy records) then
          log WARNING (warning_symbol self ++ " 记录不存在，正在创建: "
                       ++ RECORD_NAME cfg) ;;
          create_result <- cf_api_request self "POST" "dns_records"
                             (Some (record_data self current_ip)) ;;
          success <- lift (get create_result "success" JNull) ;;
          if truthy success then
            created <- lift (getitem create_result "result") ;;
            record_id <- lift (getitem created "id") ;;
            log INFO (success_symbol self ++ " 创建成功! 记录ID: "
                      ++ py_str record_id) ;;
            log INFO "===== DDNS 更新完成 =====" ;;
            ret true
          else
            error <- first_error create_result ;;
            log ERROR (error_symbol self ++ " 创建失败: " ++ py_str error) ;;
            log ERROR "===== DDNS 更新失败 =====" ;;
            ret false
        else
          n <- lift (len records) ;;
          (if (1 <? n)%nat then
             log WARNING (warning_symbol self ++ " 找到 "
                          ++ str_of_Z (Z.of_nat n) ++ " 条匹配记录，将使用第一条")
           else ret tt) ;;
          record <- lift (getitem0 records) ;;
          record_id <- lift (getitem record "id") ;;
          existing_ip <- lift (getitem record "content") ;;
          if eq_str existing_ip current_ip then
            log INFO (refresh_symbol self ++ " IP地址未变化，无需更新") ;;
            log INFO "===== DDNS 更新完成 =====" ;;
            ret true
          else
            log INFO (refresh_symbol self ++ " 检测到IP变化: "
                      ++ py_str existing_ip ++ " → " ++ current_ip) ;;
            update_result <- cf_api_request self "PUT"
                               ("dns_records/" ++ py_str record_id)
                               (Some (record_data self current_ip)) ;;
            success <- lift (get update_result "success" JNull) ;;
            if truthy success then
              log INFO (success_symbol self ++ " 更新成功! "
                        ++ RECORD_NAME cfg ++ " → " ++ current_ip) ;;
              log INFO "===== DDNS 更新完成 =====" ;;
              ret true
            else
              error <- first_error update_result ;;
              log ERROR (error_symbol self ++ " 更新失败: " ++ py_str error) ;;
              log ERROR "===== DDNS 更新失败 =====" ;;
              ret false
  end.

End Script.

Arguments py_str py_repr v : simpl nomatch.

(** ** The configuration file and the setup wizard

    [load_config], [setup_wizard] and the [--reconfigure] branch of
    [__main__] work on the raw configuration, a dict as [json.load] gives
    it.  They read the answers typed at the prompts, print to the standard
    output, and read, write and remove the configuration file. *)

(** How a step ends: with a value, with [sys.exit(code)], or with an
    exception. *)
Inductive outcome (A : Type) : Type :=
| Done (a : A)
| Exits (code : Z)
| Throws (e : exn).
Arguments Done {A} a.
Arguments Exits {A} code.
Arguments Throws {A} e.

(** How writing the configuration file fails: [open(CFG_FILE, 'w')] raises
    and the file is untouched; or the file is open, hence truncated, and
    [json.dump] or the closing of the file raises, which leaves a file that
    reads as [remains]. *)
Inductive write_failure : Type :=
| OpenRaises (x : exn)
| DumpRaises (x : exn) (remains : result json).

(** The surroundings of the wizard: what each coming [input()] returns or
    raises; what reading the configuration file gives ([None]: there is no
    file; [Raises]: [open] or [json.load] raises); how writing the file
    would fail, if it would; the error that removing the file would meet, if
    any; for each text, the message of the error [print] raises on it
    ([UnicodeEncodeError] on a stream that cannot encode the text, [OSError]
    on one that cannot be written), [None] when the text goes through;
    [str(CFG_FILE)]; and [str(e)] for the exceptions. *)
Record env : Type := {
  answers : list (result string);
  cfg_file : option (result json);
  write_error : option write_failure;
  unlink_error : option exn;
  stdout : string -> option string;
  cfg_path : string;
  exn_text : exn -> string
}.

Definition W (A : Type) : Type := env -> outcome A * env.

Definition wret {A} (a : A) : W A := fun e => (Done a, e).

Definition wexit {A} (code : Z) : W A := fun e => (Exits code, e).

Definition wbind {A B} (m : W A) (k : A -> W B) : W B :=
  fun e =>
    match m e with
    | (Done a, e') => k a e'
    | (Exits code, e') => (Exits code, e')
    | (Throws x, e') => (Throws x, e')
    end.

Definition wlift {A} (r : result A) : W A :=
  fun e => match r with Returns a => (Done a, e) | Raises x => (Throws x, e) end.

(** The surroundings with the answers [rest] left to read. *)
Definition with_answers (e : env) (rest : list (result string)) : env :=
  {| answers := rest; cfg_file := cfg_file e;
     write_error := write_error e; unlink_error := unlink_error e;
     stdout := stdout e; cfg_path := cfg_path e; exn_text := exn_text e |}.

(** The surroundings with the configuration file reading as [file]. *)
Definition with_file (e : env) (file : option (result json)) : env :=
  {| answers := answers e; cfg_file := file;
     write_error := write_error e; unlink_error := unlink_error e;
     stdout := stdout e; cfg_path := cfg_path e; exn_text := exn_text e |}.

(** [input(prompt)]: the next line typed, without its end of line; at the
    end of the input it raises [EOFError].  An answer that raises stands for
    whatever [input] raises, the writing of the prompt included. *)
Definition input : W string :=
  fun e =>
    match answers e with
    | [] => (Throws (OtherException "EOF when reading a line"), e)
    | r :: rest =>
        match r with
        | Returns line => (Done line, with_answers e rest)
        | Raises x => (Throws x, with_answers e rest)
        end
    end.

(** [print(text)] *)
Definition print (text : string) : W unit :=
  fun e =>
    match stdout e text with
    | Some msg => (Throws (OtherException msg), e)
    | None => (Done tt, e)
    end.

(** [str(CFG_FILE)] *)
Definition CFG_FILE : W string := fun e => (Done (cfg_path e), e).

(** [CFG_FILE.exists()] *)
Definition file_exists : W bool :=
  fun e => (Done (match cfg_file e with Some _ => true | None => false end), e).

(** [CFG_FILE.unlink()] *)
Definition unlink : W unit :=
  fun e =>
    match unlink_error e with
    | Some x => (Throws x, e)
    | None => (Done tt, with_file e None)
    end.

(** [with open(CFG_FILE, 'w') as f: json.dump(config, f, indent=2)]; what
    [json.load] reads back from the text written is [config]. *)
Definition write_config (config : json) : W unit :=
  fun e =>
    match write_error e with
    | Some (OpenRaises x) => (Throws x, e)
    | Some (DumpRaises x remains) => (Throws x, with_file e (Some remains))
    | None => (Done tt, with_file e (Some (Returns config)))
    end.

(** [d[key] = v]: the binding is replaced in place, or added at the end. *)
Fixpoint setitem (key : string) (v : json) (d : list (string * json)) : list (string * json) :=
  match d with
  | [] => [(key, v)]
  | (k, w) :: rest =>
      if String.eqb k key then (k, v) :: rest else (k, w) :: setitem key v rest
  end.

(** [s or default] *)
Definition str_or (s default : string) : string :=
  if str_truthy s then s else default.

(** The template [DEFAULT_CONFIG]; [log_file] is [str(LOG_FILE)]. *)
Definition DEFAULT_CONFIG (log_file : string) : list (string * json) :=
  [("API_TOKEN", JStr ""); ("ZONE_ID", JStr "");
   ("RECORD_NAME", JStr "ddns.example.com"); ("RECORD_TYPE", JStr "A");
   ("TTL", JInt 60); ("LOG_FILE", JStr log_file)].

(** The check of [load_config] on what the file holds. *)
Definition validate (config : json) : result json :=
  match get config "API_TOKEN" JNull with
  | Raises x => Raises x
  | Returns token =>
      if negb (truthy token) then Raises (ValueError "缺少必要配置")
      else
        match get config "ZONE_ID" JNull with
        | Raises x => Raises x
        | Returns zone =>
            if negb (truthy zone) then Raises (ValueError "缺少必要配置")
            else Returns config
        end
  end.

(** The end of line, the rule of 50 equal signs, and the title centred on
    50 columns. *)
Definition eol : string := String "010" EmptyString.

Definition rule : string := "==================================================".

Definition title : string :=
  "               Cloudflare DDNS 配置向导               ".

Section Setup.

(** [str.isdigit] and [int] of Python, on the TTL typed at the prompt. *)
Variable isdigit : string -> bool.
Variable int : string -> result Z.

(** [str(LOG_FILE)], the default path of the log file. *)
Variable default_log : string.

(** The defaults [default_name], [default_type] and [default_ttl] are read
    from [DEFAULT_CONFIG], which the wizard copies and never changes. *)
Definition setup_wizard : W json :=
  wbind (print (eol ++ rule)) (fun _ =>
  wbind (print title) (fun _ =>
  wbind (print rule) (fun _ =>
  wbind (print ("提示：括号内为默认值，直接按回车使用默认设置" ++ eol)) (fun _ =>
  let config := DEFAULT_CONFIG default_log in
  wbind input (fun line =>
  let config := setitem "API_TOKEN" (JStr (strip line)) config in
  if negb (str_truthy (strip line)) then
    wbind (print "错误：API Token不能为空！") (fun _ => wexit 1)
  else
  wbind input (fun line =>
  let config := setitem "ZONE_ID" (JStr (strip line)) config in
  if negb (str_truthy (strip line)) then
    wbind (print "错误：Zone ID不能为空！") (fun _ => wexit 1)
  else
  let default_name := "ddns.example.com" in
  wbind input (fun line =>
  let config := setitem "RECORD_NAME" (JStr (str_or (strip line) default_name)) config in
  let default_type := "A" in
  wbind input (fun line =>
  let config := setitem "RECORD_TYPE" (JStr (str_or (strip line) default_type)) config in
  let default_ttl := 60 in
  wbind input (fun line =>
  let ttl_input := strip line in
  wbind (if isdigit ttl_input then wlift (int ttl_input) else wret default_ttl)
    (fun ttl =>
  let config := setitem "TTL" (JInt ttl) config in
  wbind input (fun line =>
  let log_input := str_or (strip line) default_log in
  let config := setitem "LOG_FILE" (JStr log_input) config in
  wbind (write_config (JObj config)) (fun _ =>
  wbind CFG_FILE (fun path =>
  wbind (print (eol ++ "✅ 配置已保存至: " ++ path)) (fun _ =>
  wbind (print ("📝 日志将记录到: " ++ log_input)) (fun _ =>
  wbind (print rule) (fun _ =>
  wret (JObj config))))))))))))))))).

(** An [Exception] met while reading or checking the file is caught and
    reported on the standard output, and the wizard runs; anything else
    leaves the method. *)
Definition load_config : W json :=
  fun e =>
    match cfg_file e with
    | Some content =>
        match match content with
              | Returns config => validate config
              | Raises x => Raises x
              end with
        | Returns config => (Done config, e)
        | Raises x =>
            if is_Exception x then
              wbind (print ("配置文件损坏: " ++ exn_text e x)) (fun _ => setup_wizard) e
            else (Throws x, e)
        end
    | None => setup_wizard e
    end.

End Setup.

(** *** The [__main__] block

    The block is reached once [check_dependencies] has found the module
    [requests] and the module is imported. *)

(** What the command line is to [parser.parse_args()]: a call for help,
    with the help [text] the parser makes of its description and options;
    arguments the parser rejects; or arguments it accepts, with or without
    [--reconfigure]. *)
Inductive arguments : Type :=
| Help (text : string)
| Rejected
| Parsed (reconfigure : bool).

(** [parser.parse_args()]: the help is written to the standard output and
    the script leaves with status 0; rejected arguments are reported on the
    standard error and the script leaves with status 2. *)
Definition parse_args (argv : arguments) : W bool :=
  match argv with
  | Help text => wbind (print text) (fun _ => wexit 0)
  | Rejected => wexit 2
  | Parsed reconfigure => wret reconfigure
  end.

(** The [--reconfigure] branch: the file is removed if there is one, and
    the script leaves with [sys.exit()], status 0. *)
Definition reconfigure : W unit :=
  wbind file_exists (fun there =>
  wbind (if there then
           wbind unlink (fun _ =>
           wbind (print "✅ 配置已重置") (fun _ =>
           print "请重新运行脚本进行配置"))
         else print "配置文件不存在，无需重置") (fun _ =>
  wexit 0)).

(** What [CloudflareDDNS()] comes to: the directory made, the
    configuration loaded, the logging set up. *)
Inductive construction : Type :=
| Constructed (self : CloudflareDDNS)
| WizardExits                       (* [sys.exit(1)] in [setup_wizard] *)
| ConstructionRaises (e : exn).

(** The two handlers of the [try]: each prints a line and leaves with
    [sys.exit(1)].  When the [print] of a handler raises, its error is an
    [Exception] that nothing catches, and the status is 1 as well. *)
Definition handlers (e : exn) : M Z :=
  match e with
  | KeyboardInterrupt => ret 1
  | _ => if is_Exception e then ret 1 else raise e
  end.

(** An exception that nothing catches: the interpreter prints the
    traceback of an [Exception] and ends with status 1. *)
Definition uncaught (e : exn) : M Z :=
  if is_Exception e then ret 1 else raise e.

Section Main.

Variable py_repr : json -> string.
Variable net : http_call -> reply.

(** The exit status of the process. *)
Definition main (argv : arguments) (e : env) (ddns : construction) : M Z :=
  match wbind (parse_args argv)
          (fun args_reconfigure =>
             if args_reconfigure then reconfigure else wret tt) e with
  | (Exits code, _) => ret code
  | (Throws x, _) => uncaught x
  | (Done _, _) =>
      match ddns with
      | WizardExits => ret 1
      | ConstructionRaises x => handlers x
      | Constructed self =>
          fun s =>
            match update_dns py_repr net self s with
            | (Returns success, s') => (Returns (if success then 0 else 1), s')
            | (Raises x, s') => handlers x s'
            end
      end
  end.

End Main.

(** The dict the script reads a typed configuration from. *)
Definition config_json (cfg : Config) : json :=
  JObj [("API_TOKEN", JStr (API_TOKEN cfg)); ("ZONE_ID", JStr (ZONE_ID cfg));
        ("RECORD_NAME", JStr (RECORD_NAME cfg)); ("RECORD_TYPE", JStr (RECORD_TYPE cfg));
        ("TTL", JInt (TTL cfg)); ("LOG_FILE", JStr (LOG_FILE cfg))].

(** ** Vocabulary of the statements *)

(** The state [s] after the calls [cs] and the log records [ls]. *)
Definition emit (s : state) (cs : list http_call) (ls : list (level * string)) : state :=
  {| calls := calls s ++ cs; logs := logs s ++ ls |}.

(** [n] invocations of [m] in a row: their results, oldest first, and the
    state they leave. *)
Fixpoint invoke {A} (n : nat) (m : M A) (s : state) : list (result A) * state :=
  match n with
  | O => ([], s)
  | S n' => let (r, s') := m s in
            let (rs, s'') := invoke n' m s' in (r :: rs, s'')
  end.

(** *** Calls to the provider *)

(** A call to the REST API of the provider (spec, section 6): the URL is
    the base path of the configured zone followed by [endpoint], the
    headers carry the bearer token and the JSON content type, and no
    time-out is given. *)
Definition api_call (self : CloudflareDDNS) (method endpoint : string)
    (data : option json) : http_call :=
  {| verb := method;
     url := "https://api.cloudflare.com/client/v4/zones/" ++ ZONE_ID (config self)
            ++ "/" ++ endpoint;
     headers := [("Authorization", "Bearer " ++ API_TOKEN (config self));
                 ("Content-Type", "application/json")];
     json_data := data;
     timeout := None |}.

Definition list_call (self : CloudflareDDNS) : http_call :=
  api_call self "GET"
    ("dns_records?name=" ++ RECORD_NAME (config self)
     ++ "&type=" ++ RECORD_TYPE (config self)) None.

Definition create_call (self : CloudflareDDNS) (current_ip : string) : http_call :=
  api_call self "POST" "dns_records" (Some (record_data self current_ip)).

Definition update_call (self : CloudflareDDNS) (record_id current_ip : string) : http_call :=
  api_call self "PUT" ("dns_records/" ++ record_id)
    (Some (record_data self current_ip)).

(** A create or an update. *)
Definition is_write (c : http_call) : bool :=
  String.eqb (verb c) "POST" || String.eqb (verb c) "PUT".

Definition writes (cs : list http_call) : list http_call := filter is_write cs.

(** The write [c] leaves the field [key] of [record] as it is: its body
    carries the value the record has. *)
Definition keeps_field (key : string) (record : json) (c : http_call) : Prop :=
  exists body v,
    json_data c = Some body
    /\ getitem record key = Returns v
    /\ getitem body key = Returns v.

(** *** Replies of the provider *)

Definition field (key : string) (d : list (string * json)) (default : json) : json :=
  match lookup key d with Some v => v | None => default end.

(** The reply is a successful response whose body decodes to the dict [d]. *)
Definition answers_with (rep : reply) (d : list (string * json)) : Prop :=
  exists r, rep = Responds r /\ ok r = true /\ json_result r = inr (JObj d).

Definition reports_success (d : list (string * json)) : bool :=
  truthy (field "success" d JNull).

(** The records of a list response. *)
Definition listed (d : list (string * json)) : json := field "result" d (JArr []).

(** The message of the first entry of [errors], when the body has the
    shape the script reads: no [errors] at all, or an array that starts with
    an object. *)
Definition first_message (d : list (string * json)) : option json :=
  match field "errors" d (JArr [JObj []]) with
  | JArr (JObj e :: _) => Some (field "message" e (JStr "未知错误"))
  | _ => None
  end.

(** The text [cf_api_request] reports for a failed request. *)
Definition failure_text (msg : string) (response_json : option json) : string :=
  match response_errors response_json with
  | Some errors => msg ++ " | " ++ errors
  | None => msg
  end.

Definition decoded (r : Response) : option json :=
  match json_result r with inr v => Some v | inl _ => None end.

(** The request itself fails: transport error, error status, or a body
    that is not JSON.  [Some text] is the text reported. *)
Definition request_failure (rep : reply) : option string :=
  match rep with
  | Fails (RequestException msg response_json) => Some (failure_text msg response_json)
  | Fails _ => None
  | Responds r =>
      if ok r then
        match json_result r with
        | inl msg => Some msg
        | inr _ => None
        end
      else Some (failure_text (http_error r) (decoded r))
  end.

(** The dict [cf_api_request] returns in that case. *)
Definition failure_dict (error_msg : string) : json :=
  JObj [("success", JBool false);
        ("errors", JArr [JObj [("message", JStr error_msg)]])].

(** The reply is a response with an error status, for which
    [raise_for_status()] raises an error of text [error_text], and whose
    body decodes to the dict [d]. *)
Definition refuses_with (rep : reply) (error_text : string)
    (d : list (string * json)) : Prop :=
  exists r, rep = Responds r /\ ok r = false /\ http_error r = error_text
            /\ json_result r = inr (JObj d).

(** The messages joined as the claim has it. *)
Definition joined (ms : list string) : string := String.concat ", " ms.

(** An [errors] array made of the messages [ms]. *)
Definition errors_array (ms : list string) : json :=
  JArr (map (fun m => JObj [("message", JStr m)]) ms).

(** [errs] is an array of dicts that hold the messages [ms], in order,
    under the key ["message"], next to whatever else an entry holds (a
    code, a chain of causes, ...). *)
Definition carries_messages (errs : json) (ms : list string) : Prop :=
  exists entries,
    errs = JArr (map JObj entries)
    /\ Forall2 (fun e m => lookup "message" e = Some (JStr m)) entries ms.

(** *** Log records *)

Definition log_start (self : CloudflareDDNS) : level * string :=
  (INFO, "===== DDNS 更新开始 (" ++ RECORD_NAME (config self) ++ ") =====").
Definition log_done : level * string := (INFO, "===== DDNS 更新完成 =====").
Definition log_failed : level * string := (ERROR, "===== DDNS 更新失败 =====").
Definition log_ip (ip : string) : level * string := (INFO, "获取到公网IP: " ++ ip).
Definition log_no_ip : level * string :=
  (ERROR, "所有IP服务均失败，无法获取公网IP地址").
Definition log_request_failed (error_msg : string) : level * string :=
  (ERROR, "API请求失败: " ++ error_msg).
Definition log_api_error (error : string) : level * string :=
  (ERROR, "Cloudflare API错误: " ++ error).
Definition log_missing (self : CloudflareDDNS) : level * string :=
  (WARNING, warning_symbol self ++ " 记录不存在，正在创建: " ++ RECORD_NAME (config self)).
Definition log_created (self : CloudflareDDNS) (record_id : string) : level * string :=
  (INFO, success_symbol self ++ " 创建成功! 记录ID: " ++ record_id).
Definition log_create_failed (self : CloudflareDDNS) (error : string) : level * string :=
  (ERROR, error_symbol self ++ " 创建失败: " ++ error).
Definition log_many (self : CloudflareDDNS) (n : nat) : level * string :=
  (WARNING, warning_symbol self ++ " 找到 " ++ str_of_Z (Z.of_nat n)
            ++ " 条匹配记录，将使用第一条").
Definition log_unchanged (self : CloudflareDDNS) : level * string :=
  (INFO, refresh_symbol self ++ " IP地址未变化，无需更新").
Definition log_changed (self : CloudflareDDNS) (existing_ip current_ip : string) : level * string :=
  (INFO, refresh_symbol self ++ " 检测到IP变化: " ++ existing_ip ++ " → " ++ current_ip).
Definition log_updated (self : CloudflareDDNS) (current_ip : string) : level * string :=
  (INFO, success_symbol self ++ " 更新成功! " ++ RECORD_NAME (config self)
         ++ " → " ++ current_ip).
Definition log_update_failed (self : CloudflareDDNS) (error : string) : level * string :=
  (ERROR, error_symbol self ++ " 更新失败: " ++ error).

(** The warning of step 4, emitted when more than one record is listed. *)
Definition warning_if_many (self : CloudflareDDNS) (records : list json) : list (level * string) :=
  if (1 <? List.length records)%nat then [log_many self (List.length records)] else [].

(** *** Shapes of computations *)

(** The effect of [m] does not depend on the state it starts from: it
    gives the result [r] after adding the calls [cs] and the records [ls]. *)
Definition framed {A} (m : M A) : Prop :=
  exists r cs ls, forall s, m s = (r, emit s cs ls).

(** [m] sends exactly the calls [cs], whatever its result. *)
Definition sends {A} (m : M A) (cs : list http_call) : Prop :=
  forall s, exists r ls, m s = (r, emit s cs ls).

(** The resolver returns [ip] after calling the endpoints [tried]. *)
Definition resolves (net : http_call -> reply) (self : CloudflareDDNS)
    (ip : string) (tried : list string) : Prop :=
  forall s, get_public_ip net self s =
            (Returns (Some ip), emit s (map ip_call tried) [log_ip ip]).

(** What [cf_api_request] makes of the reply to its call: its result and
    the log record it emits. *)
Definition settled (rep : reply) : result json * list (level * string) :=
  match request_failure rep with
  | Some error_msg => (Returns (failure_dict error_msg), [log_request_failed error_msg])
  | None =>
      match rep with
      | Fails e => (Raises e, [])
      | Responds r =>
          match json_result r with
          | inr v => (Returns v, [])
          | inl msg => (Raises (RequestException msg None), [])
          end
      end
  end.

(** The methods [cf_api_request] knows, with the body it sends. *)
Definition sent_data (method : string) (data : option json) : option (option json) :=
  if String.eqb method "GET" then Some None
  else if String.eqb method "POST" then Some data
  else if String.eqb method "PUT" then Some data
  else None.

(** The part of [update_dns] that follows [record = records[0]], set apart
    to compare runs; [update_dns] is shown to continue with it. *)
Definition after_first_record (py_repr : json -> string) (net : http_call -> reply)
    (self : CloudflareDDNS) (current_ip : string) (record : json) : M bool :=
  let cfg := config self in
  record_id <- lift (getitem record "id") ;;
  existing_ip <- lift (getitem record "content") ;;
  if eq_str existing_ip current_ip then
    log INFO (refresh_symbol self ++ " IP地址未变化，无需更新") ;;
    log INFO "===== DDNS 更新完成 =====" ;;
    ret true
  else
    log INFO (refresh_symbol self ++ " 检测到IP变化: "
              ++ py_str py_repr existing_ip ++ " → " ++ current_ip) ;;
    update_result <- cf_api_request net self "PUT"
                       ("dns_records/" ++ py_str py_repr record_id)
                       (Some (record_data self current_ip)) ;;
    success <- lift (get update_result "success" JNull) ;;
    if truthy success then
      log INFO (success_symbol self ++ " 更新成功! "
                ++ RECORD_NAME cfg ++ " → " ++ current_ip) ;;
      log INFO "===== DDNS 更新完成 =====" ;;
      ret true
    else
      error <- first_error update_result ;;
      log ERROR (error_symbol self ++ " 更新失败: " ++ py_str py_repr error) ;;
      log ERROR "===== DDNS 更新失败 =====" ;;
      ret false.

(** *** Shapes of whole runs *)

(** Whenever [m] returns [True] or [False], the last log record is the
    matching end banner. *)
Definition ends_with_banner (m : M bool) : Prop :=
  forall s b s',
    m s = (Returns b, s') ->
    exists ls,
      logs s' = (logs s ++ ls ++ [if b then log_done else log_failed])%list.

(** A call to one of the IP endpoints of the configured record type. *)
Definition endpoint_call (self : CloudflareDDNS) (c : http_call) : Prop :=
  exists l service,
    services (RECORD_TYPE (config self)) = Some l
    /\ In service l
    /\ c = ip_call service.

(** What may follow the calls to the endpoints: nothing, the list call,
    or the list call and one write of the address [ip]. *)
Definition provider_calls (self : CloudflareDDNS) (rest : list http_call) : Prop :=
  rest = []
  \/ rest = [list_call self]
  \/ (exists ip, rest = [list_call self; create_call self ip])
  \/ (exists record_id ip, rest = [list_call self; update_call self record_id ip]).

(** ** The IP resolver of the spec (4.2) *)

Section ResolverSpec.

Variable net : http_call -> reply.

(** An endpoint fails: the call raises an [Exception] (time-out, connection
    error), the status is an error, or the trimmed body is empty. *)
Definition endpoint_fails (service : string) : Prop :=
  (exists e, net (ip_call service) = Fails e /\ is_Exception e = true)
  \/ (exists r, net (ip_call service) = Responds r
                /\ (ok r = false \/ strip (text r) = "")).

(** The call is cut by a [KeyboardInterrupt]. *)
Definition interrupted (service : string) : Prop :=
  net (ip_call service) = Fails KeyboardInterrupt.

(** Following the words of the spec: the trimmed body an endpoint answers
    with, when it succeeds with a non-empty one. *)
Definition spec_answer (service : string) : option string :=
  match net (ip_call service) with
  | Responds r =>
      if ok r && str_truthy (strip (text r)) then Some (strip (text r)) else None
  | Fails _ => None
  end.

(** Following the words of the spec: the first answer in list order. *)
Fixpoint spec_resolve (l : list string) : option string :=
  match l with
  | [] => None
  | service :: rest =>
      match spec_answer service with
      | Some ip => Some ip
      | None => spec_resolve rest
      end
  end.

(** The endpoints reached: up to the first that answers. *)
Fixpoint spec_tried (l : list string) : list string :=
  match l with
  | [] => []
  | service :: rest =>
      service :: match spec_answer service with
                 | Some _ => []
                 | None => spec_tried rest
                 end
  end.

Definition resolver_log (found : option string) : list (level * string) :=
  match found with
  | Some ip => [log_ip ip]
  | None => [log_no_ip]
  end.

End ResolverSpec.

(** *** The wizard and the configuration file *)

(** The surroundings [e] once the answers [rest] are left and the
    configuration file is [file]. *)
Definition left_with (e : env) (rest : list (result string))
    (file : option (result json)) : env :=
  {| answers := rest; cfg_file := file;
     write_error := write_error e; unlink_error := unlink_error e;
     stdout := stdout e; cfg_path := cfg_path e; exn_text := exn_text e |}.

(** The answer is a line of white space only, or a line with something on
    it. *)
Definition is_blank (r : result string) : bool :=
  match r with
  | Returns line => negb (str_truthy (strip line))
  | Raises _ => false
  end.

Definition is_filled (r : result string) : bool :=
  match r with
  | Returns line => str_truthy (strip line)
  | Raises _ => false
  end.

(** The token is left blank, or the token is given and the zone is left
    blank. *)
Definition required_missing (l : list (result string)) : bool :=
  match l with
  | [] => false
  | r1 :: rest =>
      is_blank r1
      || (is_filled r1 && match rest with [] => false | r2 :: _ => is_blank r2 end)
  end.

(** The typed configuration made of the answers to the questions 1 to 4
    and 6 and of the TTL [ttl]. *)
Definition answered (default_log a1 a2 a3 a4 : string) (ttl : Z) (a6 : string) : Config :=
  {| API_TOKEN := strip a1;
     ZONE_ID := strip a2;
     RECORD_NAME := str_or (strip a3) "ddns.example.com";
     RECORD_TYPE := str_or (strip a4) "A";
     TTL := ttl;
     LOG_FILE := str_or (strip a6) default_log |}.

(** The dict [config] holds a true value under [key]. *)
Definition holds_true (config : json) (key : string) : Prop :=
  exists fields v,
    config = JObj fields /\ lookup key fields = Some v /\ truthy v = true.

(** ** Scenarios

    Concrete configurations and networks: the test situations of the spec
    (section 8), used to run the embedding. *)

Module Scenario.

Definition cfg : Config :=
  {| API_TOKEN := "token"; ZONE_ID := "zone1"; RECORD_NAME := "ddns.example.com";
     RECORD_TYPE := "A"; TTL := 60; LOG_FILE := "cloudflare_ddns.log" |}.

Definition ddns : CloudflareDDNS := setup_logging cfg false.

(** A stand-in for Python's rendering of floats, lists and dicts. *)
Definition repr (v : json) : string := "...".

Definition s0 : state := {| calls := []; logs := [] |}.

Definition newline : string := String "010" EmptyString.

(** A text response and a JSON response with status 200, and a JSON
    response with the error status 403. *)
Definition plain (t : string) : reply :=
  Responds {| status_code := 200; http_error := ""; text := t;
              json_result := inl "Expecting value: line 1 column 1 (char 0)" |}.

Definition body (v : json) : reply :=
  Responds {| status_code := 200; http_error := ""; text := "";
              json_result := inr v |}.

Definition refused (msg : string) (v : json) : reply :=
  Responds {| status_code := 403; http_error := msg; text := "";
              json_result := inr v |}.

Definition timed_out : reply := Fails (RequestException "Read timed out." None).

Definition record (id content : string) (proxied : bool) : json :=
  JObj [("id", JStr id); ("type", JStr "A"); ("name", JStr "ddns.example.com");
        ("content", JStr content); ("proxied", JBool proxied); ("ttl", JInt 60)].

Definition listing (records : list json) : reply :=
  body (JObj [("success", JBool true); ("errors", JArr []); ("result", JArr records)]).

Definition written (id content : string) : reply :=
  body (JObj [("success", JBool true); ("errors", JArr []);
              ("result", record id content false)]).

(** A network: the replies of the IP endpoints by URL (an endpoint not in
    the table times out), the reply to the list call and the reply to any
    write. *)
Definition network (echo : list (string * reply)) (list_reply write_reply : reply)
    (c : http_call) : reply :=
  if String.eqb (verb c) "GET" then
    if String.eqb (url c) (url (list_call ddns)) then list_reply
    else match find (fun p => String.eqb (fst p) (url c)) echo with
         | Some p => snd p
         | None => timed_out
         end
  else write_reply.

(** The first endpoint answers with [ip]. *)
Definition echo (ip : string) : list (string * reply) :=
  [("https://api.ipify.org", plain (ip ++ newline))].

(** The first endpoint times out, the second answers with [ip]. *)
Definition echo_second (ip : string) : list (string * reply) :=
  [("https://api.ipify.org", timed_out);
   ("https://ipv4.icanhazip.com", plain (" " ++ ip ++ newline))].

(** No endpoint answers: a time-out, an error status, a blank body. *)
Definition echo_none : list (string * reply) :=
  [("https://api.ipify.org", timed_out);
   ("https://ipv4.icanhazip.com",
    Responds {| status_code := 503; http_error := "503 Server Error"; text := "busy";
                json_result := inl "" |});
   ("https://checkip.amazonaws.com", plain (" " ++ newline))].

Definition two_errors : json :=
  JObj [("success", JBool false);
        ("errors", errors_array ["Invalid access token"; "Authentication error"]);
        ("result", JNull)].

Definition unchanged_net : http_call -> reply :=
  network (echo "203.0.113.1") (listing [record "r1" "203.0.113.1" false]) timed_out.

Definition create_net : http_call -> reply :=
  network (echo "203.0.113.5") (listing []) (written "r7" "203.0.113.5").

Definition update_net : http_call -> reply :=
  network (echo "203.0.113.9") (listing [record "r1" "203.0.113.1" false])
    (written "r1" "203.0.113.9").

Definition two_records_net : http_call -> reply :=
  network (echo "203.0.113.9")
    (listing [record "r1" "203.0.113.1" false; record "r2" "203.0.113.9" false])
    (written "r1" "203.0.113.9").

Definition exhausted_net : http_call -> reply :=
  network echo_none (listing []) (written "r7" "203.0.113.5").

Definition second_endpoint_net : http_call -> reply :=
  network (echo_second "203.0.113.9") (listing []) (written "r7" "203.0.113.9").

(** The first endpoint answers with status 300 and a body, the second with
    an address. *)
Definition redirected_net : http_call -> reply :=
  network
    [("https://api.ipify.org",
      Responds {| status_code := 300; http_error := "";
                  text := "Multiple Choices" ++ newline;
                  json_result := inl "Expecting value: line 1 column 1 (char 0)" |});
     ("https://ipv4.icanhazip.com", plain ("203.0.113.9" ++ newline))]
    (listing []) (written "r7" "203.0.113.9").

(** The list call is answered 200 with [success=false] and two errors. *)
Definition list_errors_net : http_call -> reply :=
  network (echo "203.0.113.9") (body two_errors) timed_out.

(** The list call is answered 403 with the same body. *)
(** A failure body as the provider sends it: every error has a code. *)
Definition coded_errors : list (string * json) :=
  [("success", JBool false);
   ("errors", JArr [JObj [("code", JInt 9109); ("message", JStr "Invalid access token")];
                    JObj [("code", JInt 10000); ("message", JStr "Authentication error")]]);
   ("messages", JArr []);
   ("result", JNull)].

Definition coded_refused_net : http_call -> reply :=
  network (echo "203.0.113.9")
    (refused "403 Client Error: Forbidden for url: https://api.cloudflare.com/"
       (JObj coded_errors))
    timed_out.

Definition list_refused_net : http_call -> reply :=
  network (echo "203.0.113.9")
    (refused "403 Client Error: Forbidden for url: https://api.cloudflare.com/"
       two_errors)
    timed_out.

(** A body that reports a failure and names no error. *)
Definition no_errors : json := JObj [("success", JBool false); ("errors", JArr [])].

(** No record is listed and the create call is answered 200 with
    [success=false] and an empty [errors] array. *)
Definition create_refused_net : http_call -> reply :=
  network (echo "203.0.113.5") (listing []) (body no_errors).

(** The record listed has another address and the update call is answered
    200 with [success=false] and an empty [errors] array. *)
Definition update_refused_net : http_call -> reply :=
  network (echo "203.0.113.9") (listing [record "r1" "203.0.113.1" false])
    (body no_errors).

(** The record found is proxied. *)
Definition proxied_net : http_call -> reply :=
  network (echo "203.0.113.9") (listing [record "r1" "203.0.113.1" true])
    (written "r1" "203.0.113.9").

(** The list response has no [result] field. *)
Definition no_result_net : http_call -> reply :=
  network (echo "203.0.113.5") (body (JObj [("success", JBool true)]))
    (written "r7" "203.0.113.5").

End Scenario.

(** ** A session at the prompts *)

Module Prompt.

Definition is_digit (c : ascii) : bool :=
  let n := N_of_ascii c in ((48 <=? n) && (n <=? 57))%N.

Fixpoint all_digits (s : string) : bool :=
  match s with
  | EmptyString => true
  | String c rest => is_digit c && all_digits rest
  end.

Fixpoint decimal (acc : Z) (s : string) : Z :=
  match s with
  | EmptyString => acc
  | String c rest => decimal (10 * acc + (Z.of_N (N_of_ascii c) - 48)) rest
  end.

(** [str.isdigit] and [int] on the answers of the sessions below: strings
    of ASCII digits, and the superscript two, a digit for [str.isdigit]
    that [int] refuses. *)
Definition isdigit (s : string) : bool :=
  String.eqb s "²" || (str_truthy s && all_digits s).

Definition int (s : string) : result Z :=
  if str_truthy s && all_digits s then Returns (decimal 0 s)
  else Raises (ValueError ("invalid literal for int() with base 10: '" ++ s ++ "'")).

Definition default_log : string := "/home/user/.cloudflare_ddns/cloudflare_ddns.log".

(** [str(e)] for the exceptions of the sessions below. *)
Definition message (x : exn) : string :=
  match x with
  | ValueError msg | RequestException msg _ | OtherException msg => msg
  | KeyError key => "'" ++ key ++ "'"
  | IndexError => "list index out of range"
  | TypeError => "'NoneType' object is not subscriptable"
  | AttributeError => "'list' object has no attribute 'get'"
  | KeyboardInterrupt => ""
  end.

(** The lines typed, with the configuration file as [file]; the file can
    be written and removed, and the standard output takes every text. *)
Definition session (lines : list string) (file : option (result json)) : env :=
  {| answers := map Returns lines; cfg_file := file;
     write_error := None; unlink_error := None;
     stdout := fun _ => None;
     cfg_path := "/home/user/.cloudflare_ddns/config.json";
     exn_text := message |}.

Fixpoint has_check_mark (text : string) : bool :=
  match text with
  | EmptyString => false
  | String _ rest => String.prefix "✅" text || has_check_mark rest
  end.

(** A standard output that cannot encode the check mark U+2705, as a
    console in GBK. *)
Definition no_check_mark (text : string) : option string :=
  if has_check_mark text then
    Some "'gbk' codec can't encode character '\u2705'"
  else None.

(** The same session on such a console. *)
Definition gbk_session (lines : list string) (file : option (result json)) : env :=
  {| answers := map Returns lines; cfg_file := file;
     write_error := None; unlink_error := None;
     stdout := no_check_mark;
     cfg_path := "/home/user/.cloudflare_ddns/config.json";
     exn_text := message |}.

(** All six questions answered. *)
Definition full : list string :=
  [" token-1 "; "zone-1"; "home.example.org"; "AAAA"; "300"; "/var/log/ddns.log"].

Definition full_config : json :=
  JObj [("API_TOKEN", JStr "token-1"); ("ZONE_ID", JStr "zone-1");
        ("RECORD_NAME", JStr "home.example.org"); ("RECORD_TYPE", JStr "AAAA");
        ("TTL", JInt 300); ("LOG_FILE", JStr "/var/log/ddns.log")].

(** Only the two required answers given, the rest left at the defaults. *)
Definition defaults : list string := ["token-1"; "zone-1"; ""; ""; ""; ""].

Definition defaults_config : json :=
  JObj [("API_TOKEN", JStr "token-1"); ("ZONE_ID", JStr "zone-1");
        ("RECORD_NAME", JStr "ddns.example.com"); ("RECORD_TYPE", JStr "A");
        ("TTL", JInt 60); ("LOG_FILE", JStr default_log)].

(** A record type the script has no endpoints for, and a TTL of 0. *)
Definition any_type : list string := ["token-1"; "zone-1"; ""; " MX "; "0"; ""].

(** A file that names the token and the zone and nothing else. *)
Definition bare : json := JObj [("API_TOKEN", JStr "token-1"); ("ZONE_ID", JStr "zone-1")].

(** A file whose token is empty. *)
Definition no_token : json := JObj [("API_TOKEN", JStr ""); ("ZONE_ID", JStr "zone-1")].

End Prompt.

(** * Properties *)

(** ** Python helpers on examples *)

Example strip_ipv4 :
  strip (String "009" (" 203.0.113.5" ++ String "010" EmptyString)) = "203.0.113.5".
Proof. reflexivity. Qed.

Example strip_blank : strip (String "013" (String "010" " ")) = "".
Proof. reflexivity. Qed.

Example strip_nbsp :
  strip (String "194" (String "160" "x y" ++ String "227" (String "128" (String "128" ""))))
  = "x y".
Proof. reflexivity. Qed.

Example str_of_Z_2 : str_of_Z 2 = "2".
Proof. reflexivity. Qed.

Example chars_mixed :
  chars (String "097" (String "226" (String "134" (String "146" "b"))))
  = ["a"; String "226" (String "134" (String "146" "")); "b"].
Proof. reflexivity. Qed.

Lemma str_truthy_false (s : string) : str_truthy s = false <-> s = "".
Proof. destruct s; simpl; split; congruence. Qed.

Lemma str_truthy_true (s : string) : str_truthy s = true <-> s <> "".
Proof. destruct s; simpl; split; congruence. Qed.

(** ** Runs and their effects *)

Lemma emit_nil (s : state) : emit s [] [] = s.
Proof. destruct s; unfold emit; simpl; now rewrite !app_nil_r. Qed.

Lemma emit_emit (s : state) cs ls cs' ls' :
  emit (emit s cs ls) cs' ls' = emit s (cs ++ cs') (ls ++ ls').
Proof. unfold emit; simpl; now rewrite !app_assoc. Qed.

Lemma log_run (lvl : level) (msg : string) (s : state) :
  log lvl msg s = (Returns tt, emit s [] [(lvl, msg)]).
Proof. unfold log, emit; now rewrite app_nil_r. Qed.

Lemma request_run (net : http_call -> reply) (c : http_call) (s : state) :
  request net c s =
  (match net c with Fails e => Raises e | Responds r => Returns r end,
   emit s [c] []).
Proof. unfold request, emit; rewrite app_nil_r; now destruct (net c). Qed.

Lemma bind_run {A B} (m : M A) (k : A -> M B) (s s' : state) (a : A) :
  m s = (Returns a, s') -> bind m k s = k a s'.
Proof. intros H; unfold bind; now rewrite H. Qed.

Lemma bind_log {B} (lvl : level) (msg : string) (k : unit -> M B) (s : state) :
  bind (log lvl msg) k s = k tt (emit s [] [(lvl, msg)]).
Proof. apply bind_run, log_run. Qed.

(** Closing a run: gather what was emitted and compare. *)
Ltac finish_run :=
  rewrite ?emit_emit; cbn [app]; rewrite ?app_nil_r; reflexivity.

Lemma bind_lift {A B} (a : A) (k : A -> M B) (s : state) :
  bind (lift (Returns a)) k s = k a s.
Proof. reflexivity. Qed.

(** ** The IP resolver *)

Section Resolver.

Variable net : http_call -> reply.

Lemma endpoint_fails_answer (service : string) :
  endpoint_fails net service -> spec_answer net service = None.
Proof.
  unfold spec_answer.
  intros [(e & -> & _) | (r & -> & [Hok | Hempty])]; trivial.
  - now rewrite Hok.
  - rewrite Hempty; simpl; now rewrite andb_false_r.
Qed.

Lemma answer_none_fails (service : string) :
  ~ interrupted net service -> spec_answer net service = None ->
  endpoint_fails net service.
Proof.
  unfold interrupted, spec_answer, endpoint_fails; intros Hni H.
  destruct (net (ip_call service)) as [e | r] eqn:E.
  - left; exists e; split; trivial.
    destruct e; trivial. now elim Hni.
  - right; exists r; split; trivial.
    destruct (ok r); [right | now left].
    destruct (str_truthy (strip (text r))) eqn:T; [discriminate |].
    now apply str_truthy_false.
Qed.

Lemma fails_not_interrupted (service : string) :
  endpoint_fails net service -> ~ interrupted net service.
Proof.
  unfold endpoint_fails, interrupted.
  intros [(e & -> & He) | (r & -> & _)] H; [| discriminate].
  injection H as ->; discriminate.
Qed.

(** One turn of the loop: the [try] block and its handler. *)
Lemma try_services_cons (service : string) (rest : list string) (s : state) :
  ~ interrupted net service ->
  try_services net (service :: rest) s =
  match spec_answer net service with
  | Some ip => (Returns (Some ip), emit s [ip_call service] [log_ip ip])
  | None => try_services net rest (emit s [ip_call service] [])
  end.
Proof.
  intros Hni; unfold interrupted in Hni.
  cbn [try_services]; unfold bind at 1, try_except, bind at 1.
  rewrite request_run; unfold spec_answer.
  destruct (net (ip_call service)) as [e | r].
  - destruct e; cbn; trivial. now elim Hni.
  - unfold bind, raise_for_status.
    destruct (ok r); cbn; trivial.
    destruct (str_truthy (strip (text r))); cbn; trivial.
    unfold emit; cbn. now rewrite !app_nil_r.
Qed.

(** The loop against its specification. *)
Lemma try_services_run (l : list string) (s : state) :
  (forall x, In x l -> ~ interrupted net x) ->
  try_services net l s =
  (Returns (spec_resolve net l),
   emit s (map ip_call (spec_tried net l)) (resolver_log (spec_resolve net l))).
Proof.
  revert s; induction l as [| service rest IH]; intros s Hni.
  - cbn [try_services spec_resolve spec_tried map resolver_log].
    unfold bind; now rewrite log_run.
  - rewrite try_services_cons by (apply Hni; now left).
    cbn [spec_resolve spec_tried map].
    destruct (spec_answer net service) as [ip |]; trivial.
    rewrite IH by (intros x Hx; apply Hni; now right).
    now rewrite emit_emit.
Qed.

Lemma spec_resolve_none (l : list string) :
  (forall x, In x l -> ~ interrupted net x) ->
  spec_resolve net l = None <-> Forall (endpoint_fails net) l.
Proof.
  intros Hni; induction l as [| service rest IH]; cbn.
  - split; [constructor | trivial].
  - destruct (spec_answer net service) as [ip |] eqn:E; split; intros H.
    + discriminate.
    + inversion H as [| ? ? Hf _]; subst.
      apply endpoint_fails_answer in Hf; congruence.
    + constructor.
      * apply answer_none_fails; trivial. apply Hni; now left.
      * apply IH; trivial. intros x Hx; apply Hni; now right.
    + inversion H; subst. apply IH; trivial.
      intros x Hx; apply Hni; now right.
Qed.

Lemma spec_tried_all (l : list string) :
  Forall (endpoint_fails net) l -> spec_tried net l = l.
Proof.
  induction 1 as [| service rest Hf _ IH]; cbn; trivial.
  now rewrite (endpoint_fails_answer _ Hf), IH.
Qed.

Lemma spec_resolve_first (before after : list string) (service : string) (r : Response) :
  Forall (endpoint_fails net) before ->
  net (ip_call service) = Responds r ->
  ok r = true ->
  strip (text r) <> "" ->
  spec_resolve net (before ++ service :: after)%list = Some (strip (text r))
  /\ spec_tried net (before ++ service :: after)%list = (before ++ [service])%list.
Proof.
  intros Hb Hr Hok Hne.
  assert (Ha : spec_answer net service = Some (strip (text r))).
  { unfold spec_answer; rewrite Hr, Hok; cbn.
    destruct (str_truthy (strip (text r))) eqn:T; trivial.
    apply str_truthy_false in T; contradiction. }
  induction Hb as [| x rest Hf _ IH]; cbn.
  - now rewrite Ha.
  - rewrite (endpoint_fails_answer _ Hf). destruct IH as [-> ->]; now split.
Qed.

(** Whatever the network does, an address the loop returns is not empty. *)
Lemma try_services_nonempty (l : list string) (s s' : state) (ip : string) :
  try_services net l s = (Returns (Some ip), s') -> ip <> "".
Proof.
  revert s; induction l as [| service rest IH]; intros s.
  - cbn [try_services]; rewrite bind_log; discriminate.
  - cbn [try_services]; unfold bind at 1, try_except, bind at 1.
    rewrite request_run.
    destruct (net (ip_call service)) as [e | r].
    + destruct e; cbn; try discriminate; apply IH.
    + unfold bind, raise_for_status.
      destruct (ok r); cbn; [| apply IH].
      destruct (str_truthy (strip (text r))) eqn:T; cbn; [| apply IH].
      intros H; injection H as <- _. now apply str_truthy_true.
Qed.

(** The calls of the loop are calls to the endpoints, none of them a write. *)
Lemma try_services_calls (l : list string) (s : state) :
  exists tried,
    calls (snd (try_services net l s)) = (calls s ++ map ip_call tried)%list.
Proof.
  revert s; induction l as [| service rest IH]; intros s.
  - exists []. cbn [try_services]; rewrite bind_log; cbn. now rewrite !app_nil_r.
  - assert (Hrest : forall s1, calls s1 = (calls s ++ [ip_call service])%list ->
        exists tried, calls (snd (try_services net rest s1))
                      = (calls s ++ map ip_call tried)%list).
    { intros s1 H1. destruct (IH s1) as [tried Ht].
      exists (service :: tried). rewrite Ht, H1. cbn. now rewrite <- app_assoc. }
    cbn [try_services]; unfold bind at 1, try_except, bind at 1.
    rewrite request_run.
    destruct (net (ip_call service)) as [e | r].
    + destruct e; cbn; first [now apply Hrest | now exists [service]].
    + unfold bind, raise_for_status.
      destruct (ok r); cbn; [| now apply Hrest].
      destruct (str_truthy (strip (text r))); cbn; [| now apply Hrest].
      now exists [service].
Qed.

End Resolver.

Lemma get_public_ip_run (net : http_call -> reply) (self : CloudflareDDNS)
    (l : list string) (s : state) :
  services (RECORD_TYPE (config self)) = Some l ->
  (forall x, In x l -> ~ interrupted net x) ->
  get_public_ip net self s =
  (Returns (spec_resolve net l),
   emit s (map ip_call (spec_tried net l)) (resolver_log (spec_resolve net l))).
Proof.
  intros Hl Hni; unfold get_public_ip; rewrite Hl.
  now apply try_services_run.
Qed.

Lemma get_public_ip_nonempty (net : http_call -> reply) (self : CloudflareDDNS)
    (s s' : state) (ip : string) :
  get_public_ip net self s = (Returns (Some ip), s') -> ip <> "".
Proof.
  unfold get_public_ip.
  destruct (services (RECORD_TYPE (config self))); [| discriminate].
  apply try_services_nonempty.
Qed.

(** [raise_for_status()] returns exactly for a status outside 400..599. *)
Lemma ok_status (r : Response) :
  ok r = true <-> (status_code r < 400 \/ 600 <= status_code r).
Proof.
  unfold ok. rewrite negb_true_iff, andb_false_iff, Z.leb_gt, Z.ltb_ge. tauto.
Qed.

(** C7, counterexample.  The first endpoint answers with status 300, which
    is not a 2xx status, and a body; the second answers with status 200 and
    an address.  The resolver returns the trimmed body of the first, after
    that one call: [raise_for_status()] raises for the statuses 400 to 599
    only. *)
Lemma redirect_body_is_returned :
  Scenario.redirected_net (ip_call "https://api.ipify.org")
  = Responds {| status_code := 300; http_error := "";
                text := "Multiple Choices" ++ Scenario.newline;
                json_result := inl "Expecting value: line 1 column 1 (char 0)" |}
  /\ Scenario.redirected_net (ip_call "https://ipv4.icanhazip.com")
     = Scenario.plain ("203.0.113.9" ++ Scenario.newline)
  /\ get_public_ip Scenario.redirected_net Scenario.ddns Scenario.s0
     = (Returns (Some "Multiple Choices"),
        emit Scenario.s0 [ip_call "https://api.ipify.org"]
          [log_ip "Multiple Choices"]).
Proof. repeat split; vm_compute; reflexivity. Qed.

(** C7, as amended.  For a record type that has an endpoint list, and as
    long as no call is cut by a keyboard interrupt: the resolver goes
    through the list in order; when the endpoints before [service] all fail
    (exception, status 400 to 599, or blank body: all swallowed) and
    [service] is the first to answer with a status outside 400 to 599 (a
    2xx status, but a 3xx one as well) and a non-empty trimmed body, it
    returns that trimmed body, whatever text it is, having called exactly
    the endpoints up to [service]; when every endpoint fails it returns
    [None] after calling them all; and it returns [None] only in that
    case. *)
Theorem get_public_ip_first_answer (net : http_call -> reply)
    (self : CloudflareDDNS) (l : list string) (s : state) :
  services (RECORD_TYPE (config self)) = Some l ->
  (forall x, In x l -> ~ interrupted net x) ->
  (forall before service after r,
      l = (before ++ service :: after)%list ->
      Forall (endpoint_fails net) before ->
      net (ip_call service) = Responds r ->
      (status_code r < 400 \/ 600 <= status_code r) ->
      strip (text r) <> "" ->
      get_public_ip net self s =
      (Returns (Some (strip (text r))),
       emit s (map ip_call (before ++ [service])) [log_ip (strip (text r))]))
  /\ (Forall (endpoint_fails net) l ->
      get_public_ip net self s = (Returns None, emit s (map ip_call l) [log_no_ip]))
  /\ (fst (get_public_ip net self s) = Returns None
      <-> Forall (endpoint_fails net) l)
  /\ (forall service,
      endpoint_fails net service <->
      (exists e, net (ip_call service) = Fails e /\ is_Exception e = true)
      \/ (exists r, net (ip_call service) = Responds r
                    /\ (400 <= status_code r < 600 \/ strip (text r) = ""))).
Proof.
  intros Hl Hni.
  rewrite (get_public_ip_run net self l s Hl Hni).
  split; [| split; [| split]].
  - intros before service after r -> Hb Hr Hok Hne.
    apply ok_status in Hok.
    destruct (spec_resolve_first net before after service r Hb Hr Hok Hne)
      as [-> ->].
    reflexivity.
  - intros Hall.
    rewrite (spec_tried_all net l Hall).
    now rewrite (proj2 (spec_resolve_none net l Hni) Hall).
  - cbn [fst]. rewrite <- (spec_resolve_none net l Hni).
    split; congruence.
  - intros service. unfold endpoint_fails.
    assert (Hs : forall r, ok r = false <-> 400 <= status_code r < 600).
    { intros r. rewrite <- not_true_iff_false, ok_status. lia. }
    split; (intros [H | (r & Hr & H)]; [now left | right; exists r; split; [exact Hr |]]).
    + destruct H as [H | H]; [left; now apply Hs | now right].
    + destruct H as [H | H]; [left; now apply Hs | now right].
Qed.

Lemma get_public_ip_first_answer_witness :
  let net := Scenario.second_endpoint_net in
  let l := ["https://api.ipify.org"; "https://ipv4.icanhazip.com";
            "https://checkip.amazonaws.com"] in
  services (RECORD_TYPE (config Scenario.ddns)) = Some l
  /\ (forall x, In x l -> ~ interrupted net x)
  /\ get_public_ip net Scenario.ddns Scenario.s0 =
     (Returns (Some "203.0.113.9"),
      emit Scenario.s0
        (map ip_call ["https://api.ipify.org"; "https://ipv4.icanhazip.com"])
        [log_ip "203.0.113.9"])
  /\ fst (get_public_ip net Scenario.ddns Scenario.s0) <> Returns None.
Proof.
  intros net l.
  assert (Hl : services (RECORD_TYPE (config Scenario.ddns)) = Some l)
    by reflexivity.
  assert (Hni : forall x, In x l -> ~ interrupted net x).
  { intros x [<- | [<- | [<- | []]]] H; vm_compute in H; discriminate. }
  destruct (get_public_ip_first_answer net Scenario.ddns l Scenario.s0 Hl Hni)
    as (Hfirst & _ & Hiff & _).
  split; [exact Hl | split; [exact Hni | split]].
  - refine (Hfirst ["https://api.ipify.org"] "https://ipv4.icanhazip.com"
              ["https://checkip.amazonaws.com"] _ eq_refl _ eq_refl _ _).
    + constructor; [| constructor].
      left; eexists; split; reflexivity.
    + left; vm_compute; reflexivity.
    + vm_compute; discriminate.
  - intros H; apply Hiff in H.
    inversion H as [| ? ? _ Hrest]; subst.
    inversion Hrest as [| ? ? [(e & He & _) | (r & Hr & [Hok | Hempty])] _]; subst.
    + vm_compute in He; discriminate.
    + vm_compute in Hr; injection Hr as <-; discriminate.
    + vm_compute in Hr; injection Hr as <-; vm_compute in Hempty; discriminate.
Defined.

(** C5.  When every endpoint of the configured record type fails, the run
    returns [False] (outcome failed) right after the resolver: the only
    calls made are those to the IP endpoints, and none of them is a call to
    the provider. *)
Theorem resolver_exhausted_no_provider_call (py_repr : json -> string)
    (net : http_call -> reply) (self : CloudflareDDNS) (l : list string) (s : state) :
  services (RECORD_TYPE (config self)) = Some l ->
  Forall (endpoint_fails net) l ->
  update_dns py_repr net self s =
  (Returns false, emit s (map ip_call l) [log_start self; log_no_ip; log_failed])
  /\ forall method endpoint data,
       ~ In (api_call self method endpoint data) (map ip_call l).
Proof.
  intros Hl Hall; split.
  - assert (Hni : forall x, In x l -> ~ interrupted net x).
    { intros x Hx; apply fails_not_interrupted.
      now apply (proj1 (Forall_forall _ _) Hall). }
    unfold update_dns. rewrite bind_log.
    rewrite (bind_run _ _ _ _ _ (get_public_ip_run net self l _ Hl Hni)).
    rewrite (proj2 (spec_resolve_none net l Hni) Hall), (spec_tried_all net l Hall).
    cbn [resolver_log]. rewrite bind_log. finish_run.
  - intros method endpoint data H.
    apply in_map_iff in H as (x & Hx & _).
    discriminate Hx.
Qed.

Lemma resolver_exhausted_no_provider_call_witness :
  let l := ["https://api.ipify.org"; "https://ipv4.icanhazip.com";
            "https://checkip.amazonaws.com"] in
  services (RECORD_TYPE (config Scenario.ddns)) = Some l
  /\ Forall (endpoint_fails Scenario.exhausted_net) l
  /\ update_dns Scenario.repr Scenario.exhausted_net Scenario.ddns Scenario.s0 =
     (Returns false,
      emit Scenario.s0 (map ip_call l)
        [log_start Scenario.ddns; log_no_ip; log_failed]).
Proof.
  intros l.
  assert (Hl : services (RECORD_TYPE (config Scenario.ddns)) = Some l)
    by reflexivity.
  assert (Hall : Forall (endpoint_fails Scenario.exhausted_net) l).
  { apply Forall_cons; [| apply Forall_cons; [| apply Forall_cons; [| apply Forall_nil]]].
    - left; eexists; split; reflexivity.
    - right; eexists; split; [reflexivity | left; reflexivity].
    - right; eexists; split; [reflexivity | right; reflexivity]. }
  split; [exact Hl | split; [exact Hall |]].
  exact (proj1 (resolver_exhausted_no_provider_call Scenario.repr
                  Scenario.exhausted_net Scenario.ddns l Scenario.s0 Hl Hall)).
Defined.

(** ** Computations do not read the state *)

Lemma framed_ret {A} (a : A) : framed (ret a).
Proof. exists (Returns a), [], []; intros s; unfold ret; now rewrite emit_nil. Qed.

Lemma framed_raise {A} (e : exn) : framed (@raise A e).
Proof. exists (Raises e), [], []; intros s; unfold raise; now rewrite emit_nil. Qed.

Lemma framed_lift {A} (r : result A) : framed (lift r).
Proof. exists r, [], []; intros s; unfold lift; now rewrite emit_nil. Qed.

Lemma framed_log (lvl : level) (msg : string) : framed (log lvl msg).
Proof. exists (Returns tt), [], [(lvl, msg)]; intros s; apply log_run. Qed.

Lemma framed_request (net : http_call -> reply) (c : http_call) :
  framed (request net c).
Proof.
  exists (match net c with Fails e => Raises e | Responds r => Returns r end), [c], [].
  intros s; apply request_run.
Qed.

Lemma framed_bind {A B} (m : M A) (k : A -> M B) :
  framed m -> (forall a, framed (k a)) -> framed (bind m k).
Proof.
  intros (r & cs & ls & Hm) Hk. destruct r as [a | e].
  - destruct (Hk a) as (r' & cs' & ls' & Hka).
    exists r', (cs ++ cs')%list, (ls ++ ls')%list; intros s.
    unfold bind; now rewrite Hm, Hka, emit_emit.
  - exists (Raises e), cs, ls; intros s. unfold bind; now rewrite Hm.
Qed.

Lemma framed_try_except {A} (body : M A) (caught : exn -> bool) (handler : exn -> M A) :
  framed body -> (forall e, framed (handler e)) ->
  framed (try_except body caught handler).
Proof.
  intros (r & cs & ls & Hm) Hh. destruct r as [a | e].
  - exists (Returns a), cs, ls; intros s. unfold try_except; now rewrite Hm.
  - destruct (caught e) eqn:C.
    + destruct (Hh e) as (r' & cs' & ls' & He).
      exists r', (cs ++ cs')%list, (ls ++ ls')%list; intros s.
      unfold try_except; now rewrite Hm, C, He, emit_emit.
    + exists (Raises e), cs, ls; intros s. unfold try_except; now rewrite Hm, C.
Qed.

(** Going through a computation, one construct at a time. *)
Ltac framed_step :=
  lazymatch goal with
  | |- framed (bind _ _) => apply framed_bind; [| intros ?]
  | |- framed (try_except _ _ _) => apply framed_try_except; [| intros ?]
  | |- framed (ret _) => apply framed_ret
  | |- framed (raise _) => apply framed_raise
  | |- framed (lift _) => apply framed_lift
  | |- framed (log _ _) => apply framed_log
  | |- framed (request _ _) => apply framed_request
  | |- framed (if ?b then _ else _) => destruct b
  | |- framed (match ?x with _ => _ end) => destruct x
  end.

Lemma framed_try_services (net : http_call -> reply) (l : list string) :
  framed (try_services net l).
Proof.
  induction l as [| service rest IH]; cbn [try_services].
  - repeat framed_step.
  - unfold raise_for_status. repeat first [exact IH | framed_step].
Qed.

Lemma framed_get_public_ip (net : http_call -> reply) (self : CloudflareDDNS) :
  framed (get_public_ip net self).
Proof.
  unfold get_public_ip.
  destruct (services (RECORD_TYPE (config self)));
    [apply framed_try_services | apply framed_raise].
Qed.

Lemma framed_cf_api_request (net : http_call -> reply) (self : CloudflareDDNS)
    (method endpoint : string) (data : option json) :
  framed (cf_api_request net self method endpoint data).
Proof.
  unfold cf_api_request, raise_for_status, response_json.
  repeat framed_step.
Qed.

Lemma framed_first_error (d : json) : framed (first_error d).
Proof. unfold first_error; repeat framed_step. Qed.

Lemma framed_update_dns (py_repr : json -> string) (net : http_call -> reply)
    (self : CloudflareDDNS) :
  framed (update_dns py_repr net self).
Proof.
  unfold update_dns.
  repeat first [ apply framed_get_public_ip | apply framed_cf_api_request
               | apply framed_first_error | framed_step ].
Qed.

(** ** Calls to the provider *)

Section Provider.

Variable net : http_call -> reply.
Variable self : CloudflareDDNS.

(** [cf_api_request] sends one call and settles its reply. *)
Lemma cf_api_request_run (method endpoint : string) (data sent : option json)
    (s : state) :
  sent_data method data = Some sent ->
  let c := api_call self method endpoint sent in
  cf_api_request net self method endpoint data s =
  (fst (settled (net c)), emit s [c] (snd (settled (net c)))).
Proof.
  intros Hm c.
  assert (Hreq : forall k : Response -> M json,
    bind (if String.eqb method "GET" then
            request net {| verb := "GET"; url := api_url self endpoint;
                           headers := api_headers self; json_data := None;
                           timeout := None |}
          else if String.eqb method "POST" then
            request net {| verb := "POST"; url := api_url self endpoint;
                           headers := api_headers self; json_data := data;
                           timeout := None |}
          else if String.eqb method "PUT" then
            request net {| verb := "PUT"; url := api_url self endpoint;
                           headers := api_headers self; json_data := data;
                           timeout := None |}
          else raise (ValueError ("不支持的HTTP方法: " ++ method))) k s
    = bind (request net c) k s).
  { intros k. unfold sent_data in Hm. subst c. unfold api_call.
    destruct (String.eqb method "GET") eqn:G.
    - apply String.eqb_eq in G; subst; injection Hm as <-; reflexivity.
    - destruct (String.eqb method "POST") eqn:P.
      + apply String.eqb_eq in P; subst; injection Hm as <-; reflexivity.
      + destruct (String.eqb method "PUT") eqn:U; [| discriminate].
        apply String.eqb_eq in U; subst; injection Hm as <-; reflexivity. }
  unfold cf_api_request, try_except. rewrite Hreq.
  unfold bind at 1. rewrite request_run.
  unfold settled, request_failure, raise_for_status, response_json, decoded,
    failure_text.
  destruct (net c) as [e | r].
  - destruct e; cbn [is_RequestException fst snd]; rewrite ?emit_nil; trivial.
    rewrite bind_log. unfold ret. rewrite emit_emit. reflexivity.
  - unfold bind. destruct (ok r); [destruct (json_result r) as [msg | v] |];
      cbn; unfold ret, emit, failure_dict, log_request_failed; cbn;
      rewrite ?app_nil_r; reflexivity.
Qed.

Lemma bind_cf_api_request {B} (method endpoint : string) (data sent : option json)
    (k : json -> M B) (s : state) :
  sent_data method data = Some sent ->
  let c := api_call self method endpoint sent in
  bind (cf_api_request net self method endpoint data) k s =
  match fst (settled (net c)) with
  | Returns v => k v (emit s [c] (snd (settled (net c))))
  | Raises e => (Raises e, emit s [c] (snd (settled (net c))))
  end.
Proof.
  intros Hm c. unfold bind at 1.
  rewrite (cf_api_request_run method endpoint data sent s Hm).
  fold c. now destruct (fst (settled (net c))).
Qed.

Lemma settled_ok (rep : reply) (d : list (string * json)) :
  answers_with rep d -> settled rep = (Returns (JObj d), []).
Proof.
  intros (r & -> & Hok & Hj). unfold settled, request_failure.
  now rewrite Hok, Hj.
Qed.

Lemma settled_failure (rep : reply) (msg : string) :
  request_failure rep = Some msg ->
  settled rep = (Returns (failure_dict msg), [log_request_failed msg]).
Proof. intros H; unfold settled; now rewrite H. Qed.

Lemma first_error_failure_dict (msg : string) (s : state) :
  first_error (failure_dict msg) s = (Returns (JStr msg), s).
Proof. reflexivity. Qed.

Lemma first_error_body (d : list (string * json)) (m : json) (s : state) :
  first_message d = Some m -> first_error (JObj d) s = (Returns m, s).
Proof.
  unfold first_message, first_error, field, lift, bind; cbn [get].
  destruct (match lookup "errors" d with Some v => v | None => JArr [JObj []] end)
    as [| | | | | items |]; try discriminate.
  destruct items as [| [| | | | | | e] rest]; try discriminate.
  now intros [= <-].
Qed.

End Provider.

(** ** The update procedure *)

Lemma writes_app (cs cs' : list http_call) :
  writes (cs ++ cs') = (writes cs ++ writes cs')%list.
Proof. apply filter_app. Qed.

Lemma writes_ip_calls (tried : list string) : writes (map ip_call tried) = [].
Proof. induction tried; trivial. Qed.

(** The steps every run shares: banner, resolver, list call. *)
Ltac run_to_list self Hip Hlist :=
  unfold update_dns; rewrite bind_log;
  rewrite (bind_run _ _ _ _ _ (Hip _));
  match type of Hip with
  | resolves _ _ ?ip _ =>
      let Hne := fresh "Hne" in
      pose proof (get_public_ip_nonempty _ _ _ _ _
                    (Hip {| calls := []; logs := [] |})) as Hne;
      destruct ip; [now elim Hne |]
  end;
  rewrite (bind_cf_api_request _ _ "GET" _ None None _ _ eq_refl);
  fold (list_call self);
  rewrite (settled_ok _ _ Hlist); cbn [fst snd];
  cbn [get]; rewrite bind_lift.

Lemma bind_ret {A B} (a : A) (k : A -> M B) (s : state) : bind (ret a) k s = k a s.
Proof. reflexivity. Qed.

(** The warning of step 4. *)
Lemma bind_many {B} (self : CloudflareDDNS) (records : list json)
    (k : unit -> M B) (s : state) :
  bind (if (1 <? List.length records)%nat then
          log WARNING (warning_symbol self ++ " 找到 "
                       ++ str_of_Z (Z.of_nat (List.length records))
                       ++ " 条匹配记录，将使用第一条")
        else ret tt) k s
  = k tt (emit s [] (warning_if_many self records)).
Proof.
  unfold warning_if_many.
  destruct (1 <? List.length records)%nat.
  - now rewrite bind_log.
  - now rewrite bind_ret, emit_nil.
Qed.

Lemma invoke_framed {A} (m : M A) (r : result A) (cs : list http_call)
    (ls : list (level * string)) :
  (forall s, m s = (r, emit s cs ls)) ->
  writes cs = [] ->
  forall n s,
    fst (invoke n m s) = repeat r n
    /\ writes (calls (snd (invoke n m s))) = writes (calls s).
Proof.
  intros Hm Hw; induction n as [| n IH]; intros s; cbn [invoke repeat].
  - now split.
  - rewrite Hm. destruct (IH (emit s cs ls)) as [Hr Hc].
    destruct (invoke n m (emit s cs ls)) as [rs s'']; cbn [fst snd] in *.
    split; [now rewrite Hr |].
    rewrite Hc; cbn [emit calls]. now rewrite writes_app, Hw, app_nil_r.
Qed.

(** C1.  When the address the resolver returns is the content of the first
    record of a successful list response, the run returns [True] with the
    "unchanged" record in the log, and the only call to the provider is the
    list call; repeated any number of times against the same network, every
    invocation returns [True] and no create or update call is ever added. *)
Theorem unchanged_is_idempotent (py_repr : json -> string)
    (net : http_call -> reply) (self : CloudflareDDNS) (s : state)
    (ip : string) (tried : list string) (d : list (string * json))
    (record record_id : json) (others : list json) :
  resolves net self ip tried ->
  answers_with (net (list_call self)) d ->
  reports_success d = true ->
  listed d = JArr (record :: others) ->
  getitem record "id" = Returns record_id ->
  getitem record "content" = Returns (JStr ip) ->
  update_dns py_repr net self s =
  (Returns true,
   emit s (map ip_call tried ++ [list_call self])
     ([log_start self; log_ip ip] ++ warning_if_many self (record :: others)
      ++ [log_unchanged self; log_done]))
  /\ forall n,
       fst (invoke n (update_dns py_repr net self) s) = repeat (Returns true) n
       /\ writes (calls (snd (invoke n (update_dns py_repr net self) s)))
          = writes (calls s).
Proof.
  intros Hip Hlist Hsucc Hrec Hid Hcontent.
  assert (Hrun : forall s0,
    update_dns py_repr net self s0 =
    (Returns true,
     emit s0 (map ip_call tried ++ [list_call self])
       ([log_start self; log_ip ip] ++ warning_if_many self (record :: others)
        ++ [log_unchanged self; log_done]))).
  { clear s; intros s. run_to_list self Hip Hlist.
    unfold reports_success, field in Hsucc. rewrite Hsucc. cbn [negb].
    rewrite bind_lift.
    unfold listed, field in Hrec. rewrite Hrec. cbn [truthy negb len].
    rewrite bind_lift, bind_many.
    cbn [getitem0]. rewrite bind_lift, Hid, bind_lift, Hcontent, bind_lift.
    cbn [eq_str]. rewrite String.eqb_refl, !bind_log. unfold ret.
    finish_run. }
  split; [apply Hrun |].
  intros n; apply (invoke_framed _ _ _ _ Hrun).
  now rewrite writes_app, writes_ip_calls.
Qed.

Lemma resolves_echo (ip : string) (list_reply write_reply : reply) :
  strip (ip ++ Scenario.newline) = ip -> ip <> "" ->
  resolves (Scenario.network (Scenario.echo ip) list_reply write_reply)
    Scenario.ddns ip ["https://api.ipify.org"].
Proof.
  intros Hstrip Hne s.
  unfold get_public_ip. cbn [Scenario.ddns setup_logging config Scenario.cfg RECORD_TYPE services].
  change (services "A") with (Some ["https://api.ipify.org";
          "https://ipv4.icanhazip.com";
          "https://checkip.amazonaws.com"]).
  cbv iota.
  rewrite try_services_cons by (intros H; vm_compute in H; discriminate).
  unfold spec_answer.
  change (Scenario.network (Scenario.echo ip) list_reply write_reply
            (ip_call "https://api.ipify.org"))
    with (Scenario.plain (ip ++ Scenario.newline)).
  cbn [Scenario.plain ok text]. rewrite Hstrip.
  destruct ip; [now elim Hne | reflexivity].
Qed.

Lemma unchanged_is_idempotent_witness :
  let net := Scenario.unchanged_net in
  let record := Scenario.record "r1" "203.0.113.1" false in
  resolves net Scenario.ddns "203.0.113.1" ["https://api.ipify.org"]
  /\ update_dns Scenario.repr net Scenario.ddns Scenario.s0 =
     (Returns true,
      emit Scenario.s0 [ip_call "https://api.ipify.org"; list_call Scenario.ddns]
        [log_start Scenario.ddns; log_ip "203.0.113.1";
         log_unchanged Scenario.ddns; log_done])
  /\ fst (invoke 3 (update_dns Scenario.repr net Scenario.ddns) Scenario.s0)
     = [Returns true; Returns true; Returns true].
Proof.
  intros net record.
  assert (Hip : resolves net Scenario.ddns "203.0.113.1" ["https://api.ipify.org"]).
  { apply resolves_echo; [reflexivity | discriminate]. }
  assert (Hlist : answers_with (net (list_call Scenario.ddns))
            [("success", JBool true); ("errors", JArr []); ("result", JArr [record])]).
  { eexists; repeat split; reflexivity. }
  destruct (unchanged_is_idempotent Scenario.repr net Scenario.ddns Scenario.s0
              "203.0.113.1" ["https://api.ipify.org"] _ record (JStr "r1") []
              Hip Hlist eq_refl eq_refl eq_refl eq_refl) as [Hrun Hrepeat].
  split; [exact Hip | split; [exact Hrun | exact (proj1 (Hrepeat 3%nat))]].
Defined.

(** ** Computations that send nothing more *)

Lemma sends_ret {A} (a : A) : sends (ret a) [].
Proof. intros s; exists (Returns a), []; unfold ret; now rewrite emit_nil. Qed.

Lemma sends_raise {A} (e : exn) : sends (@raise A e) [].
Proof. intros s; exists (Raises e), []; unfold raise; now rewrite emit_nil. Qed.

Lemma sends_lift {A} (r : result A) : sends (lift r) [].
Proof. intros s; exists r, []; unfold lift; now rewrite emit_nil. Qed.

Lemma sends_log (lvl : level) (msg : string) : sends (log lvl msg) [].
Proof. intros s; exists (Returns tt), [(lvl, msg)]; apply log_run. Qed.

Lemma sends_bind_quiet {A B} (m : M A) (k : A -> M B) (cs : list http_call) :
  sends m cs -> (forall a, sends (k a) []) -> sends (bind m k) cs.
Proof.
  intros Hm Hk s. destruct (Hm s) as (r & ls & Hr).
  unfold bind; rewrite Hr. destruct r as [a | e].
  - destruct (Hk a (emit s cs ls)) as (r' & ls' & Hr').
    exists r', (ls ++ ls')%list. now rewrite Hr', emit_emit, app_nil_r.
  - now exists (Raises e), ls.
Qed.

Ltac quiet_step :=
  lazymatch goal with
  | |- sends (bind _ _) [] => apply sends_bind_quiet; [| intros ?]
  | |- sends (ret _) [] => apply sends_ret
  | |- sends (raise _) [] => apply sends_raise
  | |- sends (lift _) [] => apply sends_lift
  | |- sends (log _ _) [] => apply sends_log
  | |- sends (if ?b then _ else _) [] => destruct b
  | |- sends (match ?x with _ => _ end) [] => destruct x
  end.

Lemma sends_first_error (d : json) : sends (first_error d) [].
Proof. unfold first_error; repeat quiet_step. Qed.

(** The create path, whatever the provider replies to the create call. *)
Lemma create_path (py_repr : json -> string) (net : http_call -> reply)
    (self : CloudflareDDNS) (s : state) (ip : string) (tried : list string)
    (d : list (string * json)) :
  resolves net self ip tried ->
  answers_with (net (list_call self)) d ->
  reports_success d = true ->
  truthy (listed d) = false ->
  exists r ls,
    update_dns py_repr net self s =
    (r, emit s (map ip_call tried ++ [list_call self; create_call self ip])
          ([log_start self; log_ip ip; log_missing self] ++ ls)).
Proof.
  intros Hip Hlist Hsucc Hempty.
  run_to_list self Hip Hlist.
  unfold reports_success, field in Hsucc. rewrite Hsucc. cbn [negb].
  rewrite bind_lift.
  unfold listed, field in Hempty. rewrite Hempty. cbn [negb].
  rewrite bind_log.
  rewrite (bind_cf_api_request _ _ "POST" _ _ _ _ _ eq_refl).
  fold (create_call self (String a ip)).
  destruct (settled (net (create_call self (String a ip)))) as [[v | e] lsc].
  - cbn [fst snd].
    match goal with
    | |- exists r ls', ?k ?s0 = _ =>
        assert (Hq : sends k [])
    end.
    { repeat first [apply sends_first_error | quiet_step]. }
    match goal with
    | |- exists r ls', ?k ?s0 = _ => destruct (Hq s0) as (r & lst & ->)
    end.
    exists r, (lsc ++ lst)%list. finish_run.
  - cbn [fst snd]. exists (Raises e), lsc. finish_run.
Qed.

(** The steps from the list response to the create call. *)
Ltac run_to_create self Hip Hlist Hsucc Hempty :=
  run_to_list self Hip Hlist;
  let Hs := fresh "Hs" in
  pose proof Hsucc as Hs; unfold reports_success, field in Hs;
  rewrite Hs; cbn [negb]; rewrite bind_lift;
  let He := fresh "He" in
  pose proof Hempty as He; unfold listed, field in He;
  rewrite He; cbn [negb]; rewrite bind_log;
  rewrite (bind_cf_api_request _ _ "POST" _ _ _ _ _ eq_refl);
  match goal with
  | |- context [api_call self "POST" "dns_records" (Some (record_data self ?ip))] =>
      fold (create_call self ip)
  end.

(** The create path, outcome by outcome.  When the list call succeeds and
    lists no record, the run sends exactly one more call, the create call,
    whose body is the record made of the configured type, name and ttl, the
    resolved address and [proxied=false]; it returns [True] when the
    provider answers with success and the id of the new record, and [False]
    when the request fails or the answer reports a failure whose [errors]
    are absent or start with an object. *)
Theorem no_record_creates (py_repr : json -> string) (net : http_call -> reply)
    (self : CloudflareDDNS) (s : state) (ip : string) (tried : list string)
    (d : list (string * json)) :
  resolves net self ip tried ->
  answers_with (net (list_call self)) d ->
  reports_success d = true ->
  truthy (listed d) = false ->
  let sent := (map ip_call tried ++ [list_call self; create_call self ip])%list in
  let before := [log_start self; log_ip ip; log_missing self] in
  calls (snd (update_dns py_repr net self s)) = (calls s ++ sent)%list
  /\ verb (create_call self ip) = "POST"
  /\ json_data (create_call self ip) =
     Some (JObj [("type", JStr (RECORD_TYPE (config self)));
                 ("name", JStr (RECORD_NAME (config self)));
                 ("content", JStr ip);
                 ("ttl", JInt (TTL (config self)));
                 ("proxied", JBool false)])
  /\ (forall d' created record_id,
        answers_with (net (create_call self ip)) d' ->
        reports_success d' = true ->
        getitem (JObj d') "result" = Returns created ->
        getitem created "id" = Returns record_id ->
        update_dns py_repr net self s =
        (Returns true,
         emit s sent (before ++ [log_created self (py_str py_repr record_id);
                                 log_done])))
  /\ (forall msg,
        request_failure (net (create_call self ip)) = Some msg ->
        update_dns py_repr net self s =
        (Returns false,
         emit s sent (before ++ [log_request_failed msg;
                                 log_create_failed self msg; log_failed])))
  /\ (forall d' m,
        answers_with (net (create_call self ip)) d' ->
        reports_success d' = false ->
        first_message d' = Some m ->
        update_dns py_repr net self s =
        (Returns false,
         emit s sent (before ++ [log_create_failed self (py_str py_repr m);
                                 log_failed]))).
Proof.
  intros Hip Hlist Hsucc Hempty sent before; subst sent before.
  split; [| split; [reflexivity | split; [reflexivity | split; [| split]]]].
  - destruct (create_path py_repr net self s ip tried d Hip Hlist Hsucc Hempty)
      as (r & ls & ->).
    reflexivity.
  - intros d' created record_id Hans Hs' Hres Hid.
    run_to_create self Hip Hlist Hsucc Hempty.
    rewrite (settled_ok _ _ Hans); cbn [fst snd].
    cbn [get]. rewrite bind_lift.
    unfold reports_success, field in Hs'. rewrite Hs'.
    rewrite Hres, bind_lift, Hid, bind_lift, !bind_log. unfold ret.
    finish_run.
  - intros msg Hfail.
    run_to_create self Hip Hlist Hsucc Hempty.
    rewrite (settled_failure _ _ Hfail); cbn [fst snd].
    unfold failure_dict at 1. cbn [get lookup String.eqb Ascii.eqb Bool.eqb].
    rewrite bind_lift. cbn [truthy].
    fold (failure_dict msg).
    rewrite (bind_run _ _ _ _ _ (first_error_failure_dict msg _)).
    cbn [py_str]. rewrite !bind_log. unfold ret. finish_run.
  - intros d' m Hans Hs' Hm.
    run_to_create self Hip Hlist Hsucc Hempty.
    rewrite (settled_ok _ _ Hans); cbn [fst snd].
    cbn [get]. rewrite bind_lift.
    unfold reports_success, field in Hs'. rewrite Hs'.
    rewrite (bind_run _ _ _ _ _ (first_error_body d' m _ Hm)).
    rewrite !bind_log. unfold ret. finish_run.
Qed.

Lemma no_record_creates_witness :
  let net := Scenario.create_net in
  let sent := [ip_call "https://api.ipify.org"; list_call Scenario.ddns;
               create_call Scenario.ddns "203.0.113.5"] in
  resolves net Scenario.ddns "203.0.113.5" ["https://api.ipify.org"]
  /\ calls (snd (update_dns Scenario.repr net Scenario.ddns Scenario.s0)) = sent
  /\ update_dns Scenario.repr net Scenario.ddns Scenario.s0 =
     (Returns true,
      emit Scenario.s0 sent
        [log_start Scenario.ddns; log_ip "203.0.113.5"; log_missing Scenario.ddns;
         log_created Scenario.ddns "r7"; log_done]).
Proof.
  intros net sent.
  assert (Hip : resolves net Scenario.ddns "203.0.113.5" ["https://api.ipify.org"]).
  { apply resolves_echo; [reflexivity | discriminate]. }
  assert (Hlist : answers_with (net (list_call Scenario.ddns))
            [("success", JBool true); ("errors", JArr []); ("result", JArr [])]).
  { eexists; repeat split; reflexivity. }
  destruct (no_record_creates Scenario.repr net Scenario.ddns Scenario.s0
              "203.0.113.5" ["https://api.ipify.org"] _
              Hip Hlist eq_refl eq_refl) as (Hcalls & _ & _ & Hok & _).
  split; [exact Hip | split; [exact Hcalls |]].
  refine (Hok [("success", JBool true); ("errors", JArr []);
               ("result", Scenario.record "r7" "203.0.113.5" false)]
            (Scenario.record "r7" "203.0.113.5" false) (JStr "r7") _
            eq_refl eq_refl eq_refl).
  eexists; repeat split; reflexivity.
Defined.

(** C2.  No record is listed and the provider answers the create call with
    status 200 and the body [{"success": false, "errors": []}], a reported
    failure: the run sends the create call, with the body the claim gives,
    and then raises [IndexError] at [create_result.get("errors", [{}])[0]];
    it does not return [False], and neither the failure of the creation
    nor the end of the run is logged. *)
Theorem create_failure_without_errors_raises :
  let create :=
    {| verb := "POST";
       url := "https://api.cloudflare.com/client/v4/zones/zone1/dns_records";
       headers := [("Authorization", "Bearer token");
                   ("Content-Type", "application/json")];
       json_data := Some (JObj [("type", JStr "A"); ("name", JStr "ddns.example.com");
                                ("content", JStr "203.0.113.5"); ("ttl", JInt 60);
                                ("proxied", JBool false)]);
       timeout := None |} in
  Scenario.create_refused_net create
  = Responds {| status_code := 200; http_error := ""; text := "";
                json_result := inr (JObj [("success", JBool false);
                                          ("errors", JArr [])]) |}
  /\ update_dns Scenario.repr Scenario.create_refused_net Scenario.ddns Scenario.s0
     = (Raises IndexError,
        {| calls := [ip_call "https://api.ipify.org";
                     {| verb := "GET";
                        url := "https://api.cloudflare.com/client/v4/zones/zone1/"
                               ++ "dns_records?name=ddns.example.com&type=A";
                        headers := [("Authorization", "Bearer token");
                                    ("Content-Type", "application/json")];
                        json_data := None;
                        timeout := None |};
                     create];
           logs := [log_start Scenario.ddns; log_ip "203.0.113.5";
                    log_missing Scenario.ddns] |}).
Proof. split; vm_compute; reflexivity. Qed.

(** C10.  A list response that reports success and has no [result] field,
    or a [result] that is empty (or otherwise false), is taken as "no
    record": the run warns that the record is missing and its next and last
    call is the create call; no update call is sent. *)
Theorem missing_result_creates (py_repr : json -> string)
    (net : http_call -> reply) (self : CloudflareDDNS) (s : state)
    (ip : string) (tried : list string) (d : list (string * json)) :
  resolves net self ip tried ->
  answers_with (net (list_call self)) d ->
  reports_success d = true ->
  lookup "result" d = None
  \/ (exists v, lookup "result" d = Some v /\ truthy v = false) ->
  let sent := (map ip_call tried ++ [list_call self; create_call self ip])%list in
  (exists r ls,
     update_dns py_repr net self s =
     (r, emit s sent ([log_start self; log_ip ip; log_missing self] ++ ls)))
  /\ Forall (fun c => verb c <> "PUT") sent.
Proof.
  intros Hip Hlist Hsucc Hres sent; subst sent.
  assert (Hempty : truthy (listed d) = false).
  { unfold listed, field.
    destruct Hres as [-> | (v & -> & Hv)]; [reflexivity | exact Hv]. }
  split.
  - exact (create_path py_repr net self s ip tried d Hip Hlist Hsucc Hempty).
  - apply Forall_app; split.
    + apply Forall_forall; intros c Hc.
      apply in_map_iff in Hc as (x & <- & _); discriminate.
    + repeat constructor; discriminate.
Qed.

Lemma missing_result_creates_witness :
  let net := Scenario.no_result_net in
  let sent := [ip_call "https://api.ipify.org"; list_call Scenario.ddns;
               create_call Scenario.ddns "203.0.113.5"] in
  resolves net Scenario.ddns "203.0.113.5" ["https://api.ipify.org"]
  /\ lookup "result" [("success", JBool true)] = None
  /\ (exists r ls,
        update_dns Scenario.repr net Scenario.ddns Scenario.s0 =
        (r, emit Scenario.s0 sent
              ([log_start Scenario.ddns; log_ip "203.0.113.5";
                log_missing Scenario.ddns] ++ ls))).
Proof.
  intros net sent.
  assert (Hip : resolves net Scenario.ddns "203.0.113.5" ["https://api.ipify.org"]).
  { apply resolves_echo; [reflexivity | discriminate]. }
  assert (Hlist : answers_with (net (list_call Scenario.ddns)) [("success", JBool true)]).
  { eexists; repeat split; reflexivity. }
  split; [exact Hip | split; [reflexivity |]].
  exact (proj1 (missing_result_creates Scenario.repr net Scenario.ddns Scenario.s0
                  "203.0.113.5" ["https://api.ipify.org"] _
                  Hip Hlist eq_refl (or_introl eq_refl))).
Defined.

(** The steps from the list response to the update call. *)
Ltac run_to_update self Hip Hlist Hsucc Hrec Hid Hcontent Hdiff :=
  run_to_list self Hip Hlist;
  let Hs := fresh "Hs" in
  pose proof Hsucc as Hs; unfold reports_success, field in Hs;
  rewrite Hs; cbn [negb]; rewrite bind_lift;
  let Hr := fresh "Hr" in
  pose proof Hrec as Hr; unfold listed, field in Hr;
  rewrite Hr; cbn [truthy negb len];
  rewrite bind_lift, bind_many;
  cbn [getitem0]; rewrite bind_lift, Hid, bind_lift, Hcontent, bind_lift;
  rewrite Hdiff, bind_log;
  rewrite (bind_cf_api_request _ _ "PUT" _ _ _ _ _ eq_refl);
  match goal with
  | |- context [api_call self "PUT" ("dns_records/" ++ ?id)
                  (Some (record_data self ?ip))] =>
      fold (update_call self id ip)
  end.

Ltac finish_update :=
  rewrite ?emit_emit; cbn [app]; rewrite <- ?app_assoc, ?app_nil_r; cbn [app];
  reflexivity.

(** The update path, whatever the provider replies to the update call. *)
Lemma update_path (py_repr : json -> string) (net : http_call -> reply)
    (self : CloudflareDDNS) (s : state) (ip : string) (tried : list string)
    (d : list (string * json)) (record record_id existing_ip : json)
    (others : list json) :
  resolves net self ip tried ->
  answers_with (net (list_call self)) d ->
  reports_success d = true ->
  listed d = JArr (record :: others) ->
  getitem record "id" = Returns record_id ->
  getitem record "content" = Returns existing_ip ->
  eq_str existing_ip ip = false ->
  exists r ls,
    update_dns py_repr net self s =
    (r, emit s (map ip_call tried
                ++ [list_call self; update_call self (py_str py_repr record_id) ip])
          ([log_start self; log_ip ip] ++ warning_if_many self (record :: others)
           ++ [log_changed self (py_str py_repr existing_ip) ip] ++ ls)).
Proof.
  intros Hip Hlist Hsucc Hrec Hid Hcontent Hdiff.
  run_to_update self Hip Hlist Hsucc Hrec Hid Hcontent Hdiff.
  destruct (settled (net (update_call self (py_str py_repr record_id) (String a ip))))
    as [[v | e] lsc].
  - cbn [fst snd].
    match goal with
    | |- exists r ls', ?k ?s0 = _ => assert (Hq : sends k [])
    end.
    { repeat first [apply sends_first_error | quiet_step]. }
    match goal with
    | |- exists r ls', ?k ?s0 = _ => destruct (Hq s0) as (r & lst & ->)
    end.
    exists r, (lsc ++ lst)%list. finish_update.
  - cbn [fst snd]. exists (Raises e), lsc. finish_update.
Qed.

(** The update path, outcome by outcome.  When the list call succeeds and
    the content of the first record listed differs from the resolved
    address, the run sends exactly one more call, a PUT to
    [dns_records/<id of that record>] under the zone whose body is the
    record made of the configured type, name and ttl, the resolved address
    and [proxied=false]; it returns [True] when the provider answers with
    success, and [False] when the request fails or the answer reports a
    failure whose [errors] are absent or start with an object. *)
Theorem changed_record_updates (py_repr : json -> string)
    (net : http_call -> reply) (self : CloudflareDDNS) (s : state)
    (ip : string) (tried : list string) (d : list (string * json))
    (record record_id existing_ip : json) (others : list json) :
  resolves net self ip tried ->
  answers_with (net (list_call self)) d ->
  reports_success d = true ->
  listed d = JArr (record :: others) ->
  getitem record "id" = Returns record_id ->
  getitem record "content" = Returns existing_ip ->
  eq_str existing_ip ip = false ->
  let target := update_call self (py_str py_repr record_id) ip in
  let sent := (map ip_call tried ++ [list_call self; target])%list in
  let before := ([log_start self; log_ip ip]
                 ++ warning_if_many self (record :: others)
                 ++ [log_changed self (py_str py_repr existing_ip) ip])%list in
  calls (snd (update_dns py_repr net self s)) = (calls s ++ sent)%list
  /\ verb target = "PUT"
  /\ url target = "https://api.cloudflare.com/client/v4/zones/"
                  ++ ZONE_ID (config self) ++ "/dns_records/"
                  ++ py_str py_repr record_id
  /\ json_data target =
     Some (JObj [("type", JStr (RECORD_TYPE (config self)));
                 ("name", JStr (RECORD_NAME (config self)));
                 ("content", JStr ip);
                 ("ttl", JInt (TTL (config self)));
                 ("proxied", JBool false)])
  /\ (forall d',
        answers_with (net target) d' ->
        reports_success d' = true ->
        update_dns py_repr net self s =
        (Returns true, emit s sent (before ++ [log_updated self ip; log_done])))
  /\ (forall msg,
        request_failure (net target) = Some msg ->
        update_dns py_repr net self s =
        (Returns false,
         emit s sent (before ++ [log_request_failed msg;
                                 log_update_failed self msg; log_failed])))
  /\ (forall d' m,
        answers_with (net target) d' ->
        reports_success d' = false ->
        first_message d' = Some m ->
        update_dns py_repr net self s =
        (Returns false,
         emit s sent (before ++ [log_update_failed self (py_str py_repr m);
                                 log_failed]))).
Proof.
  intros Hip Hlist Hsucc Hrec Hid Hcontent Hdiff target sent before.
  subst target sent before.
  split; [| split; [reflexivity | split; [reflexivity | split;
    [reflexivity | split; [| split]]]]].
  - destruct (update_path py_repr net self s ip tried d record record_id
                existing_ip others Hip Hlist Hsucc Hrec Hid Hcontent Hdiff)
      as (r & ls & ->).
    reflexivity.
  - intros d' Hans Hs'.
    run_to_update self Hip Hlist Hsucc Hrec Hid Hcontent Hdiff.
    rewrite (settled_ok _ _ Hans); cbn [fst snd].
    cbn [get]. rewrite bind_lift.
    unfold reports_success, field in Hs'. rewrite Hs'.
    rewrite !bind_log. unfold ret. finish_update.
  - intros msg Hfail.
    run_to_update self Hip Hlist Hsucc Hrec Hid Hcontent Hdiff.
    rewrite (settled_failure _ _ Hfail); cbn [fst snd].
    unfold failure_dict at 1. cbn [get lookup String.eqb Ascii.eqb Bool.eqb].
    rewrite bind_lift. cbn [truthy].
    fold (failure_dict msg).
    rewrite (bind_run _ _ _ _ _ (first_error_failure_dict msg _)).
    cbn [py_str]. rewrite !bind_log. unfold ret. finish_update.
  - intros d' m Hans Hs' Hm.
    run_to_update self Hip Hlist Hsucc Hrec Hid Hcontent Hdiff.
    rewrite (settled_ok _ _ Hans); cbn [fst snd].
    cbn [get]. rewrite bind_lift.
    unfold reports_success, field in Hs'. rewrite Hs'.
    rewrite (bind_run _ _ _ _ _ (first_error_body d' m _ Hm)).
    rewrite !bind_log. unfold ret. finish_update.
Qed.

Lemma changed_record_updates_witness :
  let net := Scenario.update_net in
  let sent := [ip_call "https://api.ipify.org"; list_call Scenario.ddns;
               update_call Scenario.ddns "r1" "203.0.113.9"] in
  resolves net Scenario.ddns "203.0.113.9" ["https://api.ipify.org"]
  /\ eq_str (JStr "203.0.113.1") "203.0.113.9" = false
  /\ calls (snd (update_dns Scenario.repr net Scenario.ddns Scenario.s0)) = sent
  /\ update_dns Scenario.repr net Scenario.ddns Scenario.s0 =
     (Returns true,
      emit Scenario.s0 sent
        [log_start Scenario.ddns; log_ip "203.0.113.9";
         log_changed Scenario.ddns "203.0.113.1" "203.0.113.9";
         log_updated Scenario.ddns "203.0.113.9"; log_done]).
Proof.
  intros net sent.
  assert (Hip : resolves net Scenario.ddns "203.0.113.9" ["https://api.ipify.org"]).
  { apply resolves_echo; [reflexivity | discriminate]. }
  assert (Hlist : answers_with (net (list_call Scenario.ddns))
            [("success", JBool true); ("errors", JArr []);
             ("result", JArr [Scenario.record "r1" "203.0.113.1" false])]).
  { eexists; repeat split; reflexivity. }
  destruct (changed_record_updates Scenario.repr net Scenario.ddns Scenario.s0
              "203.0.113.9" ["https://api.ipify.org"] _
              (Scenario.record "r1" "203.0.113.1" false) (JStr "r1")
              (JStr "203.0.113.1") []
              Hip Hlist eq_refl eq_refl eq_refl eq_refl eq_refl)
    as (Hcalls & _ & _ & _ & Hok & _).
  split; [exact Hip | split; [reflexivity | split; [exact Hcalls |]]].
  refine (Hok [("success", JBool true); ("errors", JArr []);
               ("result", Scenario.record "r1" "203.0.113.9" false)] _ eq_refl).
  eexists; repeat split; reflexivity.
Defined.

(** C3.  The first record listed has another address than the resolved one
    and the provider answers the update call with status 200 and the body
    [{"success": false, "errors": []}], a reported failure: the run sends
    the PUT to [dns_records/r1], the id of that record, with the body the
    claim gives, and then raises [IndexError] at
    [update_result.get("errors", [{}])[0]]; it does not return [False], and
    neither the failure of the update nor the end of the run is logged. *)
Theorem update_failure_without_errors_raises :
  let update :=
    {| verb := "PUT";
       url := "https://api.cloudflare.com/client/v4/zones/zone1/dns_records/r1";
       headers := [("Authorization", "Bearer token");
                   ("Content-Type", "application/json")];
       json_data := Some (JObj [("type", JStr "A"); ("name", JStr "ddns.example.com");
                                ("content", JStr "203.0.113.9"); ("ttl", JInt 60);
                                ("proxied", JBool false)]);
       timeout := None |} in
  Scenario.update_refused_net update
  = Responds {| status_code := 200; http_error := ""; text := "";
                json_result := inr (JObj [("success", JBool false);
                                          ("errors", JArr [])]) |}
  /\ update_dns Scenario.repr Scenario.update_refused_net Scenario.ddns Scenario.s0
     = (Raises IndexError,
        {| calls := [ip_call "https://api.ipify.org";
                     {| verb := "GET";
                        url := "https://api.cloudflare.com/client/v4/zones/zone1/"
                               ++ "dns_records?name=ddns.example.com&type=A";
                        headers := [("Authorization", "Bearer token");
                                    ("Content-Type", "application/json")];
                        json_data := None;
                        timeout := None |};
                     update];
           logs := [log_start Scenario.ddns; log_ip "203.0.113.9";
                    log_changed Scenario.ddns "203.0.113.1" "203.0.113.9"] |}).
Proof. split; vm_compute; reflexivity. Qed.

(** ** More than one record *)

Lemma sends_log_then {B} (lvl : level) (msg : string) (k : unit -> M B)
    (cs : list http_call) :
  sends (k tt) cs -> sends (bind (log lvl msg) k) cs.
Proof.
  intros Hk s. rewrite bind_log.
  destruct (Hk (emit s [] [(lvl, msg)])) as (r & ls & ->).
  exists r, ((lvl, msg) :: ls). now rewrite emit_emit.
Qed.

Lemma sends_cf_api_request (net : http_call -> reply) (self : CloudflareDDNS)
    (method endpoint : string) (data sent : option json) :
  sent_data method data = Some sent ->
  sends (cf_api_request net self method endpoint data)
    [api_call self method endpoint sent].
Proof.
  intros Hm s. rewrite (cf_api_request_run net self method endpoint data sent s Hm).
  eexists; eexists; reflexivity.
Qed.

(** A computation that sends [cs] does so with one result and one log. *)
Lemma framed_sends {A} (m : M A) (cs : list http_call) :
  framed m -> sends m cs -> exists r ls, forall s, m s = (r, emit s cs ls).
Proof.
  intros (r & cs0 & ls & Hm) Hs.
  destruct (Hs {| calls := []; logs := [] |}) as (r' & ls' & H').
  rewrite Hm in H'.
  assert (cs0 = cs) as -> by (unfold emit in H'; cbn in H'; congruence).
  now exists r, ls.
Qed.

Ltac as_sends :=
  match goal with
  | |- forall s, exists r ls, ?m s = (r, emit s ?cs ls) => change (sends m cs)
  end.

Section FirstRecord.

Variable py_repr : json -> string.
Variable self : CloudflareDDNS.
Variable ip : string.
Variable record : json.

Lemma framed_after_first_record (net : http_call -> reply) :
  framed (after_first_record py_repr net self ip record).
Proof.
  unfold after_first_record.
  repeat first [ apply framed_cf_api_request | apply framed_first_error
               | framed_step ].
Qed.

(** The tail sends nothing, or one update call to the id of the record. *)
Lemma after_first_record_calls (net : http_call -> reply) :
  exists r cs ls,
    (forall s, after_first_record py_repr net self ip record s = (r, emit s cs ls))
    /\ (cs = []
        \/ exists record_id,
             getitem record "id" = Returns record_id
             /\ cs = [update_call self (py_str py_repr record_id) ip]).
Proof.
  pose proof (framed_after_first_record net) as Hf.
  assert (Hs : sends (after_first_record py_repr net self ip record) []
               \/ exists record_id,
                    getitem record "id" = Returns record_id
                    /\ sends (after_first_record py_repr net self ip record)
                         [update_call self (py_str py_repr record_id) ip]).
  { unfold after_first_record.
    destruct (getitem record "id") as [record_id | e];
      [| left; intros s; exists (Raises e), []; now rewrite emit_nil].
    destruct (getitem record "content") as [existing_ip | e];
      [| left; intros s; exists (Raises e), []; now rewrite emit_nil].
    destruct (eq_str existing_ip ip) eqn:E.
    - left. intros s. rewrite !bind_lift, E.
      revert s. as_sends. repeat quiet_step.
    - right; exists record_id; split; trivial.
      intros s. rewrite !bind_lift, E. revert s. as_sends.
      apply sends_log_then.
      apply sends_bind_quiet.
      + apply (sends_cf_api_request net self "PUT" _ _ _ eq_refl).
      + intros v. repeat first [apply sends_first_error | quiet_step]. }
  destruct Hs as [Hs | (record_id & Hid & Hs)];
    destruct (framed_sends _ _ Hf Hs) as (r & ls & Hrun).
  - exists r, [], ls; split; [exact Hrun | now left].
  - exists r, [update_call self (py_str py_repr record_id) ip], ls.
    split; [exact Hrun | right; now exists record_id].
Qed.

(** The tail looks at the network through its update calls only. *)
Lemma after_first_record_ext (net net' : http_call -> reply) (s : state) :
  (forall c, verb c = "PUT" -> net' c = net c) ->
  after_first_record py_repr net' self ip record s
  = after_first_record py_repr net self ip record s.
Proof.
  intros Hagree. unfold after_first_record.
  destruct (getitem record "id") as [record_id | e]; [| reflexivity].
  destruct (getitem record "content") as [existing_ip | e]; [| reflexivity].
  rewrite !bind_lift.
  destruct (eq_str existing_ip ip); [reflexivity |].
  rewrite !bind_log.
  rewrite !(bind_cf_api_request _ _ "PUT" _ _ _ _ _ eq_refl).
  now rewrite Hagree.
Qed.

(** [update_dns] continues with the tail once it has the first record. *)
Lemma update_dns_first_record (net : http_call -> reply) (s : state)
    (tried : list string) (d : list (string * json)) (others : list json) :
  resolves net self ip tried ->
  answers_with (net (list_call self)) d ->
  reports_success d = true ->
  listed d = JArr (record :: others) ->
  update_dns py_repr net self s =
  after_first_record py_repr net self ip record
    (emit s (map ip_call tried ++ [list_call self])
       ([log_start self; log_ip ip] ++ warning_if_many self (record :: others))).
Proof.
  intros Hip Hlist Hsucc Hrec.
  unfold after_first_record.
  run_to_list self Hip Hlist.
  unfold reports_success, field in Hsucc. rewrite Hsucc. cbn [negb].
  rewrite bind_lift.
  unfold listed, field in Hrec. rewrite Hrec. cbn [truthy negb len].
  rewrite bind_lift, bind_many.
  cbn [getitem0]. rewrite bind_lift.
  rewrite ?emit_emit; cbn [app]; rewrite ?app_nil_r. reflexivity.
Qed.

End FirstRecord.

(** C4.  When the list response holds more than one record, the run is
    the one a response holding the first record alone would give, on a
    network that resolves the same address and answers updates alike: same
    result, same calls, and a log that differs by the warning only.  After
    the list call the run sends nothing, or one update, a PUT to
    [dns_records/<id of the first record>] under the base path of the zone;
    it never sends a create call. *)
Theorem many_records_use_first (py_repr : json -> string)
    (net net' : http_call -> reply) (self : CloudflareDDNS) (s : state)
    (ip : string) (tried : list string) (d d' : list (string * json))
    (record second : json) (others : list json) :
  resolves net self ip tried ->
  answers_with (net (list_call self)) d ->
  reports_success d = true ->
  listed d = JArr (record :: second :: others) ->
  resolves net' self ip tried ->
  answers_with (net' (list_call self)) d' ->
  reports_success d' = true ->
  listed d' = JArr [record] ->
  (forall c, verb c = "PUT" -> net' c = net c) ->
  exists r cs ls,
    update_dns py_repr net self s =
    (r, emit s (map ip_call tried ++ list_call self :: cs)
          ([log_start self; log_ip ip;
            log_many self (List.length (record :: second :: others))] ++ ls))
    /\ update_dns py_repr net' self s =
       (r, emit s (map ip_call tried ++ list_call self :: cs)
             ([log_start self; log_ip ip] ++ ls))
    /\ (cs = []
        \/ exists record_id target,
             getitem record "id" = Returns record_id
             /\ cs = [target]
             /\ target = update_call self (py_str py_repr record_id) ip
             /\ verb target = "PUT"
             /\ url target = "https://api.cloudflare.com/client/v4/zones/"
                             ++ ZONE_ID (config self) ++ "/dns_records/"
                             ++ py_str py_repr record_id)
    /\ Forall (fun c => verb c <> "POST") (map ip_call tried ++ list_call self :: cs).
Proof.
  intros Hip Hlist Hsucc Hrec Hip' Hlist' Hsucc' Hrec' Hagree.
  destruct (after_first_record_calls py_repr self ip record net)
    as (r & cs & ls & Hrun & Hcs).
  exists r, cs, ls.
  rewrite (update_dns_first_record py_repr self ip record net s tried d
             (second :: others) Hip Hlist Hsucc Hrec).
  rewrite (update_dns_first_record py_repr self ip record net' s tried d' []
             Hip' Hlist' Hsucc' Hrec').
  rewrite (after_first_record_ext py_repr self ip record net net' _ Hagree).
  rewrite !Hrun, !emit_emit.
  split; [| split; [| split]].
  - unfold warning_if_many. cbn [List.length Nat.ltb Nat.leb app].
    now rewrite <- !app_assoc.
  - unfold warning_if_many. cbn [List.length Nat.ltb Nat.leb app].
    now rewrite <- !app_assoc.
  - destruct Hcs as [-> | (record_id & Hid & ->)]; [now left | right].
    exists record_id, (update_call self (py_str py_repr record_id) ip).
    split; [exact Hid | repeat split].
  - apply Forall_app; split.
    + apply Forall_forall; intros c Hc.
      apply in_map_iff in Hc as (x & <- & _); discriminate.
    + constructor; [discriminate |].
      destruct Hcs as [-> | (record_id & _ & ->)]; [constructor |].
      constructor; [discriminate | constructor].
Qed.

Lemma many_records_use_first_witness :
  let net := Scenario.two_records_net in
  let net' := Scenario.update_net in
  let target := update_call Scenario.ddns "r1" "203.0.113.9" in
  resolves net Scenario.ddns "203.0.113.9" ["https://api.ipify.org"]
  /\ (forall c, verb c = "PUT" -> net' c = net c)
  /\ update_dns Scenario.repr net Scenario.ddns Scenario.s0 =
     (Returns true,
      emit Scenario.s0
        [ip_call "https://api.ipify.org"; list_call Scenario.ddns; target]
        [log_start Scenario.ddns; log_ip "203.0.113.9"; log_many Scenario.ddns 2;
         log_changed Scenario.ddns "203.0.113.1" "203.0.113.9";
         log_updated Scenario.ddns "203.0.113.9"; log_done])
  /\ fst (update_dns Scenario.repr net' Scenario.ddns Scenario.s0) = Returns true
  /\ url target = "https://api.cloudflare.com/client/v4/zones/zone1/dns_records/r1".
Proof.
  intros net net' target.
  assert (Hip : resolves net Scenario.ddns "203.0.113.9" ["https://api.ipify.org"]).
  { apply resolves_echo; [reflexivity | discriminate]. }
  assert (Hip' : resolves net' Scenario.ddns "203.0.113.9" ["https://api.ipify.org"]).
  { apply resolves_echo; [reflexivity | discriminate]. }
  assert (Hagree : forall c, verb c = "PUT" -> net' c = net c).
  { intros c Hc. unfold net, net', Scenario.two_records_net, Scenario.update_net,
      Scenario.network. now rewrite Hc. }
  assert (Hlist : answers_with (net (list_call Scenario.ddns))
            [("success", JBool true); ("errors", JArr []);
             ("result", JArr [Scenario.record "r1" "203.0.113.1" false;
                              Scenario.record "r2" "203.0.113.9" false])]).
  { eexists; repeat split; reflexivity. }
  assert (Hlist' : answers_with (net' (list_call Scenario.ddns))
            [("success", JBool true); ("errors", JArr []);
             ("result", JArr [Scenario.record "r1" "203.0.113.1" false])]).
  { eexists; repeat split; reflexivity. }
  destruct (many_records_use_first Scenario.repr net net' Scenario.ddns Scenario.s0
              "203.0.113.9" ["https://api.ipify.org"] _ _
              (Scenario.record "r1" "203.0.113.1" false)
              (Scenario.record "r2" "203.0.113.9" false) []
              Hip Hlist eq_refl eq_refl Hip' Hlist' eq_refl eq_refl Hagree)
    as (r & cs & ls & Hrun & Hrun' & _ & _).
  split; [exact Hip | split; [exact Hagree |]].
  assert (Hgoal : update_dns Scenario.repr net Scenario.ddns Scenario.s0 =
     (Returns true,
      emit Scenario.s0
        [ip_call "https://api.ipify.org"; list_call Scenario.ddns; target]
        [log_start Scenario.ddns; log_ip "203.0.113.9"; log_many Scenario.ddns 2;
         log_changed Scenario.ddns "203.0.113.1" "203.0.113.9";
         log_updated Scenario.ddns "203.0.113.9"; log_done]))
    by (vm_compute; reflexivity).
  split; [exact Hgoal |].
  pose proof Hrun as E. rewrite Hgoal in E. injection E as <- _.
  split; [now rewrite Hrun' | reflexivity].
Defined.

(** ** Writes of a run *)

(** C8, counterexample.  The record listed is proxied; the run updates it
    with a body that says [proxied=false]: the update does not keep the
    record's proxied status. *)
Lemma update_unproxies_record :
  calls (snd (update_dns Scenario.repr Scenario.proxied_net Scenario.ddns Scenario.s0))
  = [ip_call "https://api.ipify.org"; list_call Scenario.ddns;
     update_call Scenario.ddns "r1" "203.0.113.9"]
  /\ getitem (Scenario.record "r1" "203.0.113.1" true) "proxied" = Returns (JBool true)
  /\ ~ keeps_field "proxied" (Scenario.record "r1" "203.0.113.1" true)
         (update_call Scenario.ddns "r1" "203.0.113.9").
Proof.
  split; [vm_compute; reflexivity | split; [reflexivity |]].
  intros (body & v & Hbody & Hrecord & Hsent).
  injection Hbody as <-.
  vm_compute in Hrecord; vm_compute in Hsent.
  congruence.
Qed.

(** ** Errors of the provider *)

Lemma strings_JStr (ms : list string) : strings (map JStr ms) = Returns ms.
Proof. induction ms as [| m ms IH]; cbn; [reflexivity | now rewrite IH]. Qed.

Lemma messages_carried (entries : list (list (string * json))) (ms : list string) :
  Forall2 (fun e m => lookup "message" e = Some (JStr m)) entries ms ->
  messages (map JObj entries) = Returns (map JStr ms).
Proof.
  induction 1 as [| e m entries ms He _ IH]; [reflexivity |].
  cbn [map messages getitem]. now rewrite He, IH.
Qed.

(** The inner [try] of [cf_api_request] on an array of errors. *)
Lemma response_errors_carried (d : list (string * json)) (errs : json)
    (ms : list string) :
  lookup "errors" d = Some errs ->
  carries_messages errs ms ->
  response_errors (Some (JObj d)) = Some (joined ms).
Proof.
  intros H (entries & -> & Hms). unfold response_errors. rewrite H. cbn [iter].
  rewrite (messages_carried _ _ Hms). unfold join. now rewrite strings_JStr.
Qed.

Lemma refuses_with_failure (rep : reply) (error_text : string)
    (d : list (string * json)) (errs : json) (ms : list string) :
  refuses_with rep error_text d ->
  lookup "errors" d = Some errs ->
  carries_messages errs ms ->
  request_failure rep = Some (error_text ++ " | " ++ joined ms).
Proof.
  intros (r & -> & Hok & <- & Hj) He Hms.
  unfold request_failure, failure_text, decoded. rewrite Hok, Hj.
  now rewrite (response_errors_carried d errs ms He Hms).
Qed.

Lemma first_message_carried (d : list (string * json)) (errs : json)
    (m : string) (ms : list string) :
  lookup "errors" d = Some errs ->
  carries_messages errs (m :: ms) ->
  first_message d = Some (JStr m).
Proof.
  intros H (entries & -> & Hms). unfold first_message, field. rewrite H.
  inversion Hms as [| e m' entries' ms' He _]; subst. cbn [map]. now rewrite He.
Qed.

Section Failures.

Variable py_repr : json -> string.
Variable net : http_call -> reply.
Variable self : CloudflareDDNS.
Variable s : state.
Variable ip : string.
Variable tried : list string.
Hypothesis Hip : resolves net self ip tried.

(** The list call fails. *)
Lemma list_request_failure (msg : string) :
  request_failure (net (list_call self)) = Some msg ->
  update_dns py_repr net self s =
  (Returns false,
   emit s (map ip_call tried ++ [list_call self])
     [log_start self; log_ip ip; log_request_failed msg; log_api_error msg;
      log_failed]).
Proof.
  intros Hfail.
  unfold update_dns; rewrite bind_log.
  rewrite (bind_run _ _ _ _ _ (Hip _)).
  pose proof (get_public_ip_nonempty _ _ _ _ _
                (Hip {| calls := []; logs := [] |})) as Hne.
  destruct ip; [now elim Hne |].
  rewrite (bind_cf_api_request _ _ "GET" _ None None _ _ eq_refl).
  fold (list_call self).
  rewrite (settled_failure _ _ Hfail); cbn [fst snd].
  unfold failure_dict at 1. cbn [get lookup String.eqb Ascii.eqb Bool.eqb].
  rewrite bind_lift. cbn [truthy negb].
  fold (failure_dict msg).
  rewrite (bind_run _ _ _ _ _ (first_error_failure_dict msg _)).
  cbn [py_str]. rewrite !bind_log. unfold ret. finish_run.
Qed.

Lemma list_body_failure (d : list (string * json)) (m : json) :
  answers_with (net (list_call self)) d ->
  reports_success d = false ->
  first_message d = Some m ->
  update_dns py_repr net self s =
  (Returns false,
   emit s (map ip_call tried ++ [list_call self])
     [log_start self; log_ip ip; log_api_error (py_str py_repr m); log_failed]).
Proof.
  intros Hans Hs Hm.
  run_to_list self Hip Hans.
  unfold reports_success, field in Hs. rewrite Hs. cbn [negb].
  rewrite (bind_run _ _ _ _ _ (first_error_body d m _ Hm)).
  rewrite !bind_log. unfold ret. finish_run.
Qed.

Section Create.

Variable d0 : list (string * json).
Hypothesis Hlist : answers_with (net (list_call self)) d0.
Hypothesis Hsucc : reports_success d0 = true.
Hypothesis Hempty : truthy (listed d0) = false.

Lemma create_request_failure (msg : string) :
  request_failure (net (create_call self ip)) = Some msg ->
  update_dns py_repr net self s =
  (Returns false,
   emit s (map ip_call tried ++ [list_call self; create_call self ip])
     [log_start self; log_ip ip; log_missing self; log_request_failed msg;
      log_create_failed self msg; log_failed]).
Proof.
  intros Hfail.
  run_to_create self Hip Hlist Hsucc Hempty.
  rewrite (settled_failure _ _ Hfail); cbn [fst snd].
  unfold failure_dict at 1. cbn [get lookup String.eqb Ascii.eqb Bool.eqb].
  rewrite bind_lift. cbn [truthy].
  fold (failure_dict msg).
  rewrite (bind_run _ _ _ _ _ (first_error_failure_dict msg _)).
  cbn [py_str]. rewrite !bind_log. unfold ret. finish_run.
Qed.

Lemma create_body_failure (d : list (string * json)) (m : json) :
  answers_with (net (create_call self ip)) d ->
  reports_success d = false ->
  first_message d = Some m ->
  update_dns py_repr net self s =
  (Returns false,
   emit s (map ip_call tried ++ [list_call self; create_call self ip])
     [log_start self; log_ip ip; log_missing self;
      log_create_failed self (py_str py_repr m); log_failed]).
Proof.
  intros Hans Hs' Hm.
  run_to_create self Hip Hlist Hsucc Hempty.
  rewrite (settled_ok _ _ Hans); cbn [fst snd].
  cbn [get]. rewrite bind_lift.
  unfold reports_success, field in Hs'. rewrite Hs'.
  rewrite (bind_run _ _ _ _ _ (first_error_body d m _ Hm)).
  rewrite !bind_log. unfold ret. finish_run.
Qed.

End Create.

Section Update.

Variable d0 : list (string * json).
Variables record record_id existing_ip : json.
Variable others : list json.
Hypothesis Hlist : answers_with (net (list_call self)) d0.
Hypothesis Hsucc : reports_success d0 = true.
Hypothesis Hrec : listed d0 = JArr (record :: others).
Hypothesis Hid : getitem record "id" = Returns record_id.
Hypothesis Hcontent : getitem record "content" = Returns existing_ip.
Hypothesis Hdiff : eq_str existing_ip ip = false.

Lemma update_request_failure (msg : string) :
  request_failure (net (update_call self (py_str py_repr record_id) ip)) = Some msg ->
  update_dns py_repr net self s =
  (Returns false,
   emit s (map ip_call tried
           ++ [list_call self; update_call self (py_str py_repr record_id) ip])
     ([log_start self; log_ip ip] ++ warning_if_many self (record :: others)
      ++ [log_changed self (py_str py_repr existing_ip) ip;
          log_request_failed msg; log_update_failed self msg; log_failed])).
Proof.
  intros Hfail.
  run_to_update self Hip Hlist Hsucc Hrec Hid Hcontent Hdiff.
  rewrite (settled_failure _ _ Hfail); cbn [fst snd].
  unfold failure_dict at 1. cbn [get lookup String.eqb Ascii.eqb Bool.eqb].
  rewrite bind_lift. cbn [truthy].
  fold (failure_dict msg).
  rewrite (bind_run _ _ _ _ _ (first_error_failure_dict msg _)).
  cbn [py_str]. rewrite !bind_log. unfold ret. finish_update.
Qed.

Lemma update_body_failure (d : list (string * json)) (m : json) :
  answers_with (net (update_call self (py_str py_repr record_id) ip)) d ->
  reports_success d = false ->
  first_message d = Some m ->
  update_dns py_repr net self s =
  (Returns false,
   emit s (map ip_call tried
           ++ [list_call self; update_call self (py_str py_repr record_id) ip])
     ([log_start self; log_ip ip] ++ warning_if_many self (record :: others)
      ++ [log_changed self (py_str py_repr existing_ip) ip;
          log_update_failed self (py_str py_repr m); log_failed])).
Proof.
  intros Hans Hs' Hm.
  run_to_update self Hip Hlist Hsucc Hrec Hid Hcontent Hdiff.
  rewrite (settled_ok _ _ Hans); cbn [fst snd].
  cbn [get]. rewrite bind_lift.
  unfold reports_success, field in Hs'. rewrite Hs'.
  rewrite (bind_run _ _ _ _ _ (first_error_body d m _ Hm)).
  rewrite !bind_log. unfold ret. finish_update.
Qed.

End Update.

End Failures.

(** C6, counterexample.  The list call is answered with [success=false]
    and two errors.  With a success status the run reports the first message
    alone; with an error status it reports the text of the HTTP error, a
    bar, and then the joined messages.  Neither is the joined messages. *)
Lemma reported_error_is_not_joined :
  let ms := ["Invalid access token"; "Authentication error"] in
  let http := "403 Client Error: Forbidden for url: https://api.cloudflare.com/" in
  let sent := [ip_call "https://api.ipify.org"; list_call Scenario.ddns] in
  update_dns Scenario.repr Scenario.list_errors_net Scenario.ddns Scenario.s0 =
  (Returns false,
   emit Scenario.s0 sent
     [log_start Scenario.ddns; log_ip "203.0.113.9";
      log_api_error "Invalid access token"; log_failed])
  /\ update_dns Scenario.repr Scenario.list_refused_net Scenario.ddns Scenario.s0 =
     (Returns false,
      emit Scenario.s0 sent
        [log_start Scenario.ddns; log_ip "203.0.113.9";
         log_request_failed (http ++ " | " ++ joined ms);
         log_api_error (http ++ " | " ++ joined ms); log_failed])
  /\ "Invalid access token" <> joined ms
  /\ http ++ " | " ++ joined ms <> joined ms.
Proof.
  repeat split; try (vm_compute; reflexivity); vm_compute; discriminate.
Qed.

(** C6, as amended.  Let a list, create or update call be answered with a
    body whose [errors] array is made of dicts that hold the messages
    [m :: ms] under ["message"], whatever other keys (such as a code) the
    entries have.  When the response has an error status, the error the run
    reports is the text of the HTTP error, then [" | "], then the messages
    joined by [", "]; when the response has a success status and
    [success=false], the error reported is the first message [m] alone.  In
    both cases the run returns [False]. *)
Theorem provider_errors_reported (py_repr : json -> string)
    (net : http_call -> reply) (self : CloudflareDDNS) (s : state)
    (ip : string) (tried : list string) (error_text : string)
    (d : list (string * json)) (errs : json) (m : string) (ms : list string) :
  resolves net self ip tried ->
  lookup "errors" d = Some errs ->
  carries_messages errs (m :: ms) ->
  let reported := error_text ++ " | " ++ joined (m :: ms) in
  ((refuses_with (net (list_call self)) error_text d ->
    update_dns py_repr net self s =
    (Returns false,
     emit s (map ip_call tried ++ [list_call self])
       [log_start self; log_ip ip; log_request_failed reported;
        log_api_error reported; log_failed]))
   /\ (answers_with (net (list_call self)) d ->
       reports_success d = false ->
       update_dns py_repr net self s =
       (Returns false,
        emit s (map ip_call tried ++ [list_call self])
          [log_start self; log_ip ip; log_api_error m; log_failed])))
  /\ (forall d0,
        answers_with (net (list_call self)) d0 ->
        reports_success d0 = true ->
        truthy (listed d0) = false ->
        (refuses_with (net (create_call self ip)) error_text d ->
         update_dns py_repr net self s =
         (Returns false,
          emit s (map ip_call tried ++ [list_call self; create_call self ip])
            [log_start self; log_ip ip; log_missing self;
             log_request_failed reported; log_create_failed self reported;
             log_failed]))
        /\ (answers_with (net (create_call self ip)) d ->
            reports_success d = false ->
            update_dns py_repr net self s =
            (Returns false,
             emit s (map ip_call tried ++ [list_call self; create_call self ip])
               [log_start self; log_ip ip; log_missing self;
                log_create_failed self m; log_failed])))
  /\ (forall d0 record record_id existing_ip others,
        answers_with (net (list_call self)) d0 ->
        reports_success d0 = true ->
        listed d0 = JArr (record :: others) ->
        getitem record "id" = Returns record_id ->
        getitem record "content" = Returns existing_ip ->
        eq_str existing_ip ip = false ->
        let target := update_call self (py_str py_repr record_id) ip in
        let before := ([log_start self; log_ip ip]
                       ++ warning_if_many self (record :: others)
                       ++ [log_changed self (py_str py_repr existing_ip) ip])%list in
        (refuses_with (net target) error_text d ->
         update_dns py_repr net self s =
         (Returns false,
          emit s (map ip_call tried ++ [list_call self; target])
            (before ++ [log_request_failed reported;
                        log_update_failed self reported; log_failed])))
        /\ (answers_with (net target) d ->
            reports_success d = false ->
            update_dns py_repr net self s =
            (Returns false,
             emit s (map ip_call tried ++ [list_call self; target])
               (before ++ [log_update_failed self m; log_failed])))).
Proof.
  intros Hip Herr Hms reported; subst reported.
  pose proof (first_message_carried d errs m ms Herr Hms) as Hm.
  split; [split | split].
  - intros Href.
    apply (list_request_failure py_repr net self s ip tried Hip).
    exact (refuses_with_failure _ _ _ _ _ Href Herr Hms).
  - intros Hans Hs.
    exact (list_body_failure py_repr net self s ip tried Hip d (JStr m) Hans Hs Hm).
  - intros d0 Hlist Hsucc Hempty; split.
    + intros Href.
      apply (create_request_failure py_repr net self s ip tried Hip d0
               Hlist Hsucc Hempty).
      exact (refuses_with_failure _ _ _ _ _ Href Herr Hms).
    + intros Hans Hs.
      exact (create_body_failure py_repr net self s ip tried Hip d0
               Hlist Hsucc Hempty d (JStr m) Hans Hs Hm).
  - intros d0 record record_id existing_ip others Hlist Hsucc Hrec Hid Hcontent
      Hdiff target before; subst target before; split.
    + intros Href.
      rewrite (update_request_failure py_repr net self s ip tried Hip d0 record
                 record_id existing_ip others Hlist Hsucc Hrec Hid Hcontent Hdiff
                 _ (refuses_with_failure _ _ _ _ _ Href Herr Hms)).
      now rewrite <- !app_assoc.
    + intros Hans Hs.
      rewrite (update_body_failure py_repr net self s ip tried Hip d0 record
                 record_id existing_ip others Hlist Hsucc Hrec Hid Hcontent Hdiff
                 d (JStr m) Hans Hs Hm).
      now rewrite <- !app_assoc.
Qed.

Lemma provider_errors_reported_witness :
  let net := Scenario.coded_refused_net in
  let http := "403 Client Error: Forbidden for url: https://api.cloudflare.com/" in
  let errs :=
    JArr [JObj [("code", JInt 9109); ("message", JStr "Invalid access token")];
          JObj [("code", JInt 10000); ("message", JStr "Authentication error")]] in
  let reported := http ++ " | Invalid access token, Authentication error" in
  resolves net Scenario.ddns "203.0.113.9" ["https://api.ipify.org"]
  /\ lookup "errors" Scenario.coded_errors = Some errs
  /\ carries_messages errs ["Invalid access token"; "Authentication error"]
  /\ refuses_with (net (list_call Scenario.ddns)) http Scenario.coded_errors
  /\ update_dns Scenario.repr net Scenario.ddns Scenario.s0 =
     (Returns false,
      emit Scenario.s0 [ip_call "https://api.ipify.org"; list_call Scenario.ddns]
        [log_start Scenario.ddns; log_ip "203.0.113.9";
         log_request_failed reported; log_api_error reported; log_failed]).
Proof.
  intros net http errs reported.
  assert (Hip : resolves net Scenario.ddns "203.0.113.9" ["https://api.ipify.org"]).
  { apply resolves_echo; [reflexivity | discriminate]. }
  assert (Hms : carries_messages errs ["Invalid access token"; "Authentication error"]).
  { exists [[("code", JInt 9109); ("message", JStr "Invalid access token")];
            [("code", JInt 10000); ("message", JStr "Authentication error")]].
    split; [reflexivity | repeat constructor]. }
  assert (Href : refuses_with (net (list_call Scenario.ddns)) http Scenario.coded_errors).
  { eexists; repeat split; reflexivity. }
  split; [exact Hip | split; [reflexivity | split; [exact Hms | split; [exact Href |]]]].
  exact (proj1 (proj1 (provider_errors_reported Scenario.repr net Scenario.ddns
                         Scenario.s0 "203.0.113.9" ["https://api.ipify.org"] http
                         Scenario.coded_errors errs
                         "Invalid access token" ["Authentication error"]
                         Hip eq_refl Hms)) Href).
Defined.

(** ** Exit status *)

(** C9, counterexample.  Started with [--reconfigure], the process exits
    with status 0 without any call or log record, on a network where the
    update procedure would have returned [False].  Started with a call for
    help it exits with status 0, and with arguments the parser rejects with
    status 2, without any call or log record either. *)
Lemma reconfigure_exits_zero :
  let e := Prompt.session [] (Some (Returns Prompt.full_config)) in
  main Scenario.repr Scenario.exhausted_net (Parsed true) e
    (Constructed Scenario.ddns) Scenario.s0 = (Returns 0, Scenario.s0)
  /\ fst (update_dns Scenario.repr Scenario.exhausted_net Scenario.ddns Scenario.s0)
     = Returns false
  /\ main Scenario.repr Scenario.exhausted_net
       (Help "usage: cloudflare_ddns.py [-h] [--reconfigure]") e
       (Constructed Scenario.ddns) Scenario.s0 = (Returns 0, Scenario.s0)
  /\ main Scenario.repr Scenario.exhausted_net Rejected e
       (Constructed Scenario.ddns) Scenario.s0 = (Returns 2, Scenario.s0).
Proof. repeat split; vm_compute; reflexivity. Qed.

(** C9, as amended.  The [__main__] block reached, and started with
    arguments the parser accepts and without [--reconfigure], the process
    exits with status 0 or 1: 0 exactly when
    the object is built and [update_dns] returns [True] (created, updated
    or unchanged); 1 when [update_dns] returns [False], when it or the
    construction raises an exception, keyboard interrupt included, and when
    the setup wizard exits.  Started with [--reconfigure] the update
    procedure is not run: the status is 0 exactly when the configuration
    file is removed, if there is one, and the lines that report it are
    printed; it is 1 when removing the file or printing raises an error.
    Started with a call for help the status is 0 once the help is printed,
    1 when printing it raises; started with arguments the parser rejects,
    the status is 2.  In these three cases no call is sent and no log
    record written. *)
Theorem exit_status (py_repr : json -> string) (net : http_call -> reply)
    (e : env) (ddns : construction) (s : state) :
  ((exists code,
      fst (main py_repr net (Parsed false) e ddns s) = Returns code
      /\ (code = 0 \/ code = 1)
      /\ (code = 0 <->
          exists self, ddns = Constructed self
                       /\ fst (update_dns py_repr net self s) = Returns true))
   /\ (forall self,
         ddns = Constructed self ->
         fst (update_dns py_repr net self s) = Returns false
         \/ (exists x, fst (update_dns py_repr net self s) = Raises x) ->
         fst (main py_repr net (Parsed false) e ddns s) = Returns 1)
   /\ (ddns = WizardExits \/ (exists x, ddns = ConstructionRaises x) ->
       fst (main py_repr net (Parsed false) e ddns s) = Returns 1))
  /\ (snd (main py_repr net (Parsed true) e ddns s) = s
      /\ (fst (main py_repr net (Parsed true) e ddns s) = Returns 0 <->
          match cfg_file e with
          | Some _ => unlink_error e = None
                      /\ stdout e "✅ 配置已重置" = None
                      /\ stdout e "请重新运行脚本进行配置" = None
          | None => stdout e "配置文件不存在，无需重置" = None
          end)
      /\ (fst (main py_repr net (Parsed true) e ddns s) = Returns 0
          \/ fst (main py_repr net (Parsed true) e ddns s) = Returns 1
          \/ exists x, cfg_file e <> None /\ unlink_error e = Some x
                       /\ is_Exception x = false
                       /\ fst (main py_repr net (Parsed true) e ddns s) = Raises x))
  /\ (forall text,
        main py_repr net (Help text) e ddns s
        = (Returns (match stdout e text with None => 0 | Some _ => 1 end), s))
  /\ main py_repr net Rejected e ddns s = (Returns 2, s).
Proof.
  assert (Hh : forall x s', fst (handlers x s') = Returns 1)
    by (intros [] s'; reflexivity).
  split; [split; [| split] | split; [| split]].
  - destruct ddns as [self | | x]; cbn [main parse_args wbind wret].
    + destruct (update_dns py_repr net self s) as [[[] | x] s'] eqn:E; cbn [fst].
      * exists 0; repeat split; auto.
        intros _. exists self. now rewrite E.
      * exists 1; repeat split; auto; try discriminate.
        intros (self' & [= <-] & H). rewrite E in H. discriminate.
      * exists 1. rewrite Hh. repeat split; auto; try discriminate.
        intros (self' & [= <-] & H). rewrite E in H. discriminate.
    + exists 1; repeat split; auto; try discriminate.
      intros (self' & H & _); discriminate.
    + exists 1. rewrite Hh. repeat split; auto; try discriminate.
      intros (self' & H & _); discriminate.
  - intros self -> H. cbn [main parse_args wbind wret].
    destruct (update_dns py_repr net self s) as [[[] | x] s']; cbn [fst] in *.
    + destruct H as [H | [x H]]; discriminate.
    + reflexivity.
    + apply Hh.
  - intros [-> | [x ->]]; cbn [main parse_args wbind wret]; [reflexivity | apply Hh].
  - destruct e as [ans file werr uerr out path txt].
    cbn [cfg_file unlink_error stdout].
    assert (Hrun : forall o e',
      reconfigure {| answers := ans; cfg_file := file; write_error := werr;
                     unlink_error := uerr; stdout := out; cfg_path := path;
                     exn_text := txt |} = (o, e') ->
      main py_repr net (Parsed true)
        {| answers := ans; cfg_file := file; write_error := werr;
           unlink_error := uerr; stdout := out; cfg_path := path;
           exn_text := txt |} ddns s
      = match o with
        | Exits code => (Returns code, s)
        | Throws x => uncaught x s
        | Done _ => main py_repr net (Parsed false)
                      {| answers := ans; cfg_file := file; write_error := werr;
                         unlink_error := uerr; stdout := out; cfg_path := path;
                         exn_text := txt |} ddns s
        end).
    { intros o e' H. unfold main at 1. cbn [parse_args]. unfold wbind at 1.
      unfold wret at 1. cbn iota. rewrite H. now destruct o. }
    destruct file as [content |].
    + destruct uerr as [x |].
      * rewrite (Hrun _ _ eq_refl). unfold uncaught.
        destruct (is_Exception x) eqn:Ex; cbn [fst snd ret raise].
        -- split; [reflexivity | split; [| right; now left]].
           split; [discriminate | intros (H & _); discriminate].
        -- split; [reflexivity | split].
           ++ split; [discriminate | intros (H & _); discriminate].
           ++ right; right. exists x. repeat split; trivial. discriminate.
      * destruct (out "✅ 配置已重置") as [msg |] eqn:P1.
        -- rewrite (Hrun (Throws (OtherException msg))
                      {| answers := ans; cfg_file := None; write_error := werr;
                         unlink_error := None; stdout := out; cfg_path := path;
                         exn_text := txt |})
             by (unfold reconfigure, wbind, file_exists, unlink, print, with_file; cbn; now rewrite P1).
           split; [reflexivity | split; [| right; now left]].
           split; [discriminate | intros (_ & H & _); discriminate].
        -- destruct (out "请重新运行脚本进行配置") as [msg |] eqn:P2.
           ++ rewrite (Hrun (Throws (OtherException msg))
                         {| answers := ans; cfg_file := None; write_error := werr;
                            unlink_error := None; stdout := out; cfg_path := path;
                            exn_text := txt |})
                by (unfold reconfigure, wbind, file_exists, unlink, print, with_file; cbn;
                    rewrite P1; cbn; now rewrite P2).
              split; [reflexivity | split; [| right; now left]].
              split; [discriminate | intros (_ & _ & H); discriminate].
           ++ rewrite (Hrun (Exits 0)
                         {| answers := ans; cfg_file := None; write_error := werr;
                            unlink_error := None; stdout := out; cfg_path := path;
                            exn_text := txt |})
                by (unfold reconfigure, wbind, file_exists, unlink, wexit, print, with_file; cbn;
                    rewrite P1; cbn; now rewrite P2).
              split; [reflexivity | split; [| now left]].
              split; [now repeat split | reflexivity].
    + destruct (out "配置文件不存在，无需重置") as [msg |] eqn:P1.
      * rewrite (Hrun (Throws (OtherException msg))
                   {| answers := ans; cfg_file := None; write_error := werr;
                      unlink_error := uerr; stdout := out; cfg_path := path;
                      exn_text := txt |})
          by (unfold reconfigure, wbind, file_exists, print; cbn; now rewrite P1).
        split; [reflexivity | split; [| right; now left]].
        split; discriminate.
      * rewrite (Hrun (Exits 0)
                   {| answers := ans; cfg_file := None; write_error := werr;
                      unlink_error := uerr; stdout := out; cfg_path := path;
                      exn_text := txt |})
          by (unfold reconfigure, wbind, file_exists, wexit, print; cbn; now rewrite P1).
        split; [reflexivity | split; [| now left]].
        split; reflexivity.
  - intros text. unfold main, parse_args, wbind, print, wexit, uncaught.
    now destruct (stdout e text).
  - reflexivity.
Qed.

Example exit_status_updated :
  fst (main Scenario.repr Scenario.update_net (Parsed false)
         (Prompt.session [] (Some (Returns Prompt.full_config)))
         (Constructed Scenario.ddns) Scenario.s0) = Returns 0.
Proof. vm_compute; reflexivity. Qed.

Example exit_status_interrupted :
  fst (main Scenario.repr (fun _ => Fails KeyboardInterrupt) (Parsed false)
         (Prompt.session [] (Some (Returns Prompt.full_config)))
         (Constructed Scenario.ddns) Scenario.s0) = Returns 1.
Proof. vm_compute; reflexivity. Qed.

(** On a console that cannot encode the check mark, [--reconfigure]
    removes the file and the status is 1. *)
Example exit_status_unprintable :
  let e := Prompt.gbk_session [] (Some (Returns Prompt.full_config)) in
  main Scenario.repr Scenario.update_net (Parsed true) e
    (Constructed Scenario.ddns) Scenario.s0 = (Returns 1, Scenario.s0)
  /\ reconfigure e
     = (Throws (OtherException "'gbk' codec can't encode character '\u2705'"),
        Prompt.gbk_session [] None).
Proof. split; vm_compute; reflexivity. Qed.

(** * Further properties of the script *)

(** ** Failures of the list call *)

(** X1.  When the list call fails, the run returns [False] right after it:
    whether the request itself fails (transport error, error status, body
    that is not JSON) or the answer says [success] false with a readable
    first error, no create or update call follows. *)
Theorem list_failure_stops_run (py_repr : json -> string)
    (net : http_call -> reply) (self : CloudflareDDNS) (s : state)
    (ip : string) (tried : list string) :
  resolves net self ip tried ->
  (forall msg,
      request_failure (net (list_call self)) = Some msg ->
      update_dns py_repr net self s =
      (Returns false,
       emit s (map ip_call tried ++ [list_call self])
         [log_start self; log_ip ip; log_request_failed msg; log_api_error msg;
          log_failed]))
  /\ (forall d m,
        answers_with (net (list_call self)) d ->
        reports_success d = false ->
        first_message d = Some m ->
        update_dns py_repr net self s =
        (Returns false,
         emit s (map ip_call tried ++ [list_call self])
           [log_start self; log_ip ip; log_api_error (py_str py_repr m);
            log_failed]))
  /\ writes (map ip_call tried ++ [list_call self]) = [].
Proof.
  intros Hip; split; [| split].
  - intros msg Hfail.
    exact (list_request_failure py_repr net self s ip tried Hip msg Hfail).
  - intros d m Hans Hs Hm.
    exact (list_body_failure py_repr net self s ip tried Hip d m Hans Hs Hm).
  - now rewrite writes_app, writes_ip_calls.
Qed.

Lemma list_failure_stops_run_witness :
  let net := Scenario.network (Scenario.echo "203.0.113.9") Scenario.timed_out
               (Scenario.written "r1" "203.0.113.9") in
  resolves net Scenario.ddns "203.0.113.9" ["https://api.ipify.org"]
  /\ update_dns Scenario.repr net Scenario.ddns Scenario.s0 =
     (Returns false,
      emit Scenario.s0 [ip_call "https://api.ipify.org"; list_call Scenario.ddns]
        [log_start Scenario.ddns; log_ip "203.0.113.9";
         log_request_failed "Read timed out."; log_api_error "Read timed out.";
         log_failed]).
Proof.
  intros net.
  assert (Hip : resolves net Scenario.ddns "203.0.113.9" ["https://api.ipify.org"]).
  { apply resolves_echo; [reflexivity | discriminate]. }
  split; [exact Hip |].
  exact (proj1 (list_failure_stops_run Scenario.repr net Scenario.ddns Scenario.s0
                  "203.0.113.9" ["https://api.ipify.org"] Hip)
           "Read timed out." eq_refl).
Defined.

(** ** A record type without endpoint list *)

(** X2.  For a configured record type other than ["A"] and ["AAAA"]
    (lower case included) the run raises [KeyError] on the table of
    endpoints: only the start banner is logged, no call at all is sent, and
    the process exits with status 1. *)
Theorem unknown_record_type_raises (py_repr : json -> string)
    (net : http_call -> reply) (self : CloudflareDDNS) (s : state) :
  RECORD_TYPE (config self) <> "A" ->
  RECORD_TYPE (config self) <> "AAAA" ->
  update_dns py_repr net self s =
  (Raises (KeyError (RECORD_TYPE (config self))), emit s [] [log_start self])
  /\ (forall e0 : env,
        main py_repr net (Parsed false) e0 (Constructed self) s =
     (Returns 1, emit s [] [log_start self])).
Proof.
  intros HA HAAAA.
  assert (Hs : services (RECORD_TYPE (config self)) = None).
  { unfold services.
    destruct (String.eqb_spec (RECORD_TYPE (config self)) "A"); [contradiction |].
    destruct (String.eqb_spec (RECORD_TYPE (config self)) "AAAA");
      [contradiction | reflexivity]. }
  assert (Hrun : update_dns py_repr net self s =
    (Raises (KeyError (RECORD_TYPE (config self))), emit s [] [log_start self])).
  { unfold update_dns. rewrite bind_log.
    unfold bind, get_public_ip. rewrite Hs. reflexivity. }
  split; [exact Hrun |].
  intros e0. cbn [main parse_args wbind wret]. now rewrite Hrun.
Qed.

Lemma unknown_record_type_raises_witness :
  let self := setup_logging
                {| API_TOKEN := "token"; ZONE_ID := "zone1";
                   RECORD_NAME := "ddns.example.com"; RECORD_TYPE := "a";
                   TTL := 60; LOG_FILE := "cloudflare_ddns.log" |} false in
  RECORD_TYPE (config self) <> "A"
  /\ RECORD_TYPE (config self) <> "AAAA"
  /\ (forall e0 : env,
        main Scenario.repr Scenario.update_net (Parsed false) e0 (Constructed self)
          Scenario.s0 =
        (Returns 1, emit Scenario.s0 [] [log_start self])).
Proof.
  intros self.
  assert (HA : RECORD_TYPE (config self) <> "A") by discriminate.
  assert (HAAAA : RECORD_TYPE (config self) <> "AAAA") by discriminate.
  split; [exact HA | split; [exact HAAAA |]].
  exact (proj2 (unknown_record_type_raises Scenario.repr Scenario.update_net self
                  Scenario.s0 HA HAAAA)).
Defined.

(** ** Answers the script does not expect *)

(** X3.  A create call answered with [success] true but without a
    [result], or with a [result] without [id], makes the run raise
    [KeyError] after the record was created: neither the success nor the
    failure banner is logged, and the process exits with status 1. *)
Theorem create_without_id_raises (py_repr : json -> string)
    (net : http_call -> reply) (self : CloudflareDDNS) (s : state)
    (ip : string) (tried : list string) (d d' : list (string * json)) (e : exn) :
  resolves net self ip tried ->
  answers_with (net (list_call self)) d ->
  reports_success d = true ->
  truthy (listed d) = false ->
  answers_with (net (create_call self ip)) d' ->
  reports_success d' = true ->
  getitem (JObj d') "result" = Raises e
  \/ (exists created, getitem (JObj d') "result" = Returns created
                      /\ getitem created "id" = Raises e) ->
  let after := emit s (map ip_call tried ++ [list_call self; create_call self ip])
                 [log_start self; log_ip ip; log_missing self] in
  update_dns py_repr net self s = (Raises e, after)
  /\ (forall e0 : env,
        main py_repr net (Parsed false) e0 (Constructed self) s = (Returns 1, after)).
Proof.
  intros Hip Hlist Hsucc Hempty Hans Hs' Hbad after; subst after.
  assert (Hrun : update_dns py_repr net self s =
    (Raises e, emit s (map ip_call tried ++ [list_call self; create_call self ip])
                 [log_start self; log_ip ip; log_missing self])).
  { run_to_create self Hip Hlist Hsucc Hempty.
    rewrite (settled_ok _ _ Hans); cbn [fst snd].
    cbn [get]. rewrite bind_lift.
    unfold reports_success, field in Hs'. rewrite Hs'.
    destruct Hbad as [Hres | (created & Hres & Hid)]; rewrite Hres.
    - unfold bind, lift. finish_run.
    - rewrite bind_lift, Hid. unfold bind, lift. finish_run. }
  split; [exact Hrun |].
  intros e0. cbn [main parse_args wbind wret]. rewrite Hrun.
  destruct e; try reflexivity.
Qed.

Lemma create_without_id_raises_witness :
  let net := Scenario.network (Scenario.echo "203.0.113.5") (Scenario.listing [])
               (Scenario.body (JObj [("success", JBool true)])) in
  let after := emit Scenario.s0
                 [ip_call "https://api.ipify.org"; list_call Scenario.ddns;
                  create_call Scenario.ddns "203.0.113.5"]
                 [log_start Scenario.ddns; log_ip "203.0.113.5";
                  log_missing Scenario.ddns] in
  resolves net Scenario.ddns "203.0.113.5" ["https://api.ipify.org"]
  /\ getitem (JObj [("success", JBool true)]) "result" = Raises (KeyError "result")
  /\ update_dns Scenario.repr net Scenario.ddns Scenario.s0
     = (Raises (KeyError "result"), after)
  /\ (forall e0 : env,
        main Scenario.repr net (Parsed false) e0 (Constructed Scenario.ddns) Scenario.s0
     = (Returns 1, after)).
Proof.
  intros net after.
  assert (Hip : resolves net Scenario.ddns "203.0.113.5" ["https://api.ipify.org"]).
  { apply resolves_echo; [reflexivity | discriminate]. }
  assert (Hlist : answers_with (net (list_call Scenario.ddns))
            [("success", JBool true); ("errors", JArr []); ("result", JArr [])]).
  { eexists; repeat split; reflexivity. }
  assert (Hans : answers_with (net (create_call Scenario.ddns "203.0.113.5"))
            [("success", JBool true)]).
  { eexists; repeat split; reflexivity. }
  split; [exact Hip | split; [reflexivity |]].
  exact (create_without_id_raises Scenario.repr net Scenario.ddns Scenario.s0
           "203.0.113.5" ["https://api.ipify.org"] _ _ (KeyError "result")
           Hip Hlist eq_refl eq_refl Hans eq_refl (or_introl eq_refl)).
Defined.

(** X4.  A list answer with [success] false and an empty [errors] array
    makes the run raise [IndexError] instead of returning [False]: no
    failure record is logged; the process still exits with status 1. *)
Theorem empty_errors_raises (py_repr : json -> string)
    (net : http_call -> reply) (self : CloudflareDDNS) (s : state)
    (ip : string) (tried : list string) (d : list (string * json)) :
  resolves net self ip tried ->
  answers_with (net (list_call self)) d ->
  reports_success d = false ->
  lookup "errors" d = Some (JArr []) ->
  let after := emit s (map ip_call tried ++ [list_call self])
                 [log_start self; log_ip ip] in
  update_dns py_repr net self s = (Raises IndexError, after)
  /\ (forall e0 : env,
        main py_repr net (Parsed false) e0 (Constructed self) s = (Returns 1, after)).
Proof.
  intros Hip Hlist Hs Herr after; subst after.
  assert (Hrun : update_dns py_repr net self s =
    (Raises IndexError,
     emit s (map ip_call tried ++ [list_call self]) [log_start self; log_ip ip])).
  { run_to_list self Hip Hlist.
    unfold reports_success, field in Hs. rewrite Hs. cbn [negb].
    unfold first_error, bind, lift; cbn [get]. rewrite Herr. cbn [getitem0].
    finish_run. }
  split; [exact Hrun |].
  intros e0. cbn [main parse_args wbind wret]. now rewrite Hrun.
Qed.

Lemma empty_errors_raises_witness :
  let d := [("success", JBool false); ("errors", JArr [])] in
  let net := Scenario.network (Scenario.echo "203.0.113.9") (Scenario.body (JObj d))
               Scenario.timed_out in
  resolves net Scenario.ddns "203.0.113.9" ["https://api.ipify.org"]
  /\ lookup "errors" d = Some (JArr [])
  /\ update_dns Scenario.repr net Scenario.ddns Scenario.s0 =
     (Raises IndexError,
      emit Scenario.s0 [ip_call "https://api.ipify.org"; list_call Scenario.ddns]
        [log_start Scenario.ddns; log_ip "203.0.113.9"]).
Proof.
  intros d net.
  assert (Hip : resolves net Scenario.ddns "203.0.113.9" ["https://api.ipify.org"]).
  { apply resolves_echo; [reflexivity | discriminate]. }
  assert (Hlist : answers_with (net (list_call Scenario.ddns)) d).
  { eexists; repeat split; reflexivity. }
  split; [exact Hip | split; [reflexivity |]].
  exact (proj1 (empty_errors_raises Scenario.repr net Scenario.ddns Scenario.s0
                  "203.0.113.9" ["https://api.ipify.org"] d
                  Hip Hlist eq_refl eq_refl)).
Defined.

(** X5.  A list answer with [success] false reports ["未知错误"] when it has
    no [errors] field at all, and when the first entry of [errors] is an
    object without [message]. *)
Theorem unknown_error_reported (py_repr : json -> string)
    (net : http_call -> reply) (self : CloudflareDDNS) (s : state)
    (ip : string) (tried : list string) (d : list (string * json)) :
  resolves net self ip tried ->
  answers_with (net (list_call self)) d ->
  reports_success d = false ->
  lookup "errors" d = None
  \/ (exists entry rest,
        lookup "errors" d = Some (JArr (JObj entry :: rest))
        /\ lookup "message" entry = None) ->
  update_dns py_repr net self s =
  (Returns false,
   emit s (map ip_call tried ++ [list_call self])
     [log_start self; log_ip ip; log_api_error "未知错误"; log_failed]).
Proof.
  intros Hip Hlist Hs Herr.
  apply (list_body_failure py_repr net self s ip tried Hip d (JStr "未知错误")
           Hlist Hs).
  unfold first_message, field.
  destruct Herr as [-> | (entry & rest & -> & ->)]; reflexivity.
Qed.

Lemma unknown_error_reported_witness :
  let d := [("success", JBool false)] in
  let net := Scenario.network (Scenario.echo "203.0.113.9") (Scenario.body (JObj d))
               Scenario.timed_out in
  resolves net Scenario.ddns "203.0.113.9" ["https://api.ipify.org"]
  /\ lookup "errors" d = None
  /\ update_dns Scenario.repr net Scenario.ddns Scenario.s0 =
     (Returns false,
      emit Scenario.s0 [ip_call "https://api.ipify.org"; list_call Scenario.ddns]
        [log_start Scenario.ddns; log_ip "203.0.113.9"; log_api_error "未知错误";
         log_failed]).
Proof.
  intros d net.
  assert (Hip : resolves net Scenario.ddns "203.0.113.9" ["https://api.ipify.org"]).
  { apply resolves_echo; [reflexivity | discriminate]. }
  assert (Hlist : answers_with (net (list_call Scenario.ddns)) d).
  { eexists; repeat split; reflexivity. }
  split; [exact Hip | split; [reflexivity |]].
  exact (unknown_error_reported Scenario.repr net Scenario.ddns Scenario.s0
           "203.0.113.9" ["https://api.ipify.org"] d
           Hip Hlist eq_refl (or_introl eq_refl)).
Defined.

(** ** Exceptions that are not swallowed *)

Lemma try_services_interrupted (net : http_call -> reply)
    (before after : list string) (service : string) (s : state) :
  Forall (endpoint_fails net) before ->
  interrupted net service ->
  try_services net (before ++ service :: after)%list s =
  (Raises KeyboardInterrupt, emit s (map ip_call (before ++ [service])) []).
Proof.
  intros Hb Hi. revert s.
  induction Hb as [| x rest Hf _ IH]; intros s.
  - cbn [app try_services map].
    unfold bind at 1, try_except, bind at 1. rewrite request_run.
    unfold interrupted in Hi. rewrite Hi. reflexivity.
  - cbn [app map].
    rewrite (try_services_cons net x _ s (fails_not_interrupted net x Hf)).
    rewrite (endpoint_fails_answer net x Hf), IH, emit_emit. reflexivity.
Qed.

(** X6.  A keyboard interrupt during a call to an IP endpoint is not
    swallowed by the fallback loop: the endpoints after it are not tried,
    the provider is not called, nothing but the start banner is logged, and
    the process exits with status 1. *)
Theorem interrupt_stops_resolver (py_repr : json -> string)
    (net : http_call -> reply) (self : CloudflareDDNS) (s : state)
    (before after : list string) (service : string) :
  services (RECORD_TYPE (config self)) = Some (before ++ service :: after)%list ->
  Forall (endpoint_fails net) before ->
  interrupted net service ->
  let stopped := emit s (map ip_call (before ++ [service])) [log_start self] in
  update_dns py_repr net self s = (Raises KeyboardInterrupt, stopped)
  /\ (forall e0 : env,
        main py_repr net (Parsed false) e0 (Constructed self) s = (Returns 1, stopped)).
Proof.
  intros Hl Hb Hi stopped; subst stopped.
  assert (Hrun : update_dns py_repr net self s =
    (Raises KeyboardInterrupt,
     emit s (map ip_call (before ++ [service])) [log_start self])).
  { unfold update_dns. rewrite bind_log.
    unfold bind, get_public_ip. rewrite Hl.
    rewrite (try_services_interrupted net before after service _ Hb Hi).
    finish_run. }
  split; [exact Hrun |].
  intros e0. cbn [main parse_args wbind wret]. now rewrite Hrun.
Qed.

Lemma interrupt_stops_resolver_witness :
  let net := Scenario.network
               [("https://api.ipify.org", Scenario.timed_out);
                ("https://ipv4.icanhazip.com", Fails KeyboardInterrupt)]
               (Scenario.listing []) (Scenario.written "r7" "203.0.113.5") in
  let stopped := emit Scenario.s0
                   [ip_call "https://api.ipify.org";
                    ip_call "https://ipv4.icanhazip.com"]
                   [log_start Scenario.ddns] in
  Forall (endpoint_fails net) ["https://api.ipify.org"]
  /\ interrupted net "https://ipv4.icanhazip.com"
  /\ update_dns Scenario.repr net Scenario.ddns Scenario.s0
     = (Raises KeyboardInterrupt, stopped)
  /\ (forall e0 : env,
        main Scenario.repr net (Parsed false) e0 (Constructed Scenario.ddns) Scenario.s0
     = (Returns 1, stopped)).
Proof.
  intros net stopped.
  assert (Hb : Forall (endpoint_fails net) ["https://api.ipify.org"]).
  { apply Forall_cons; [| apply Forall_nil].
    left; eexists; split; reflexivity. }
  assert (Hi : interrupted net "https://ipv4.icanhazip.com") by reflexivity.
  split; [exact Hb | split; [exact Hi |]].
  exact (interrupt_stops_resolver Scenario.repr net Scenario.ddns Scenario.s0
           ["https://api.ipify.org"] ["https://checkip.amazonaws.com"]
           "https://ipv4.icanhazip.com" eq_refl Hb Hi).
Defined.

(** X7.  [cf_api_request] turns into a failure dict only the exceptions of
    [requests]: when the call fails with any other exception (a keyboard
    interrupt, for one), the exception leaves [cf_api_request] as it is,
    after the call was sent and without any log record. *)
Theorem other_exception_leaves_cf_api_request (net : http_call -> reply)
    (self : CloudflareDDNS) (method endpoint : string) (data sent : option json)
    (e : exn) (s : state) :
  sent_data method data = Some sent ->
  net (api_call self method endpoint sent) = Fails e ->
  is_RequestException e = false ->
  cf_api_request net self method endpoint data s =
  (Raises e, emit s [api_call self method endpoint sent] []).
Proof.
  intros Hm Hnet He.
  rewrite (cf_api_request_run net self method endpoint data sent s Hm).
  cbv zeta. unfold settled, request_failure. rewrite Hnet.
  destruct e; try discriminate; reflexivity.
Qed.

Lemma other_exception_leaves_cf_api_request_witness :
  let net := fun _ : http_call => Fails KeyboardInterrupt in
  sent_data "PUT" (Some JNull) = Some (Some JNull)
  /\ is_RequestException KeyboardInterrupt = false
  /\ cf_api_request net Scenario.ddns "PUT" "dns_records/r1" (Some JNull) Scenario.s0 =
     (Raises KeyboardInterrupt,
      emit Scenario.s0 [api_call Scenario.ddns "PUT" "dns_records/r1" (Some JNull)] []).
Proof.
  intros net.
  split; [reflexivity | split; [reflexivity |]].
  exact (other_exception_leaves_cf_api_request net Scenario.ddns "PUT"
           "dns_records/r1" (Some JNull) (Some JNull) KeyboardInterrupt Scenario.s0
           eq_refl eq_refl eq_refl).
Defined.

(** X8.  [cf_api_request] knows the methods GET, POST and PUT, in upper
    case: for any other method it raises [ValueError] naming the method,
    and sends and logs nothing. *)
Theorem unsupported_method_raises (net : http_call -> reply)
    (self : CloudflareDDNS) (method endpoint : string) (data : option json)
    (s : state) :
  method <> "GET" -> method <> "POST" -> method <> "PUT" ->
  cf_api_request net self method endpoint data s =
  (Raises (ValueError ("不支持的HTTP方法: " ++ method)), s).
Proof.
  intros HG HP HU. unfold cf_api_request, try_except, bind.
  destruct (String.eqb_spec method "GET"); [contradiction |].
  destruct (String.eqb_spec method "POST"); [contradiction |].
  destruct (String.eqb_spec method "PUT"); [contradiction |].
  reflexivity.
Qed.

Lemma unsupported_method_raises_witness :
  "DELETE" <> "GET" /\ "DELETE" <> "POST" /\ "DELETE" <> "PUT"
  /\ cf_api_request Scenario.update_net Scenario.ddns "DELETE" "dns_records/r1" None
       Scenario.s0
     = (Raises (ValueError "不支持的HTTP方法: DELETE"), Scenario.s0).
Proof.
  assert (HG : "DELETE" <> "GET") by discriminate.
  assert (HP : "DELETE" <> "POST") by discriminate.
  assert (HU : "DELETE" <> "PUT") by discriminate.
  split; [exact HG | split; [exact HP | split; [exact HU |]]].
  exact (unsupported_method_raises Scenario.update_net Scenario.ddns "DELETE"
           "dns_records/r1" None Scenario.s0 HG HP HU).
Defined.

(** ** Error bodies that cannot be read *)

Lemma messages_strings_bad (items : list json) :
  Exists (fun item => forall m, getitem item "message" <> Returns (JStr m)) items ->
  forall ms, messages items = Returns ms -> exists e, strings ms = Raises e.
Proof.
  induction 1 as [item rest Hbad | item rest _ IH]; intros ms Hms.
  - cbn [messages] in Hms.
    destruct (getitem item "message") as [m | e] eqn:Em; [| discriminate].
    destruct (messages rest) as [ms' | e]; [| discriminate].
    injection Hms as <-.
    destruct m as [| | | | t | |];
      try (exists TypeError; reflexivity).
    now elim (Hbad t).
  - cbn [messages] in Hms.
    destruct (getitem item "message") as [m | e]; [| discriminate].
    destruct (messages rest) as [ms' | e] eqn:Er; [| discriminate].
    injection Hms as <-.
    destruct (IH ms' eq_refl) as [e He].
    destruct m as [| | | | t | |];
      try (exists TypeError; reflexivity).
    exists e. cbn [strings]. now rewrite He.
Qed.

(** The inner [try] gives up on a body without [errors], and on an
    [errors] array with an entry that has no string for [message]. *)
Lemma response_errors_unreadable (d : list (string * json)) :
  lookup "errors" d = None
  \/ (exists items,
        lookup "errors" d = Some (JArr items)
        /\ Exists (fun item => forall m, getitem item "message" <> Returns (JStr m))
             items) ->
  response_errors (Some (JObj d)) = None.
Proof.
  intros [H | (items & H & Hbad)]; unfold response_errors; rewrite H; trivial.
  cbn [iter].
  destruct (messages items) as [ms | e] eqn:Em; trivial.
  destruct (messages_strings_bad items Hbad ms Em) as [e He].
  unfold join. now rewrite He.
Qed.

(** X9.  When the list call is answered with an error status and a body
    in which the messages cannot be read (no [errors] field, or an entry of
    [errors] without a string [message]), the error reported is the text of
    the HTTP error alone, and the run returns [False]. *)
Theorem unreadable_error_body_reports_status (py_repr : json -> string)
    (net : http_call -> reply) (self : CloudflareDDNS) (s : state)
    (ip : string) (tried : list string) (error_text : string)
    (d : list (string * json)) :
  resolves net self ip tried ->
  refuses_with (net (list_call self)) error_text d ->
  lookup "errors" d = None
  \/ (exists items,
        lookup "errors" d = Some (JArr items)
        /\ Exists (fun item => forall m, getitem item "message" <> Returns (JStr m))
             items) ->
  update_dns py_repr net self s =
  (Returns false,
   emit s (map ip_call tried ++ [list_call self])
     [log_start self; log_ip ip; log_request_failed error_text;
      log_api_error error_text; log_failed]).
Proof.
  intros Hip (r & Hr & Hok & Htext & Hj) Hbad.
  apply (list_request_failure py_repr net self s ip tried Hip).
  rewrite Hr. unfold request_failure, failure_text, decoded.
  rewrite Hok, Hj, (response_errors_unreadable d Hbad). now rewrite Htext.
Qed.

Lemma unreadable_error_body_reports_status_witness :
  let d := [("success", JBool false);
            ("errors", JArr [JObj [("message", JStr "Invalid access token")];
                             JObj [("code", JInt 10000)]])] in
  let http := "403 Client Error: Forbidden" in
  let net := Scenario.network (Scenario.echo "203.0.113.9")
               (Scenario.refused http (JObj d)) Scenario.timed_out in
  resolves net Scenario.ddns "203.0.113.9" ["https://api.ipify.org"]
  /\ refuses_with (net (list_call Scenario.ddns)) http d
  /\ update_dns Scenario.repr net Scenario.ddns Scenario.s0 =
     (Returns false,
      emit Scenario.s0 [ip_call "https://api.ipify.org"; list_call Scenario.ddns]
        [log_start Scenario.ddns; log_ip "203.0.113.9"; log_request_failed http;
         log_api_error http; log_failed]).
Proof.
  intros d http net.
  assert (Hip : resolves net Scenario.ddns "203.0.113.9" ["https://api.ipify.org"]).
  { apply resolves_echo; [reflexivity | discriminate]. }
  assert (Href : refuses_with (net (list_call Scenario.ddns)) http d).
  { eexists; repeat split; reflexivity. }
  split; [exact Hip | split; [exact Href |]].
  apply (unreadable_error_body_reports_status Scenario.repr net Scenario.ddns
           Scenario.s0 "203.0.113.9" ["https://api.ipify.org"] http d Hip Href).
  right. eexists; split; [reflexivity |].
  apply Exists_cons_tl, Exists_cons_hd. intros m H; discriminate.
Defined.

(** ** The resolver on any network *)

Lemma try_services_provenance (net : http_call -> reply) (l : list string)
    (s s' : state) (ip : string) :
  try_services net l s = (Returns (Some ip), s') ->
  exists service r,
    In service l /\ net (ip_call service) = Responds r /\ ok r = true
    /\ ip = strip (text r) /\ ip <> "".
Proof.
  revert s; induction l as [| service rest IH]; intros s.
  - cbn [try_services]; rewrite bind_log; discriminate.
  - assert (Hrest : forall s1,
      try_services net rest s1 = (Returns (Some ip), s') ->
      exists service0 r,
        In service0 (service :: rest) /\ net (ip_call service0) = Responds r
        /\ ok r = true /\ ip = strip (text r) /\ ip <> "").
    { intros s1 H1. destruct (IH s1 H1) as (x & r & Hx & Hr).
      exists x, r; split; [now right | exact Hr]. }
    cbn [try_services]; unfold bind at 1, try_except, bind at 1.
    rewrite request_run.
    destruct (net (ip_call service)) as [e | r] eqn:En.
    + destruct e; cbn; try discriminate; apply Hrest.
    + unfold bind, raise_for_status.
      destruct (ok r) eqn:Hok; cbn; [| apply Hrest].
      destruct (str_truthy (strip (text r))) eqn:T; cbn; [| apply Hrest].
      intros H; injection H as <- _.
      exists service, r. repeat split; trivial; [now left |].
      now apply str_truthy_true.
Qed.

(** X10.  Whatever the network does, an address [get_public_ip] returns
    is the trimmed body of a response that one of the endpoints of the
    configured record type gave with a good status, and it is not empty. *)
Theorem get_public_ip_provenance (net : http_call -> reply)
    (self : CloudflareDDNS) (s s' : state) (ip : string) :
  get_public_ip net self s = (Returns (Some ip), s') ->
  exists l service r,
    services (RECORD_TYPE (config self)) = Some l
    /\ In service l
    /\ net (ip_call service) = Responds r
    /\ ok r = true
    /\ ip = strip (text r)
    /\ ip <> "".
Proof.
  unfold get_public_ip.
  destruct (services (RECORD_TYPE (config self))) as [l |]; [| discriminate].
  intros H. destruct (try_services_provenance net l s s' ip H) as (x & r & Hx).
  now exists l, x, r.
Qed.

Lemma get_public_ip_provenance_witness :
  let net := Scenario.second_endpoint_net in
  get_public_ip net Scenario.ddns Scenario.s0 =
  (Returns (Some "203.0.113.9"),
   emit Scenario.s0
     (map ip_call ["https://api.ipify.org"; "https://ipv4.icanhazip.com"])
     [log_ip "203.0.113.9"])
  /\ exists l service r,
       services (RECORD_TYPE (config Scenario.ddns)) = Some l
       /\ In service l
       /\ net (ip_call service) = Responds r
       /\ ok r = true
       /\ "203.0.113.9" = strip (text r)
       /\ "203.0.113.9" <> "".
Proof.
  intros net.
  assert (Hrun : get_public_ip net Scenario.ddns Scenario.s0 =
    (Returns (Some "203.0.113.9"),
     emit Scenario.s0
       (map ip_call ["https://api.ipify.org"; "https://ipv4.icanhazip.com"])
       [log_ip "203.0.113.9"])) by (vm_compute; reflexivity).
  split; [exact Hrun |].
  exact (get_public_ip_provenance net Scenario.ddns Scenario.s0 _ "203.0.113.9" Hrun).
Defined.

Lemma try_services_prefix (net : http_call -> reply) (l : list string) (s : state) :
  exists k,
    (k <= List.length l)%nat
    /\ (l <> [] -> (1 <= k)%nat)
    /\ calls (snd (try_services net l s)) = (calls s ++ map ip_call (firstn k l))%list.
Proof.
  revert s; induction l as [| service rest IH]; intros s.
  - exists 0%nat. cbn [try_services]. rewrite bind_log. cbn.
    split; [lia | split; [congruence | now rewrite !app_nil_r]].
  - assert (Hrest : forall s1, calls s1 = (calls s ++ [ip_call service])%list ->
        exists k,
          (k <= List.length (service :: rest))%nat
          /\ (service :: rest <> [] -> (1 <= k)%nat)
          /\ calls (snd (try_services net rest s1))
             = (calls s ++ map ip_call (firstn k (service :: rest)))%list).
    { intros s1 H1. destruct (IH s1) as (k & Hk & _ & Hc).
      exists (S k). cbn [List.length firstn map]. repeat split; [lia | lia |].
      rewrite Hc, H1, <- app_assoc. reflexivity. }
    assert (Hstop : exists k,
          (k <= List.length (service :: rest))%nat
          /\ (service :: rest <> [] -> (1 <= k)%nat)
          /\ (calls s ++ [ip_call service])%list
             = (calls s ++ map ip_call (firstn k (service :: rest)))%list).
    { exists 1%nat. cbn [List.length firstn map]. repeat split; lia. }
    cbn [try_services]; unfold bind at 1, try_except, bind at 1.
    rewrite request_run.
    destruct (net (ip_call service)) as [e | r].
    + destruct e; cbn; first [now apply Hrest | exact Hstop].
    + unfold bind, raise_for_status.
      destruct (ok r); cbn; [| now apply Hrest].
      destruct (str_truthy (strip (text r))); cbn; [| now apply Hrest].
      rewrite ?app_nil_r. exact Hstop.
Qed.

(** X11.  Whatever the network does, [get_public_ip] calls the endpoints
    of the configured record type in the order of the list, each at most
    once and at least the first: its calls are the first [k] endpoints, for
    some [k] from 1 to the length of the list, each a GET without headers
    or body and with a time-out of 10 seconds. *)
Theorem get_public_ip_tries_prefix (net : http_call -> reply)
    (self : CloudflareDDNS) (l : list string) (s : state) :
  services (RECORD_TYPE (config self)) = Some l ->
  exists k,
    (1 <= k <= List.length l)%nat
    /\ calls (snd (get_public_ip net self s))
       = (calls s ++ map ip_call (firstn k l))%list
    /\ Forall (fun c => verb c = "GET" /\ headers c = [] /\ json_data c = None
                        /\ timeout c = Some 10)
         (map ip_call (firstn k l)).
Proof.
  intros Hl.
  assert (Hne : l <> []).
  { unfold services in Hl.
    destruct (String.eqb (RECORD_TYPE (config self)) "A");
      [injection Hl as <-; discriminate |].
    destruct (String.eqb (RECORD_TYPE (config self)) "AAAA");
      [injection Hl as <-; discriminate | discriminate]. }
  unfold get_public_ip; rewrite Hl.
  destruct (try_services_prefix net l s) as (k & Hk & H1 & Hc).
  exists k; repeat split; auto.
  apply Forall_forall; intros c Hc'.
  apply in_map_iff in Hc' as (x & <- & _). now repeat split.
Qed.

Lemma get_public_ip_tries_prefix_witness :
  let l := ["https://api.ipify.org"; "https://ipv4.icanhazip.com";
            "https://checkip.amazonaws.com"] in
  services (RECORD_TYPE (config Scenario.ddns)) = Some l
  /\ exists k,
       (1 <= k <= List.length l)%nat
       /\ calls (snd (get_public_ip Scenario.second_endpoint_net Scenario.ddns
                        Scenario.s0))
          = (calls Scenario.s0 ++ map ip_call (firstn k l))%list.
Proof.
  intros l.
  assert (Hl : services (RECORD_TYPE (config Scenario.ddns)) = Some l) by reflexivity.
  split; [exact Hl |].
  destruct (get_public_ip_tries_prefix Scenario.second_endpoint_net Scenario.ddns l
              Scenario.s0 Hl) as (k & Hk & Hc & _).
  now exists k.
Defined.

(** ** The banners of a run *)

Lemma ends_bind {A} (m : M A) (k : A -> M bool) :
  framed m -> (forall a, ends_with_banner (k a)) -> ends_with_banner (bind m k).
Proof.
  intros (r & cs & ls & Hm) Hk s b s'. unfold bind. rewrite Hm.
  destruct r as [a | e]; [| discriminate].
  intros H. destruct (Hk a _ b s' H) as (ls' & Hl).
  exists (ls ++ ls')%list. rewrite Hl. cbn [emit logs].
  now rewrite <- !app_assoc.
Qed.

Lemma ends_log_ret (lvl : level) (msg : string) (b : bool) :
  (lvl, msg) = (if b then log_done else log_failed) ->
  ends_with_banner (bind (log lvl msg) (fun _ => ret b)).
Proof.
  intros Hb s b' s'. rewrite bind_log. unfold ret. intros [= <- <-].
  exists []. cbn [emit logs app]. now rewrite Hb.
Qed.

Lemma ends_raise (e : exn) : ends_with_banner (lift (Raises e)).
Proof. intros s b s'; discriminate. Qed.

Ltac framed_all :=
  repeat first [ apply framed_get_public_ip | apply framed_cf_api_request
               | apply framed_first_error | framed_step ].

Ltac ends_step :=
  lazymatch goal with
  | |- ends_with_banner (bind (log _ _) (fun _ => ret _)) =>
      apply ends_log_ret; reflexivity
  | |- ends_with_banner (bind _ _) => apply ends_bind; [framed_all | intros ?]
  | |- ends_with_banner (if ?b then _ else _) => destruct b
  | |- ends_with_banner (match ?x with _ => _ end) => destruct x
  end.

(** X12.  Whatever the network does, a run that returns starts its log
    with the start banner and ends it with the banner that matches the
    value returned: "完成" for [True], "失败" for [False]. *)
Theorem banners_match_result (py_repr : json -> string)
    (net : http_call -> reply) (self : CloudflareDDNS) (s s' : state) (b : bool) :
  update_dns py_repr net self s = (Returns b, s') ->
  exists mid,
    logs s' = (logs s ++ log_start self :: mid
               ++ [if b then log_done else log_failed])%list.
Proof.
  unfold update_dns.
  match goal with
  | |- bind (log ?lvl ?msg) ?k ?s0 = _ -> _ =>
      assert (Hk : ends_with_banner (k tt))
  end.
  { cbv beta. repeat ends_step. }
  rewrite bind_log.
  intros H. destruct (Hk _ b s' H) as (ls & Hl).
  exists ls. rewrite Hl. cbn [emit logs]. now rewrite <- app_assoc.
Qed.

Lemma banners_match_result_witness :
  update_dns Scenario.repr Scenario.update_net Scenario.ddns Scenario.s0 =
  (Returns true,
   emit Scenario.s0
     [ip_call "https://api.ipify.org"; list_call Scenario.ddns;
      update_call Scenario.ddns "r1" "203.0.113.9"]
     [log_start Scenario.ddns; log_ip "203.0.113.9";
      log_changed Scenario.ddns "203.0.113.1" "203.0.113.9";
      log_updated Scenario.ddns "203.0.113.9"; log_done])
  /\ exists mid,
       [log_start Scenario.ddns; log_ip "203.0.113.9";
        log_changed Scenario.ddns "203.0.113.1" "203.0.113.9";
        log_updated Scenario.ddns "203.0.113.9"; log_done]
       = (log_start Scenario.ddns :: mid ++ [log_done])%list.
Proof.
  assert (Hrun : update_dns Scenario.repr Scenario.update_net Scenario.ddns
                   Scenario.s0 =
    (Returns true,
     emit Scenario.s0
       [ip_call "https://api.ipify.org"; list_call Scenario.ddns;
        update_call Scenario.ddns "r1" "203.0.113.9"]
       [log_start Scenario.ddns; log_ip "203.0.113.9";
        log_changed Scenario.ddns "203.0.113.1" "203.0.113.9";
        log_updated Scenario.ddns "203.0.113.9"; log_done]))
    by (vm_compute; reflexivity).
  split; [exact Hrun |].
  destruct (banners_match_result Scenario.repr Scenario.update_net Scenario.ddns
              Scenario.s0 _ true Hrun) as (mid & Hmid).
  exists mid. exact Hmid.
Defined.

(** ** The calls of a run, in order *)

Lemma bind_lift_eq {A B} (a : A) (k : A -> M B) : bind (lift (Returns a)) k = k a.
Proof. reflexivity. Qed.

Lemma bind_lift_raises {A B} (e : exn) (k : A -> M B) :
  bind (lift (Raises e)) k = lift (Raises e).
Proof. reflexivity. Qed.

Section Shape.

Variable py_repr : json -> string.
Variable net : http_call -> reply.
Variable self : CloudflareDDNS.

(** The resolver: one result, and calls to endpoints of the record type. *)
Lemma get_public_ip_shape :
  exists r tried ls,
    (forall s, get_public_ip net self s = (r, emit s (map ip_call tried) ls))
    /\ Forall (endpoint_call self) (map ip_call tried)
    /\ (forall ip, r = Returns (Some ip) -> ip <> "").
Proof.
  destruct (framed_get_public_ip net self) as (r & cs & ls & Hrun).
  destruct (services (RECORD_TYPE (config self))) as [l |] eqn:Hl.
  - destruct (try_services_prefix net l {| calls := []; logs := [] |})
      as (k & _ & _ & Hc).
    pose proof (Hrun {| calls := []; logs := [] |}) as Hrun0.
    unfold get_public_ip in Hrun0. rewrite Hl in Hrun0.
    rewrite Hrun0 in Hc. cbn in Hc. subst cs.
    exists r, (firstn k l), ls. split; [exact Hrun | split].
    + apply Forall_forall; intros c Hc.
      apply in_map_iff in Hc as (x & <- & Hx).
      exists l, x. repeat split; trivial.
      rewrite <- (firstn_skipn k l). apply in_or_app. now left.
    + intros ip ->.
      exact (get_public_ip_nonempty net self _ _ ip
               (Hrun {| calls := []; logs := [] |})).
  - exists (Raises (KeyError (RECORD_TYPE (config self)))), [], [].
    split; [| split].
    + intros s. unfold get_public_ip. rewrite Hl. unfold raise.
      now rewrite emit_nil.
    + constructor.
    + discriminate.
Qed.

(** What follows the list call: nothing, one create, or one update. *)
Lemma after_list_sends (ip : string) (result : json) :
  ip <> "" ->
  let k := fun result =>
    success <- lift (get result "success" JNull) ;;
    if negb (truthy success) then
      error <- first_error result ;;
      log ERROR ("Cloudflare API错误: " ++ py_str py_repr error) ;;
      log ERROR "===== DDNS 更新失败 =====" ;;
      ret false
    else
      records <- lift (get result "result" (JArr [])) ;;
      if negb (truthy records) then
        log WARNING (warning_symbol self ++ " 记录不存在，正在创建: "
                     ++ RECORD_NAME (config self)) ;;
        create_result <- cf_api_request net self "POST" "dns_records"
                           (Some (record_data self ip)) ;;
        success <- lift (get create_result "success" JNull) ;;
        if truthy success then
          created <- lift (getitem create_result "result") ;;
          record_id <- lift (getitem created "id") ;;
          log INFO (success_symbol self ++ " 创建成功! 记录ID: "
                    ++ py_str py_repr record_id) ;;
          log INFO "===== DDNS 更新完成 =====" ;;
          ret true
        else
          error <- first_error create_result ;;
          log ERROR (error_symbol self ++ " 创建失败: " ++ py_str py_repr error) ;;
          log ERROR "===== DDNS 更新失败 =====" ;;
          ret false
      else
        n <- lift (len records) ;;
        (if (1 <? n)%nat then
           log WARNING (warning_symbol self ++ " 找到 "
                        ++ str_of_Z (Z.of_nat n) ++ " 条匹配记录，将使用第一条")
         else ret tt) ;;
        record <- lift (getitem0 records) ;;
        after_first_record py_repr net self ip record in
  sends (k result) []
  \/ sends (k result) [create_call self ip]
  \/ exists record_id, sends (k result) [update_call self record_id ip].
Proof.
  intros Hne k; subst k; cbv beta.
  destruct (get result "success" JNull) as [success | e];
    [rewrite bind_lift_eq | rewrite bind_lift_raises; left; apply sends_lift].
  destruct (truthy success); cbn [negb].
  2:{ left. repeat first [apply sends_first_error | quiet_step]. }
  destruct (get result "result" (JArr [])) as [records | e];
    [rewrite bind_lift_eq | rewrite bind_lift_raises; left; apply sends_lift].
  destruct (truthy records); cbn [negb].
  - destruct (len records) as [n | e];
      [rewrite bind_lift_eq | rewrite bind_lift_raises; left; apply sends_lift].
    assert (Hwarn : forall cs (m : M bool),
      sends m cs ->
      sends (bind (if (1 <? n)%nat then
                     log WARNING (warning_symbol self ++ " 找到 "
                                  ++ str_of_Z (Z.of_nat n)
                                  ++ " 条匹配记录，将使用第一条")
                   else ret tt) (fun _ => m)) cs).
    { intros cs m Hm. destruct (1 <? n)%nat.
      - now apply sends_log_then.
      - exact Hm. }
    destruct (getitem0 records) as [record | e].
    + rewrite bind_lift_eq.
      destruct (after_first_record_calls py_repr self ip record net)
        as (r & cs & ls & Hrun & Hcs).
      assert (Hs : sends (after_first_record py_repr net self ip record) cs).
      { intros s. exists r, ls. apply Hrun. }
      destruct Hcs as [-> | (record_id & _ & ->)].
      * left. now apply Hwarn.
      * right; right. exists (py_str py_repr record_id). now apply Hwarn.
    + rewrite bind_lift_raises. left. apply Hwarn, sends_lift.
  - right; left.
    apply sends_log_then, sends_bind_quiet.
    + apply (sends_cf_api_request net self "POST" _ _ _ eq_refl).
    + intros v. repeat first [apply sends_first_error | quiet_step].
Qed.

End Shape.

Ltac use_sends Hs cs :=
  match goal with
  | |- exists rest, calls (snd (?k ?st)) = _ /\ _ =>
      let r' := fresh "r" in
      let ls' := fresh "ls" in
      let H := fresh "H" in
      let E := fresh "E" in
      destruct (Hs st) as (r' & ls' & H);
      assert (E : k st = (r', emit st cs ls')) by exact H;
      rewrite E
  end.

(** The calls of a run: endpoints first, then what [provider_calls] allows. *)
Lemma update_dns_shape (py_repr : json -> string) (net : http_call -> reply)
    (self : CloudflareDDNS) (s : state) :
  exists tried rest,
    calls (snd (update_dns py_repr net self s))
    = (calls s ++ map ip_call tried ++ rest)%list
    /\ Forall (endpoint_call self) (map ip_call tried)
    /\ (rest = [] \/ rest = [list_call self]
        \/ exists ip,
             (forall s0, fst (get_public_ip net self s0) = Returns (Some ip))
             /\ (rest = [list_call self; create_call self ip]
                 \/ exists record_id,
                      rest = [list_call self; update_call self record_id ip])).
Proof.
  destruct (get_public_ip_shape net self) as (r & tried & ls & Hrun & Hend & Hne).
  exists tried.
  unfold update_dns. rewrite bind_log. unfold bind at 1. rewrite Hrun.
  destruct r as [[ip |] | e].
  - pose proof (Hne ip eq_refl) as Hip.
    assert (Hres : forall s0, fst (get_public_ip net self s0) = Returns (Some ip))
      by (intros s0; now rewrite Hrun).
    destruct ip as [| a ip]; [now elim Hip |].
    rewrite (bind_cf_api_request net self "GET" _ None None _ _ eq_refl).
    fold (list_call self).
    destruct (settled (net (list_call self))) as [[v | e] ls1]; cbn [fst snd].
    + destruct (after_list_sends py_repr net self (String a ip) v Hip)
        as [Hs | [Hs | (record_id & Hs)]].
      * use_sends Hs (@nil http_call).
        exists [list_call self]. split; [| split; [exact Hend | right; now left]].
        cbn. now rewrite !app_nil_r, <- app_assoc.
      * use_sends Hs [create_call self (String a ip)].
        exists [list_call self; create_call self (String a ip)].
        split; [| split; [exact Hend |]].
        -- cbn. now rewrite !app_nil_r, <- !app_assoc.
        -- right; right. exists (String a ip). split; [exact Hres | now left].
      * use_sends Hs [update_call self record_id (String a ip)].
        exists [list_call self; update_call self record_id (String a ip)].
        split; [| split; [exact Hend |]].
        -- cbn. now rewrite !app_nil_r, <- !app_assoc.
        -- right; right. exists (String a ip). split; [exact Hres |].
           right. now exists record_id.
    + exists [list_call self]. split; [| split; [exact Hend | right; now left]].
      cbn. now rewrite !app_nil_r, <- app_assoc.
  - rewrite bind_log. exists []. split; [| split; [exact Hend | now left]].
    cbn. now rewrite !app_nil_r.
  - exists []. split; [| split; [exact Hend | now left]].
    cbn. now rewrite !app_nil_r.
Qed.

(** C8, as amended.  Whatever the network answers, a run adds at most one
    create or update call, and every call it sends is a GET, a POST or a
    PUT (never a DELETE); the body of a write is always the record made of
    the configured type, name and ttl, the address the resolver returned,
    and [proxied=false]: type and name are those the record was looked up
    by, content is the resolved address, and proxied is set to false
    whatever the record had. *)
Theorem one_write_no_delete (py_repr : json -> string) (net : http_call -> reply)
    (self : CloudflareDDNS) (s : state) :
  exists cs,
    calls (snd (update_dns py_repr net self s)) = (calls s ++ cs)%list
    /\ (List.length (writes cs) <= 1)%nat
    /\ Forall (fun c => verb c = "GET" \/ verb c = "POST" \/ verb c = "PUT") cs
    /\ Forall (fun c => is_write c = true ->
                 exists ip,
                   (forall s0, fst (get_public_ip net self s0) = Returns (Some ip))
                   /\ json_data c =
                      Some (JObj [("type", JStr (RECORD_TYPE (config self)));
                                  ("name", JStr (RECORD_NAME (config self)));
                                  ("content", JStr ip);
                                  ("ttl", JInt (TTL (config self)));
                                  ("proxied", JBool false)])) cs.
Proof.
  destruct (update_dns_shape py_repr net self s)
    as (tried & rest & Hc & _ & Hrest).
  exists (map ip_call tried ++ rest)%list. split; [exact Hc |].
  assert (Hw : writes (map ip_call tried) = []).
  { clear. induction tried as [| x l IH]; [reflexivity | exact IH]. }
  assert (Hg : forall P : http_call -> Prop,
    (forall x, P (ip_call x)) -> Forall P (map ip_call tried)).
  { intros P HP. apply Forall_forall; intros c Hin.
    apply in_map_iff in Hin as (x & <- & _). apply HP. }
  unfold writes in *. rewrite filter_app, Hw. cbn [app].
  split; [| split].
  - destruct Hrest as [-> | [-> | (ip & _ & [-> | (record_id & ->)])]];
      cbn; lia.
  - apply Forall_app; split; [apply Hg; intros x; now left |].
    destruct Hrest as [-> | [-> | (ip & _ & [-> | (record_id & ->)])]];
      repeat (apply Forall_cons; [cbn; tauto |]); apply Forall_nil.
  - apply Forall_app; split; [apply Hg; intros x; discriminate |].
    destruct Hrest as [-> | [-> | (ip & Hip & [-> | (record_id & ->)])]];
      repeat (apply Forall_cons;
              [first [discriminate | intros _; exists ip; split; [exact Hip | reflexivity]] |]);
      apply Forall_nil.
Qed.

(** X14.  Whatever the network does, the calls of a run come in this
    order: calls to IP endpoints of the configured record type; then
    nothing, or the list call alone, or the list call followed by exactly
    one create or one update.  So a write is always the last call of the
    run, and the call before it is the list call. *)
Theorem calls_in_order (py_repr : json -> string) (net : http_call -> reply)
    (self : CloudflareDDNS) (s : state) :
  exists tried rest,
    calls (snd (update_dns py_repr net self s))
    = (calls s ++ map ip_call tried ++ rest)%list
    /\ Forall (endpoint_call self) (map ip_call tried)
    /\ provider_calls self rest
    /\ (forall c, In c (map ip_call tried ++ rest) -> is_write c = true ->
          exists before,
            (map ip_call tried ++ rest = before ++ [list_call self; c])%list).
Proof.
  destruct (update_dns_shape py_repr net self s)
    as (tried & rest & Hc & Hend & Hrest).
  exists tried, rest. split; [exact Hc | split; [exact Hend | split]].
  { destruct Hrest as [-> | [-> | (ip & _ & [-> | (record_id & ->)])]];
      [now left | right; now left | right; right; left; now exists ip
      | right; right; right; now exists record_id, ip]. }
  intros c Hin Hw.
  apply in_app_or in Hin as [Hin | Hin].
  { apply in_map_iff in Hin as (x & <- & _). discriminate. }
  destruct Hrest as [-> | [-> | (ip & _ & [-> | (record_id & ->)])]].
  - destruct Hin.
  - destruct Hin as [<- | []]. discriminate.
  - destruct Hin as [<- | [<- | []]]; [discriminate |].
    exists (map ip_call tried). reflexivity.
  - destruct Hin as [<- | [<- | []]]; [discriminate |].
    exists (map ip_call tried). reflexivity.
Qed.

(** X13.  Whatever the network does, every call of a run is either a
    call to an IP endpoint of the configured record type, sent without any
    header or body (so without the API token), or a call to a URL under the
    configured zone of the provider, sent with the bearer token header. *)
Theorem token_stays_with_provider (py_repr : json -> string)
    (net : http_call -> reply) (self : CloudflareDDNS) (s : state) :
  exists cs,
    calls (snd (update_dns py_repr net self s)) = (calls s ++ cs)%list
    /\ Forall (fun c =>
                 (endpoint_call self c /\ headers c = [] /\ json_data c = None)
                 \/ (exists endpoint,
                       url c = "https://api.cloudflare.com/client/v4/zones/"
                               ++ ZONE_ID (config self) ++ "/" ++ endpoint
                       /\ headers c =
                          [("Authorization", "Bearer " ++ API_TOKEN (config self));
                           ("Content-Type", "application/json")])) cs.
Proof.
  destruct (update_dns_shape py_repr net self s)
    as (tried & rest & Hc & Hend & Hrest).
  exists (map ip_call tried ++ rest)%list. split; [exact Hc |].
  apply Forall_app; split.
  - apply Forall_forall; intros c Hin. left.
    split; [exact (proj1 (Forall_forall _ _) Hend c Hin) |].
    apply in_map_iff in Hin as (x & <- & _). now split.
  - assert (Hapi : forall method endpoint data,
      exists endpoint0,
        url (api_call self method endpoint data)
        = "https://api.cloudflare.com/client/v4/zones/"
          ++ ZONE_ID (config self) ++ "/" ++ endpoint0
        /\ headers (api_call self method endpoint data)
           = [("Authorization", "Bearer " ++ API_TOKEN (config self));
              ("Content-Type", "application/json")]).
    { intros method endpoint data. exists endpoint. now split. }
    destruct Hrest as [-> | [-> | (ip & _ & [-> | (record_id & ->)])]];
      repeat (apply Forall_cons; [right; apply Hapi |]); apply Forall_nil.
Qed.

(** ** The setup wizard and the configuration file *)

Lemma str_or_filled (s default : string) : default <> "" -> str_or s default <> "".
Proof.
  intros Hd. unfold str_or. destruct (str_truthy s) eqn:E; [now apply str_truthy_true | exact Hd].
Qed.

Lemma wbind_input {B} (k : string -> W B) (e : env) :
  wbind input k e =
  match answers e with
  | [] => (Throws (OtherException "EOF when reading a line"), e)
  | Returns line :: rest => k line (left_with e rest (cfg_file e))
  | Raises x :: rest => (Throws x, left_with e rest (cfg_file e))
  end.
Proof.
  unfold wbind, input. destruct (answers e) as [| [line | x] rest]; reflexivity.
Qed.

Lemma wbind_print {B} (text : string) (k : unit -> W B) (e : env) :
  wbind (print text) k e =
  match stdout e text with
  | Some msg => (Throws (OtherException msg), e)
  | None => k tt e
  end.
Proof. unfold wbind, print. now destruct (stdout e text). Qed.

Lemma wbind_CFG_FILE {B} (k : string -> W B) (e : env) :
  wbind CFG_FILE k e = k (cfg_path e) e.
Proof. reflexivity. Qed.

(** The TTL the wizard takes from the fifth answer. *)
Lemma ttl_choice (isdigit : string -> bool) (int : string -> result Z)
    (ttl_input : string) (e e1 : env) (o : outcome Z) :
  (if isdigit ttl_input then wlift (int ttl_input) else wret 60) e = (o, e1) ->
  e1 = e
  /\ match o with
     | Done ttl => (if isdigit ttl_input then int ttl_input else Returns 60) = Returns ttl
     | Exits _ => False
     | Throws x => isdigit ttl_input = true /\ int ttl_input = Raises x
     end.
Proof.
  destruct (isdigit ttl_input).
  - unfold wlift. destruct (int ttl_input); intros [= <- <-]; now repeat split.
  - unfold wret. intros [= <- <-]. now split.
Qed.

(** One line printed by the wizard: the cases of the standard output. *)
Ltac say :=
  rewrite wbind_print;
  cbn [answers cfg_file write_error unlink_error stdout cfg_path exn_text
       left_with with_file];
  match goal with
  | |- context [match ?c with Some _ => _ | None => _ end] =>
      let msg := fresh "msg" in
      let P := fresh "P" in
      destruct c as [msg |] eqn:P
  end.

(** One question of the wizard: the cases of the next answer. *)
Ltac ask a l :=
  rewrite wbind_input;
  cbn [answers cfg_file write_error unlink_error stdout cfg_path exn_text
       left_with with_file];
  match goal with
  | |- context [match ?l0 with [] => _ | _ :: _ => _ end] =>
      let x := fresh "x" in
      destruct l0 as [| [a | x] l]
  end.

(** The conversion of the fifth answer. *)
Ltac convert ttl x :=
  unfold wbind at 1;
  match goal with
  | |- context [(if ?b then wlift ?r else wret ?d) ?E] =>
      let c := fresh "c" in
      let e1 := fresh "e" in
      let H := fresh "Httl" in
      destruct ((if b then wlift r else wret d) E) as [[ttl | c | x] e1] eqn:H;
      apply ttl_choice in H; destruct H as [-> H]
  end.

(** The writing of the file. *)
Ltac save y remains :=
  unfold wbind at 1; unfold write_config;
  cbn [answers cfg_file write_error unlink_error stdout cfg_path exn_text
       left_with with_file];
  match goal with
  | |- context [match ?w with Some _ => _ | None => _ end] =>
      destruct w as [[y | y remains] |]
  end;
  [ | | rewrite wbind_CFG_FILE;
        cbn [answers cfg_file write_error unlink_error stdout cfg_path exn_text
             left_with with_file] ].

(** What a completed wizard has read and written. *)
Lemma setup_wizard_done (isdigit : string -> bool) (int : string -> result Z)
    (default_log : string) (e e' : env) (config : json) :
  setup_wizard isdigit int default_log e = (Done config, e') ->
  exists a1 a2 a3 a4 a5 a6 rest ttl,
    answers e = Returns a1 :: Returns a2 :: Returns a3 :: Returns a4
                :: Returns a5 :: Returns a6 :: rest
    /\ strip a1 <> "" /\ strip a2 <> ""
    /\ (if isdigit (strip a5) then int (strip a5) else Returns 60) = Returns ttl
    /\ write_error e = None
    /\ config = config_json (answered default_log a1 a2 a3 a4 ttl a6)
    /\ e' = left_with e rest (Some (Returns config)).
Proof.
  destruct e as [ans file werr uerr out path txt]. unfold setup_wizard.
  do 4 (say; [discriminate |]).
  ask a1 l1; try discriminate.
  destruct (str_truthy (strip a1)) eqn:T1; cbn [negb].
  2: { say; [discriminate | unfold wexit; discriminate]. }
  ask a2 l2; try discriminate.
  destruct (str_truthy (strip a2)) eqn:T2; cbn [negb].
  2: { say; [discriminate | unfold wexit; discriminate]. }
  ask a3 l3; try discriminate.
  ask a4 l4; try discriminate.
  ask a5 l5; try discriminate.
  convert ttl x; [| contradiction | discriminate].
  ask a6 rest; try discriminate.
  save y remains; try discriminate.
  do 3 (say; [discriminate |]).
  unfold wret. intros [= <- <-].
  exists a1, a2, a3, a4, a5, a6, rest, ttl.
  split; [reflexivity |].
  split; [now apply str_truthy_true |].
  split; [now apply str_truthy_true |].
  split; [exact Httl |].
  repeat split.
Qed.

(** The wizard leaves with [sys.exit] only on a blank token or zone, with
    status 1, the file as it was. *)
Lemma setup_wizard_exits (isdigit : string -> bool) (int : string -> result Z)
    (default_log : string) (e e' : env) (code : Z) :
  setup_wizard isdigit int default_log e = (Exits code, e') ->
  code = 1 /\ required_missing (answers e) = true /\ cfg_file e' = cfg_file e.
Proof.
  destruct e as [ans file werr uerr out path txt]. unfold setup_wizard.
  do 4 (say; [discriminate |]).
  ask a1 l1; try discriminate.
  cbn [required_missing is_blank is_filled].
  destruct (str_truthy (strip a1)) eqn:T1; cbn [negb orb andb].
  2: { say; [discriminate |]. unfold wexit. intros [= <- <-]. now repeat split. }
  ask a2 l2; try discriminate.
  cbn [is_blank].
  destruct (str_truthy (strip a2)) eqn:T2; cbn [negb orb andb].
  2: { say; [discriminate |]. unfold wexit. intros [= <- <-]. now repeat split. }
  ask a3 l3; try discriminate.
  ask a4 l4; try discriminate.
  ask a5 l5; try discriminate.
  convert ttl x; [| contradiction | discriminate].
  ask a6 rest; try discriminate.
  save y remains; try discriminate.
  do 3 (say; [discriminate |]).
  discriminate.
Qed.

(** A blank token or zone makes the wizard leave with status 1, unless a
    line it prints raises; the file is as it was. *)
Lemma setup_wizard_blank (isdigit : string -> bool) (int : string -> result Z)
    (default_log : string) (e : env) :
  required_missing (answers e) = true ->
  exists e',
    cfg_file e' = cfg_file e
    /\ (setup_wizard isdigit int default_log e = (Exits 1, e')
        \/ exists text msg,
             stdout e text = Some msg
             /\ setup_wizard isdigit int default_log e
                = (Throws (OtherException msg), e')).
Proof.
  destruct e as [ans file werr uerr out path txt]. unfold setup_wizard.
  cbn [answers cfg_file stdout].
  assert (Hfail : forall text msg (e' : env) (m : outcome json * env),
    out text = Some msg -> cfg_file e' = file ->
    m = (Throws (OtherException msg), e') ->
    exists e'0,
      cfg_file e'0 = file
      /\ (m = (Exits 1, e'0)
          \/ exists text msg, out text = Some msg
                              /\ m = (Throws (OtherException msg), e'0))).
  { intros text msg e' m Hout Hfile ->. exists e'. split; [exact Hfile |].
    right. now exists text, msg. }
  intros Hreq.
  do 4 (say; [eapply Hfail; [eassumption | | reflexivity]; reflexivity |]).
  destruct ans as [| [a1 | x] l1]; cbn [required_missing is_blank is_filled orb andb] in Hreq;
    try discriminate.
  rewrite wbind_input.
  cbn [answers cfg_file write_error unlink_error stdout cfg_path exn_text
       left_with with_file].
  destruct (str_truthy (strip a1)) eqn:T1; cbn [negb orb andb] in *.
  2: { say; [eapply Hfail; [eassumption | | reflexivity]; reflexivity |].
       unfold wexit. eexists. split; [| left; reflexivity]. reflexivity. }
  destruct l1 as [| [a2 | x] l2]; cbn [is_blank] in Hreq; try discriminate.
  rewrite wbind_input.
  cbn [answers cfg_file write_error unlink_error stdout cfg_path exn_text
       left_with with_file].
  destruct (str_truthy (strip a2)) eqn:T2; cbn [negb] in *; [discriminate |].
  say; [eapply Hfail; [eassumption | | reflexivity]; reflexivity |].
  unfold wexit. eexists. split; [| left; reflexivity]. reflexivity.
Qed.

(** The check of [load_config] passes exactly on a dict with a true token
    and a true zone, and gives the dict back. *)
Lemma validate_returns (config config' : json) :
  validate config = Returns config' <->
  config' = config /\ holds_true config "API_TOKEN" /\ holds_true config "ZONE_ID".
Proof.
  unfold validate, holds_true, get. split.
  - destruct config as [| | | | | | fields]; try discriminate.
    destruct (lookup "API_TOKEN" fields) as [token |] eqn:Lt; cbn [truthy negb];
      [| discriminate].
    destruct (truthy token) eqn:Tt; cbn [negb]; [| discriminate].
    destruct (lookup "ZONE_ID" fields) as [zone |] eqn:Lz; cbn [truthy negb];
      [| discriminate].
    destruct (truthy zone) eqn:Tz; cbn [negb]; [| discriminate].
    intros [= <-]. split; [reflexivity |].
    split; [now exists fields, token | now exists fields, zone].
  - intros (-> & (fields & token & -> & Lt & Tt) & (fields' & zone & [= <-] & Lz & Tz)).
    now rewrite Lt, Tt, Lz, Tz.
Qed.

Lemma config_json_credentials (cfg : Config) :
  API_TOKEN cfg <> "" -> ZONE_ID cfg <> "" ->
  holds_true (config_json cfg) "API_TOKEN" /\ holds_true (config_json cfg) "ZONE_ID".
Proof.
  intros Ht Hz. split.
  - exists [("API_TOKEN", JStr (API_TOKEN cfg)); ("ZONE_ID", JStr (ZONE_ID cfg));
            ("RECORD_NAME", JStr (RECORD_NAME cfg)); ("RECORD_TYPE", JStr (RECORD_TYPE cfg));
            ("TTL", JInt (TTL cfg)); ("LOG_FILE", JStr (LOG_FILE cfg))], (JStr (API_TOKEN cfg)).
    repeat split. now apply str_truthy_true.
  - exists [("API_TOKEN", JStr (API_TOKEN cfg)); ("ZONE_ID", JStr (ZONE_ID cfg));
            ("RECORD_NAME", JStr (RECORD_NAME cfg)); ("RECORD_TYPE", JStr (RECORD_TYPE cfg));
            ("TTL", JInt (TTL cfg)); ("LOG_FILE", JStr (LOG_FILE cfg))], (JStr (ZONE_ID cfg)).
    repeat split. now apply str_truthy_true.
Qed.

(** A configuration made of a token and a zone that are not blank passes
    the check of [load_config]. *)
Lemma answered_valid (default_log a1 a2 a3 a4 : string) (ttl : Z) (a6 : string) :
  str_truthy (strip a1) = true ->
  str_truthy (strip a2) = true ->
  validate (config_json (answered default_log a1 a2 a3 a4 ttl a6))
  = Returns (config_json (answered default_log a1 a2 a3 a4 ttl a6)).
Proof.
  intros T1 T2. apply validate_returns. split; [reflexivity |].
  apply config_json_credentials; now apply str_truthy_true.
Qed.

(** What [load_config] returns, it has read from a file that passes the
    check, or the wizard has made it. *)
Lemma load_config_done (isdigit : string -> bool) (int : string -> result Z)
    (default_log : string) (e e' : env) (config : json) :
  load_config isdigit int default_log e = (Done config, e') ->
  (cfg_file e = Some (Returns config) /\ validate config = Returns config /\ e' = e)
  \/ setup_wizard isdigit int default_log e = (Done config, e').
Proof.
  unfold load_config.
  destruct (cfg_file e) as [[c | x] |]; [| | now right].
  - destruct (validate c) as [c' | x] eqn:V.
    + intros [= <- <-]. left. apply validate_returns in V as V'.
      destruct V' as (-> & _). now repeat split.
    + destruct (is_Exception x); [| discriminate].
      rewrite wbind_print. destruct (stdout e _); [discriminate | now right].
  - destruct (is_Exception x); [| discriminate].
    rewrite wbind_print. destruct (stdout e _); [discriminate | now right].
Qed.

Lemma setup_wizard_valid (isdigit : string -> bool) (int : string -> result Z)
    (default_log : string) (e e' : env) (config : json) :
  setup_wizard isdigit int default_log e = (Done config, e') ->
  cfg_file e' = Some (Returns config) /\ validate config = Returns config.
Proof.
  intros H. apply setup_wizard_done in H.
  destruct H as (a1 & a2 & a3 & a4 & a5 & a6 & rest & ttl & _ & H1 & H2 & _ & _ & -> & ->).
  split; [reflexivity |].
  apply validate_returns. split; [reflexivity |].
  now apply config_json_credentials.
Qed.

(** When the wizard leaves with an exception, the file is as it was, or it
    holds the configuration typed and a line printed after the writing has
    raised, or the writing has failed on the open file. *)
Lemma setup_wizard_throws (isdigit : string -> bool) (int : string -> result Z)
    (default_log : string) (e e' : env) (x : exn) :
  setup_wizard isdigit int default_log e = (Throws x, e') ->
  cfg_file e' = cfg_file e
  \/ (exists config text msg,
        stdout e text = Some msg /\ x = OtherException msg
        /\ cfg_file e' = Some (Returns config)
        /\ validate config = Returns config)
  \/ (exists remains,
        write_error e = Some (DumpRaises x remains) /\ cfg_file e' = Some remains).
Proof.
  destruct e as [ans file werr uerr out path txt]. unfold setup_wizard.
  cbn [cfg_file write_error stdout].
  do 4 (say; [intros [= <- <-]; now left |]).
  ask a1 l1; try (intros [= <- <-]; now left).
  destruct (str_truthy (strip a1)) eqn:T1; cbn [negb].
  2: { say; [intros [= <- <-]; now left | unfold wexit; discriminate]. }
  ask a2 l2; try (intros [= <- <-]; now left).
  destruct (str_truthy (strip a2)) eqn:T2; cbn [negb].
  2: { say; [intros [= <- <-]; now left | unfold wexit; discriminate]. }
  ask a3 l3; try (intros [= <- <-]; now left).
  ask a4 l4; try (intros [= <- <-]; now left).
  ask a5 l5; try (intros [= <- <-]; now left).
  convert ttl y; [| contradiction | intros [= <- <-]; now left].
  ask a6 rest; try (intros [= <- <-]; now left).
  save z remains.
  - intros [= <- <-]. now left.
  - intros [= <- <-]. right; right. now exists remains.
  - assert (Hv := answered_valid default_log a1 a2 a3 a4 ttl a6 T1 T2).
    do 3 (say; [intros [= <- <-]; right; left;
                eexists; eexists; eexists;
                split; [eassumption |];
                split; [reflexivity |];
                split; [reflexivity | exact Hv] |]).
    unfold wret. discriminate.
Qed.

(** X15.  Once [load_config] has returned a configuration, be it read from
    the file or made by the wizard, [load_config] run again in the
    surroundings it left returns the same configuration, asks no question
    and leaves everything as it is. *)
Theorem load_config_stable (isdigit : string -> bool) (int : string -> result Z)
    (default_log : string) (e e' : env) (config : json) :
  load_config isdigit int default_log e = (Done config, e') ->
  load_config isdigit int default_log e' = (Done config, e').
Proof.
  intros H. apply load_config_done in H. destruct H as [(F & V & ->) | H].
  - unfold load_config. now rewrite F, V.
  - apply setup_wizard_valid in H. destruct H as (F & V).
    unfold load_config. now rewrite F, V.
Qed.

Lemma load_config_stable_witness :
  load_config Prompt.isdigit Prompt.int Prompt.default_log
    (Prompt.session Prompt.full (Some (Returns Prompt.no_token)))
  = (Done Prompt.full_config, Prompt.session [] (Some (Returns Prompt.full_config)))
  /\ load_config Prompt.isdigit Prompt.int Prompt.default_log
       (Prompt.session [] (Some (Returns Prompt.full_config)))
     = (Done Prompt.full_config, Prompt.session [] (Some (Returns Prompt.full_config))).
Proof.
  assert (H : load_config Prompt.isdigit Prompt.int Prompt.default_log
                (Prompt.session Prompt.full (Some (Returns Prompt.no_token)))
              = (Done Prompt.full_config,
                 Prompt.session [] (Some (Returns Prompt.full_config))))
    by (vm_compute; reflexivity).
  split; [exact H |].
  exact (load_config_stable _ _ _ _ _ _ H).
Defined.

(** X16.  The wizard leaves with [sys.exit] only when the token is left
    blank, or the token is given and the zone is left blank; the status is
    then 1 and the configuration file is as it was.  Conversely, on such
    answers the wizard leaves with status 1, unless one of the lines it
    prints raises: it then leaves with that error, the file as it was.  So
    on a standard output that takes every text, the wizard leaves with
    [sys.exit] exactly on such answers. *)
Theorem wizard_exits_on_blank (isdigit : string -> bool) (int : string -> result Z)
    (default_log : string) (e : env) :
  (forall code e',
      setup_wizard isdigit int default_log e = (Exits code, e') ->
      code = 1 /\ cfg_file e' = cfg_file e /\ required_missing (answers e) = true)
  /\ (required_missing (answers e) = true ->
      exists e',
        cfg_file e' = cfg_file e
        /\ (setup_wizard isdigit int default_log e = (Exits 1, e')
            \/ exists text msg,
                 stdout e text = Some msg
                 /\ setup_wizard isdigit int default_log e
                    = (Throws (OtherException msg), e')))
  /\ ((forall text, stdout e text = None) ->
      (required_missing (answers e) = true <->
       exists e', setup_wizard isdigit int default_log e = (Exits 1, e'))).
Proof.
  split; [| split].
  - intros code e' H. apply setup_wizard_exits in H. tauto.
  - apply setup_wizard_blank.
  - intros Hout. split.
    + intros H. apply (setup_wizard_blank isdigit int default_log) in H.
      destruct H as (e' & _ & [H | (text & msg & Hmsg & _)]); [now exists e' |].
      rewrite Hout in Hmsg. discriminate.
    + intros (e' & H). apply setup_wizard_exits in H. tauto.
Qed.

Lemma wizard_exits_on_blank_witness :
  (forall text,
      stdout (Prompt.session ["token-1"; "  "; "home.example.org"] None) text = None)
  /\ required_missing (answers (Prompt.session ["token-1"; "  "; "home.example.org"] None))
     = true
  /\ exists e',
       setup_wizard Prompt.isdigit Prompt.int Prompt.default_log
         (Prompt.session ["token-1"; "  "; "home.example.org"] None) = (Exits 1, e').
Proof.
  assert (Hout : forall text,
            stdout (Prompt.session ["token-1"; "  "; "home.example.org"] None) text = None)
    by reflexivity.
  assert (H : required_missing
                (answers (Prompt.session ["token-1"; "  "; "home.example.org"] None)) = true)
    by (vm_compute; reflexivity).
  split; [exact Hout | split; [exact H |]].
  exact (proj1 (proj2 (proj2 (wizard_exits_on_blank Prompt.isdigit Prompt.int
                                Prompt.default_log
                                (Prompt.session ["token-1"; "  "; "home.example.org"] None)))
                  Hout) H).
Defined.

(** X17.  Every configuration [load_config] returns is a dict with a true
    value under [API_TOKEN] and a true value under [ZONE_ID], whether it
    was read from the file or typed at the prompts. *)
Theorem loaded_config_has_credentials (isdigit : string -> bool)
    (int : string -> result Z) (default_log : string) (e e' : env) (config : json) :
  load_config isdigit int default_log e = (Done config, e') ->
  holds_true config "API_TOKEN" /\ holds_true config "ZONE_ID".
Proof.
  intros H. apply load_config_done in H. destruct H as [(_ & V & _) | H].
  - apply validate_returns in V. tauto.
  - apply setup_wizard_valid in H. destruct H as (_ & V).
    apply validate_returns in V. tauto.
Qed.

Lemma loaded_config_has_credentials_witness :
  load_config Prompt.isdigit Prompt.int Prompt.default_log
    (Prompt.session Prompt.defaults (Some (Raises (ValueError "Expecting value"))))
  = (Done Prompt.defaults_config, Prompt.session [] (Some (Returns Prompt.defaults_config)))
  /\ holds_true Prompt.defaults_config "API_TOKEN"
  /\ holds_true Prompt.defaults_config "ZONE_ID".
Proof.
  assert (H : load_config Prompt.isdigit Prompt.int Prompt.default_log
                (Prompt.session Prompt.defaults (Some (Raises (ValueError "Expecting value"))))
              = (Done Prompt.defaults_config,
                 Prompt.session [] (Some (Returns Prompt.defaults_config))))
    by (vm_compute; reflexivity).
  split; [exact H |].
  exact (loaded_config_has_credentials _ _ _ _ _ _ H).
Defined.

(** X18.  A configuration the wizard returns is made of six answers: the
    token and the zone stripped, both non-empty; the name, the type and the
    log path stripped, or their defaults when blank; the TTL converted by
    [int] when [isdigit] accepts the stripped answer, 60 otherwise.  Neither
    the type nor the TTL is checked any further.  The file holds that
    configuration, and the answers after the sixth are left unread. *)
Theorem wizard_config_typed (isdigit : string -> bool) (int : string -> result Z)
    (default_log : string) (e e' : env) (config : json) :
  setup_wizard isdigit int default_log e = (Done config, e') ->
  exists a1 a2 a3 a4 a5 a6 rest ttl,
    answers e = Returns a1 :: Returns a2 :: Returns a3 :: Returns a4
                :: Returns a5 :: Returns a6 :: rest
    /\ (if isdigit (strip a5) then int (strip a5) else Returns 60) = Returns ttl
    /\ config = config_json (answered default_log a1 a2 a3 a4 ttl a6)
    /\ API_TOKEN (answered default_log a1 a2 a3 a4 ttl a6) <> ""
    /\ ZONE_ID (answered default_log a1 a2 a3 a4 ttl a6) <> ""
    /\ RECORD_NAME (answered default_log a1 a2 a3 a4 ttl a6) <> ""
    /\ RECORD_TYPE (answered default_log a1 a2 a3 a4 ttl a6) <> ""
    /\ e' = left_with e rest (Some (Returns config)).
Proof.
  intros H. apply setup_wizard_done in H.
  destruct H as (a1 & a2 & a3 & a4 & a5 & a6 & rest & ttl & Ha & H1 & H2 & Ht & _ & Hc & He).
  exists a1, a2, a3, a4, a5, a6, rest, ttl.
  split; [exact Ha |]. split; [exact Ht |]. split; [exact Hc |].
  split; [exact H1 |]. split; [exact H2 |].
  split; [now apply str_or_filled |]. split; [now apply str_or_filled |].
  exact He.
Qed.

Lemma wizard_config_typed_witness :
  setup_wizard Prompt.isdigit Prompt.int Prompt.default_log
    (Prompt.session (Prompt.any_type ++ ["unread"]) None)
  = (Done (config_json (answered Prompt.default_log "token-1" "zone-1" "" " MX " 0 "")),
     Prompt.session ["unread"]
       (Some (Returns (config_json
                         (answered Prompt.default_log "token-1" "zone-1" "" " MX " 0 "")))))
  /\ exists a1 a2 a3 a4 a5 a6 rest ttl,
       answers (Prompt.session (Prompt.any_type ++ ["unread"]) None)
       = Returns a1 :: Returns a2 :: Returns a3 :: Returns a4
         :: Returns a5 :: Returns a6 :: rest
       /\ (if Prompt.isdigit (strip a5) then Prompt.int (strip a5) else Returns 60)
          = Returns ttl
       /\ config_json (answered Prompt.default_log "token-1" "zone-1" "" " MX " 0 "")
          = config_json (answered Prompt.default_log a1 a2 a3 a4 ttl a6)
       /\ API_TOKEN (answered Prompt.default_log a1 a2 a3 a4 ttl a6) <> ""
       /\ ZONE_ID (answered Prompt.default_log a1 a2 a3 a4 ttl a6) <> ""
       /\ RECORD_NAME (answered Prompt.default_log a1 a2 a3 a4 ttl a6) <> ""
       /\ RECORD_TYPE (answered Prompt.default_log a1 a2 a3 a4 ttl a6) <> ""
       /\ Prompt.session ["unread"]
            (Some (Returns (config_json
                              (answered Prompt.default_log "token-1" "zone-1" "" " MX " 0 ""))))
          = left_with (Prompt.session (Prompt.any_type ++ ["unread"]) None) rest
              (Some (Returns (config_json
                                (answered Prompt.default_log "token-1" "zone-1" "" " MX " 0 "")))).
Proof.
  assert (H : setup_wizard Prompt.isdigit Prompt.int Prompt.default_log
                (Prompt.session (Prompt.any_type ++ ["unread"]) None)
              = (Done (config_json (answered Prompt.default_log "token-1" "zone-1" "" " MX " 0 "")),
                 Prompt.session ["unread"]
                   (Some (Returns (config_json
                                     (answered Prompt.default_log "token-1" "zone-1" "" " MX " 0 ""))))))
    by (vm_compute; reflexivity).
  split; [exact H |].
  exact (wizard_config_typed _ _ _ _ _ _ H).
Defined.

(** X19.  When [isdigit] accepts the stripped TTL answer and [int] raises
    on it, the wizard, on a standard output that takes every text, raises
    that exception after the fifth question: the sixth answer is not read
    and the configuration file is not written. *)
Theorem ttl_conversion_error_aborts (isdigit : string -> bool)
    (int : string -> result Z) (default_log : string) (e : env)
    (a1 a2 a3 a4 a5 : string) (rest : list (result string)) (x : exn) :
  (forall text, stdout e text = None) ->
  answers e = Returns a1 :: Returns a2 :: Returns a3 :: Returns a4 :: Returns a5 :: rest ->
  strip a1 <> "" ->
  strip a2 <> "" ->
  isdigit (strip a5) = true ->
  int (strip a5) = Raises x ->
  setup_wizard isdigit int default_log e = (Throws x, left_with e rest (cfg_file e)).
Proof.
  intros Hout Ha H1 H2 Hd Hi.
  apply str_truthy_true in H1. apply str_truthy_true in H2.
  destruct e as [ans file werr uerr out path txt].
  cbn [answers stdout cfg_file] in *. subst ans.
  unfold setup_wizard.
  do 4 (rewrite wbind_print; cbn [stdout]; rewrite Hout).
  rewrite wbind_input; cbn [answers cfg_file write_error unlink_error stdout cfg_path
                            exn_text left_with]; rewrite H1; cbn [negb].
  rewrite wbind_input; cbn [answers cfg_file write_error unlink_error stdout cfg_path
                            exn_text left_with]; rewrite H2; cbn [negb].
  do 3 (rewrite wbind_input; cbn [answers cfg_file write_error unlink_error stdout
                                  cfg_path exn_text left_with]).
  unfold wbind at 1. rewrite Hd. unfold wlift. rewrite Hi. reflexivity.
Qed.

Lemma ttl_conversion_error_aborts_witness :
  ((forall text,
       stdout (Prompt.session ["token-1"; "zone-1"; ""; ""; "²"; "ddns.log"] None) text
       = None)
   /\ strip "token-1" <> "" /\ strip "zone-1" <> ""
   /\ Prompt.isdigit (strip "²") = true
   /\ Prompt.int (strip "²")
      = Raises (ValueError "invalid literal for int() with base 10: '²'"))
  /\ setup_wizard Prompt.isdigit Prompt.int Prompt.default_log
       (Prompt.session ["token-1"; "zone-1"; ""; ""; "²"; "ddns.log"] None)
     = (Throws (ValueError "invalid literal for int() with base 10: '²'"),
        left_with (Prompt.session ["token-1"; "zone-1"; ""; ""; "²"; "ddns.log"] None)
          [Returns "ddns.log"] None).
Proof.
  assert (Hout : forall text,
            stdout (Prompt.session ["token-1"; "zone-1"; ""; ""; "²"; "ddns.log"] None) text
            = None) by reflexivity.
  assert (H1 : strip "token-1" <> "") by (vm_compute; discriminate).
  assert (H2 : strip "zone-1" <> "") by (vm_compute; discriminate).
  assert (Hd : Prompt.isdigit (strip "²") = true) by (vm_compute; reflexivity).
  assert (Hi : Prompt.int (strip "²")
               = Raises (ValueError "invalid literal for int() with base 10: '²'"))
    by (vm_compute; reflexivity).
  split; [now repeat split |].
  exact (ttl_conversion_error_aborts Prompt.isdigit Prompt.int Prompt.default_log
           (Prompt.session ["token-1"; "zone-1"; ""; ""; "²"; "ddns.log"] None)
           "token-1" "zone-1" "" "" "²" [Returns "ddns.log"] _ Hout eq_refl H1 H2 Hd Hi).
Defined.

(** X20.  Started with [--reconfigure] where the file can be removed, the
    script leaves the file gone and reads no answer, so that the
    [load_config] of the next run is the wizard, whatever the file held
    before.  It leaves with status 0, unless one of the lines it prints
    raises: it then leaves with that error, the file gone all the same. *)
Theorem reconfigure_then_load (isdigit : string -> bool) (int : string -> result Z)
    (default_log : string) (e : env) :
  unlink_error e = None ->
  exists o e1,
    reconfigure e = (o, e1)
    /\ cfg_file e1 = None
    /\ answers e1 = answers e
    /\ load_config isdigit int default_log e1 = setup_wizard isdigit int default_log e1
    /\ (o = Exits 0
        \/ exists text msg, stdout e text = Some msg /\ o = Throws (OtherException msg))
    /\ ((forall text, stdout e text = None) -> o = Exits 0).
Proof.
  intros Hu. destruct e as [ans file werr uerr out path txt].
  cbn [unlink_error] in Hu. subst uerr.
  assert (Hload : forall e1, cfg_file e1 = None ->
            load_config isdigit int default_log e1
            = setup_wizard isdigit int default_log e1).
  { intros e1 H. unfold load_config. now rewrite H. }
  unfold reconfigure, wbind, file_exists, unlink, print, wexit, with_file.
  destruct file as [content |]; cbn.
  - destruct (out "✅ 配置已重置") as [msg |] eqn:P1; cbn.
    { eexists; eexists. split; [reflexivity |].
      split; [reflexivity |]. split; [reflexivity |]. split; [now apply Hload |].
      split; [right; now exists "✅ 配置已重置", msg |].
      intros H. rewrite H in P1. discriminate. }
    destruct (out "请重新运行脚本进行配置") as [msg |] eqn:P2; cbn.
    { eexists; eexists. split; [reflexivity |].
      split; [reflexivity |]. split; [reflexivity |]. split; [now apply Hload |].
      split; [right; now exists "请重新运行脚本进行配置", msg |].
      intros H. rewrite H in P2. discriminate. }
    eexists; eexists. split; [reflexivity |].
    split; [reflexivity |]. split; [reflexivity |]. split; [now apply Hload |].
    split; [now left | reflexivity].
  - destruct (out "配置文件不存在，无需重置") as [msg |] eqn:P1; cbn.
    { eexists; eexists. split; [reflexivity |].
      split; [reflexivity |]. split; [reflexivity |]. split; [now apply Hload |].
      split; [right; now exists "配置文件不存在，无需重置", msg |].
      intros H. rewrite H in P1. discriminate. }
    eexists; eexists. split; [reflexivity |].
    split; [reflexivity |]. split; [reflexivity |]. split; [now apply Hload |].
    split; [now left | reflexivity].
Qed.

Lemma reconfigure_then_load_witness :
  unlink_error (Prompt.gbk_session Prompt.full (Some (Returns Prompt.full_config))) = None
  /\ exists o e1,
       reconfigure (Prompt.gbk_session Prompt.full (Some (Returns Prompt.full_config)))
       = (o, e1)
       /\ cfg_file e1 = None
       /\ answers e1
          = answers (Prompt.gbk_session Prompt.full (Some (Returns Prompt.full_config)))
       /\ load_config Prompt.isdigit Prompt.int Prompt.default_log e1
          = setup_wizard Prompt.isdigit Prompt.int Prompt.default_log e1
       /\ (o = Exits 0
           \/ exists text msg,
                stdout (Prompt.gbk_session Prompt.full (Some (Returns Prompt.full_config)))
                  text = Some msg
                /\ o = Throws (OtherException msg))
       /\ ((forall text,
               stdout (Prompt.gbk_session Prompt.full (Some (Returns Prompt.full_config)))
                 text = None) ->
           o = Exits 0).
Proof.
  split; [reflexivity |].
  exact (reconfigure_then_load Prompt.isdigit Prompt.int Prompt.default_log
           (Prompt.gbk_session Prompt.full (Some (Returns Prompt.full_config))) eq_refl).
Defined.

(** X21.  A file that decodes to a dict with a true token and a true zone
    is returned as it is, whatever else it holds or lacks: no question is
    asked and nothing is written. *)
Theorem valid_file_loaded_as_is (isdigit : string -> bool) (int : string -> result Z)
    (default_log : string) (e : env) (config : json) :
  cfg_file e = Some (Returns config) ->
  holds_true config "API_TOKEN" ->
  holds_true config "ZONE_ID" ->
  load_config isdigit int default_log e = (Done config, e).
Proof.
  intros F Ht Hz.
  assert (V : validate config = Returns config) by (now apply validate_returns).
  unfold load_config. now rewrite F, V.
Qed.

Lemma valid_file_loaded_as_is_witness :
  (holds_true Prompt.bare "API_TOKEN" /\ holds_true Prompt.bare "ZONE_ID"
   /\ getitem Prompt.bare "LOG_FILE" = Raises (KeyError "LOG_FILE"))
  /\ load_config Prompt.isdigit Prompt.int Prompt.default_log
       (Prompt.session Prompt.full (Some (Returns Prompt.bare)))
     = (Done Prompt.bare, Prompt.session Prompt.full (Some (Returns Prompt.bare))).
Proof.
  assert (Ht : holds_true Prompt.bare "API_TOKEN").
  { exists [("API_TOKEN", JStr "token-1"); ("ZONE_ID", JStr "zone-1")], (JStr "token-1").
    repeat split. }
  assert (Hz : holds_true Prompt.bare "ZONE_ID").
  { exists [("API_TOKEN", JStr "token-1"); ("ZONE_ID", JStr "zone-1")], (JStr "zone-1").
    repeat split. }
  split; [repeat split; assumption |].
  exact (valid_file_loaded_as_is Prompt.isdigit Prompt.int Prompt.default_log
           (Prompt.session Prompt.full (Some (Returns Prompt.bare))) Prompt.bare
           eq_refl Ht Hz).
Defined.

(** X22.  However [load_config] ends, this is what it leaves of the
    configuration file.  When it returns a configuration, the file holds
    exactly that configuration.  When it leaves with [sys.exit], the status
    is 1 and the file is as it was.  When it leaves with an exception, the
    file is as it was; or the wizard has written the configuration typed,
    which passes the check of the next run, and a line printed after the
    writing has raised; or the writing has failed on the open file, and the
    file is what that left. *)
Theorem file_follows_load_config (isdigit : string -> bool) (int : string -> result Z)
    (default_log : string) (e e' : env) (o : outcome json) :
  load_config isdigit int default_log e = (o, e') ->
  match o with
  | Done config => cfg_file e' = Some (Returns config)
  | Exits code => code = 1 /\ cfg_file e' = cfg_file e
  | Throws x =>
      cfg_file e' = cfg_file e
      \/ (exists config text msg,
            stdout e text = Some msg /\ x = OtherException msg
            /\ cfg_file e' = Some (Returns config)
            /\ validate config = Returns config)
      \/ (exists remains,
            write_error e = Some (DumpRaises x remains) /\ cfg_file e' = Some remains)
  end.
Proof.
  intros H.
  assert (Hw : setup_wizard isdigit int default_log e = (o, e') ->
               match o with
               | Done config => cfg_file e' = Some (Returns config)
               | Exits code => code = 1 /\ cfg_file e' = cfg_file e
               | Throws x =>
                   cfg_file e' = cfg_file e
                   \/ (exists config text msg,
                         stdout e text = Some msg /\ x = OtherException msg
                         /\ cfg_file e' = Some (Returns config)
                         /\ validate config = Returns config)
                   \/ (exists remains,
                         write_error e = Some (DumpRaises x remains)
                         /\ cfg_file e' = Some remains)
               end).
  { intros Hw. destruct o as [config | code | x].
    - now apply setup_wizard_valid in Hw.
    - apply setup_wizard_exits in Hw. tauto.
    - now apply setup_wizard_throws in Hw. }
  assert (Hp : forall text,
            wbind (print text) (fun _ => setup_wizard isdigit int default_log) e = (o, e') ->
            match o with
            | Done config => cfg_file e' = Some (Returns config)
            | Exits code => code = 1 /\ cfg_file e' = cfg_file e
            | Throws x =>
                cfg_file e' = cfg_file e
                \/ (exists config text msg,
                      stdout e text = Some msg /\ x = OtherException msg
                      /\ cfg_file e' = Some (Returns config)
                      /\ validate config = Returns config)
                \/ (exists remains,
                      write_error e = Some (DumpRaises x remains)
                      /\ cfg_file e' = Some remains)
            end).
  { intros text. rewrite wbind_print.
    destruct (stdout e text); [| exact Hw].
    intros [= <- <-]. now left. }
  revert H. unfold load_config.
  destruct (cfg_file e) as [[c | y] |] eqn:F; [| | exact Hw].
  - destruct (validate c) as [c' | y] eqn:V.
    + intros [= <- <-]. apply validate_returns in V. destruct V as (-> & _). exact F.
    + destruct (is_Exception y); [apply Hp |]. intros [= <- <-]. now left.
  - destruct (is_Exception y); [apply Hp |]. intros [= <- <-]. now left.
Qed.

Lemma file_follows_load_config_witness :
  load_config Prompt.isdigit Prompt.int Prompt.default_log
    (Prompt.gbk_session Prompt.full (Some (Returns Prompt.no_token)))
  = (Throws (OtherException "'gbk' codec can't encode character '\u2705'"),
     Prompt.gbk_session [] (Some (Returns Prompt.full_config)))
  /\ (cfg_file (Prompt.gbk_session [] (Some (Returns Prompt.full_config)))
      = cfg_file (Prompt.gbk_session Prompt.full (Some (Returns Prompt.no_token)))
      \/ (exists config text msg,
            stdout (Prompt.gbk_session Prompt.full (Some (Returns Prompt.no_token))) text
            = Some msg
            /\ OtherException "'gbk' codec can't encode character '\u2705'"
               = OtherException msg
            /\ cfg_file (Prompt.gbk_session [] (Some (Returns Prompt.full_config)))
               = Some (Returns config)
            /\ validate config = Returns config)
      \/ (exists remains,
            write_error (Prompt.gbk_session Prompt.full (Some (Returns Prompt.no_token)))
            = Some (DumpRaises
                      (OtherException "'gbk' codec can't encode character '\u2705'")
                      remains)
            /\ cfg_file (Prompt.gbk_session [] (Some (Returns Prompt.full_config)))
               = Some remains)).
Proof.
  assert (H : load_config Prompt.isdigit Prompt.int Prompt.default_log
                (Prompt.gbk_session Prompt.full (Some (Returns Prompt.no_token)))
              = (Throws (OtherException "'gbk' codec can't encode character '\u2705'"),
                 Prompt.gbk_session [] (Some (Returns Prompt.full_config))))
    by (vm_compute; reflexivity).
  split; [exact H |].
  exact (file_follows_load_config _ _ _ _ _ _ H).
Defined.
